(** * SentEval classifier tools: a shallow embedding

    This development embeds [senteval/tools/classifier.py] (the class
    [PyTorchClassifier]: [prepare_split], [fit], [trainepoch], [score],
    [predict], [predict_proba], and the constructor of [MLP]) and
    [senteval/tools/validation.py] ([get_classif_name], the model-selection
    line [optreg = regs[np.argmax(scores)]], and the constructors and the
    method [run] of [InnerKFoldClassifier], [KFoldClassifier] and
    [SplitClassifier]).

    Conventions.
    - Python exceptions are values of [exn]; a method that may raise returns
      a [result].  The [while] loop of [fit] is run with fuel: [None] means
      that the loop is still running when the fuel is spent.
    - Python objects that are shared by reference (the [nn.Sequential] held
      in [self.model] and its deep copies) live in a [heap]; [self.model]
      and [bestmodel] are locations.
    - The numerical kernel (forward pass, loss, gradients, optimizer update,
      random permutations, softmax) is a parameter of the development: the
      statements hold for every such kernel.  A mini-batch update may raise,
      and indexing the training set by a mini-batch raises on a position
      that is out of range.
    - The optimizer holds the parameters of the module that it was built
      on; the trainer records whether these are still the parameters of
      [self.model].
    - Python floats that are quotients of two integers (accuracies) are
      modelled by the rational with that numerator and denominator.  The
      argument [validation_split] is a binary64 float, and
      [int(validation_split * len(X))] is computed on floats.
    - In the strategies, the calls of torch that build a network, the
      logistic regression and the stratified folds of sklearn, and the
      rounding and the mean of floats are parameters as well; a library
      call that may reject its arguments returns a [result].  The calls of
      [logging.info] and the counter that only they read are left out. *)

From Stdlib Require Import ZArith QArith List Bool Lia Sorted Permutation.
From Stdlib Require String DecimalString.
From Stdlib Require Import Floats.
Import ListNotations.
Open Scope Z_scope.

(** ** Python primitives *)

Inductive exn : Type :=
| AssertionError
| ValueError
| ZeroDivisionError
| UnboundLocalError
| TypeError
| IndexError
| RuntimeError
| OverflowError.

Inductive result (A : Type) : Type :=
| Ok (a : A)
| Raise (e : exn).

Arguments Ok {A} a.
Arguments Raise {A} e.

Definition bind {A B : Type} (c : result A) (k : A -> result B) : result B :=
  match c with
  | Ok a => k a
  | Raise e => Raise e
  end.

Notation "x <- c ;; k" := (bind c (fun x => k))
  (at level 61, c at next level, right associativity).
Notation "' p <- c ;; k" := (bind c (fun p => k))
  (at level 61, p pattern, c at next level, right associativity).

(** A [for] loop whose body may raise. *)
Fixpoint foldM {A B : Type} (f : A -> B -> result A) (l : list B) (a : A)
  : result A :=
  match l with
  | [] => Ok a
  | b :: l' => a' <- f a b ;; foldM f l' a'
  end.

(** [len(range(start, stop, step))] for a non-zero step. *)
Definition range_len (start stop step : Z) : nat :=
  if 0 <? step then Z.to_nat ((stop - start + step - 1) / step)
  else if step <? 0 then Z.to_nat ((start - stop - step - 1) / (- step))
  else 0%nat.

(** [range(start, stop, step)]; a zero step raises [ValueError]. *)
Definition py_range (start stop step : Z) : result (list Z) :=
  if step =? 0 then Raise ValueError
  else Ok (map (fun k => start + Z.of_nat k * step)
               (seq 0 (range_len start stop step))).

(** A slice bound [k] of a sequence of length [n]: negative bounds count
    from the end, and bounds are clipped to [0..n]. *)
Definition slice_index (n : nat) (k : Z) : nat :=
  Z.to_nat (if k <? 0 then Z.max 0 (Z.of_nat n + k) else Z.min k (Z.of_nat n)).

(** [l[i:j]] *)
Definition py_slice {A : Type} (l : list A) (i j : Z) : list A :=
  let a := slice_index (length l) i in
  let b := slice_index (length l) j in
  firstn (b - a) (skipn a l).

(** [l[i:]] *)
Definition py_slice_from {A : Type} (l : list A) (i : Z) : list A :=
  skipn (slice_index (length l) i) l.

(** [l[idx]] for an index array [idx] of non-negative positions. *)
Fixpoint gather {A : Type} (l : list A) (idx : list nat) : result (list A) :=
  match idx with
  | [] => Ok []
  | i :: idx' =>
      match nth_error l i with
      | Some x => xs <- gather l idx' ;; Ok (x :: xs)
      | None => Raise IndexError
      end
  end.

(** [1.0 * a / n] for an integer [a] and a length [n]. *)
Definition py_truediv (a : Z) (n : nat) : result Q :=
  match n with
  | O => Raise ZeroDivisionError
  | S _ => Ok (a # Pos.of_nat n)
  end.

(** [float(n)] for the length of a sequence: the nearest float. *)
Definition float_of_nat (n : nat) : float :=
  SF2Prim (binary_normalize prec emax (Z.of_nat n) 0 false).

(** [int(x)] for a float: the value is truncated toward zero; an infinity
    and a NaN raise. *)
Definition py_int (x : float) : result Z :=
  match Prim2SF x with
  | S754_zero _ => Ok 0
  | S754_infinity _ => Raise OverflowError
  | S754_nan => Raise ValueError
  | S754_finite s m e =>
      let a := if 0 <=? e then Z.pos m * 2 ^ e else Z.pos m / 2 ^ (- e) in
      Ok (if s then - a else a)
  end.

(** [a > b] on accuracies. *)
Definition Qgt_bool (a b : Q) : bool := negb (Qle_bool a b).

(** [pred.eq(ybatch).sum().item()] on two one-dimensional tensors: the
    number of positions that agree.  Tensors of different lengths broadcast
    when one of them has a single element and are rejected otherwise. *)
Definition count_eq (pred ybatch : list Z) : Z :=
  Z.of_nat (length (filter (fun py => fst py =? snd py) (combine pred ybatch))).

Definition eq_sum (pred ybatch : list Z) : result Z :=
  if (length pred =? length ybatch)%nat then Ok (count_eq pred ybatch)
  else match pred, ybatch with
       | [p], _ => Ok (count_eq (repeat p (length ybatch)) ybatch)
       | _, [y] => Ok (count_eq pred (repeat y (length pred)))
       | _, _ => Raise RuntimeError
       end.

(** ** Model selection in [validation.py] *)

(** [range(a, b)] *)
Definition py_range1 (a b : Z) : list Z :=
  map (fun k => a + Z.of_nat k) (seq 0 (Z.to_nat (b - a))).

Inductive strategy : Type :=
| InnerKFoldClassifier
| KFoldClassifier
| SplitClassifier.

(** The candidate list [regs] of each [run]. *)
Definition regs (s : strategy) (usepytorch noreg : bool) : list Q :=
  match s with
  | InnerKFoldClassifier =>
      if usepytorch then map (Qpower (10 # 1)) (py_range1 (-5) (-1))
      else map (Qpower (2 # 1)) (py_range1 (-2) 4)
  | KFoldClassifier =>
      if usepytorch then map (Qpower (10 # 1)) (py_range1 (-5) (-1))
      else map (Qpower (2 # 1)) (py_range1 (-1) 6)
  | SplitClassifier =>
      if noreg then [if usepytorch then Qpower (10 # 1) (-9)
                     else Qpower (10 # 1) 9]
      else if usepytorch then map (Qpower (10 # 1)) (py_range1 (-5) (-1))
      else map (Qpower (2 # 1)) (py_range1 (-2) 4)
  end.

(** The scan of [np.argmax] over a one-dimensional array: the running
    maximum, its index, and the index of the next element.  Only a
    strictly larger value replaces the maximum. *)
Definition argmax_step (acc : nat * Q * nat) (v : Q) : nat * Q * nat :=
  let '(best_i, best, i) := acc in
  if Qgt_bool v best then (i, v, S i) else (best_i, best, S i).

(** [np.argmax(scores)]; an empty sequence raises. *)
Definition np_argmax (scores : list Q) : result nat :=
  match scores with
  | [] => Raise ValueError
  | v0 :: rest => Ok (fst (fst (fold_left argmax_step rest (O, v0, 1%nat))))
  end.

(** [l[i]] for a list and a non-negative index. *)
Definition list_item {A : Type} (l : list A) (i : nat) : result A :=
  match nth_error l i with
  | Some x => Ok x
  | None => Raise IndexError
  end.

(** [optreg = regs[np.argmax(scores)]] *)
Definition optreg (s : strategy) (usepytorch noreg : bool) (scores : list Q)
  : result Q :=
  i <- np_argmax scores ;;
  list_item (regs s usepytorch noreg) i.

(** [scores] as the loop [for reg in regs] fills it, for a function
    [evaluate] that trains with one candidate and returns its rounded
    held-out accuracy. *)
Definition run_scores (evaluate : Q -> Q) (s : strategy)
           (usepytorch noreg : bool) : list Q :=
  map evaluate (regs s usepytorch noreg).

(** ** The heap of [nn.Module] objects *)

(** A reference to an object. *)
Definition loc := nat.

Section Classifier.

(** *** The numerical kernel *)

(** [Example]: one row of [X].  [Weights]: the parameters of the
    [nn.Sequential] network.  [Logits]: a row of class logits.  [Aux]:
    everything else that training reads and writes, that is the gradients,
    the optimizer's buffers and the numpy and torch random streams. *)
Context {Example Weights Logits Aux : Type}.

(** The network applied to one row in evaluation mode. *)
Variable forward : Weights -> Example -> Logits.
(** [output.data.max(1)[1]] on one row: the index of the largest logit. *)
Variable row_argmax : Logits -> Z.
(** [np.random.permutation(n)] *)
Variable np_permutation : Aux -> nat -> list nat * Aux.
(** One mini-batch update on the rows [Xbatch] and the labels [ybatch]:
    forward pass of [self.model] in training mode, loss, [zero_grad],
    [backward], [optimizer.step()].  The first argument is the parameters
    of [self.model].  The second is [None] when the optimizer holds these
    parameters, and the result then has their new values; otherwise it is
    the parameters that the optimizer holds, and the result has the new
    values of those, the parameters of [self.model] being left as they
    are.  The call raises when the forward pass or the loss rejects the
    batch. *)
Variable train_step :
  Weights -> option Weights -> Aux -> list Example -> list Z ->
  result (Weights * Aux).

(** An [nn.Module]: its parameters and its train/eval flag. *)
Record module_obj : Type := Module_obj {
  weights : Weights;
  training : bool
}.

(** The objects by location.  The locations below [next] are allocated;
    a new object is allocated at [next]. *)
Record heap : Type := Heap {
  cell : loc -> module_obj;
  next : loc
}.

(** An update in place of the object at [l]: every reference to it sees
    the new contents. *)
Definition upd (h : heap) (l : loc) (o : module_obj) : heap :=
  {| cell := fun l' => if Nat.eqb l' l then o else cell h l';
     next := next h |}.

(** [copy.deepcopy(obj)]: a new object with the same contents. *)
Definition deepcopy (h : heap) (l : loc) : loc * heap :=
  (next h,
   {| cell := fun l' => if Nat.eqb l' (next h) then cell h l else cell h l';
      next := S (next h) |}).

(** [self]: the attributes of a [PyTorchClassifier] that the methods use.
    [self.optimizer] is built on the parameters of the module that
    [self.model] refers to at that time, and keeps them when [self.model]
    is bound to another module: [detached] is [None] as long as the
    optimizer holds the parameters of [self.model], and is otherwise the
    parameters that it holds, which from then on nothing else refers to. *)
Record trainer : Type := Trainer {
  model : loc;
  detached : option Weights;
  nepoch : Z;
  aux : Aux;
  batch_size : Z;
  tenacity : Z;
  epoch_size : Z;
  max_epoch : Z
}.

(** [self.model = l]: the optimizer keeps the parameters that it holds;
    when they were those of the module that [self.model] referred to, and
    [l] is another module, they are detached from [self.model]. *)
Definition set_model (h : heap) (t : trainer) (l : loc) : trainer :=
  {| model := l;
     detached := match detached t with
                 | Some w => Some w
                 | None => if Nat.eqb l (model t) then None
                           else Some (weights (cell h (model t)))
                 end;
     nepoch := nepoch t; aux := aux t;
     batch_size := batch_size t; tenacity := tenacity t;
     epoch_size := epoch_size t; max_epoch := max_epoch t |}.

Definition set_nepoch (t : trainer) (n : Z) : trainer :=
  {| model := model t; detached := detached t; nepoch := n; aux := aux t;
     batch_size := batch_size t; tenacity := tenacity t;
     epoch_size := epoch_size t; max_epoch := max_epoch t |}.

Definition set_aux (t : trainer) (a : Aux) : trainer :=
  {| model := model t; detached := detached t; nepoch := nepoch t; aux := a;
     batch_size := batch_size t; tenacity := tenacity t;
     epoch_size := epoch_size t; max_epoch := max_epoch t |}.

Definition set_detached (t : trainer) (d : option Weights) : trainer :=
  {| model := model t; detached := d; nepoch := nepoch t; aux := aux t;
     batch_size := batch_size t; tenacity := tenacity t;
     epoch_size := epoch_size t; max_epoch := max_epoch t |}.

(** *** [score] and [predict] *)

(** [self.model(Xbatch).data.max(1)[1]] in evaluation mode.  The rows are
    float32 tensors, as every caller passes them, so that the conversions
    [.to(device, dtype)] of [score] and [.to(device)] of [predict] leave
    them as they are; in evaluation mode the network acts on each row of a
    batch by itself. *)
Definition predict_batch (w : Weights) (Xbatch : list Example) : list Z :=
  map row_argmax (map (forward w) Xbatch).

(** The body of [score] on the object that [self.model] refers to. *)
Definition score_on (bs : Z) (o : module_obj)
           (devX : list Example) (devy : list Z) : result Q :=
  starts <- py_range 0 (Z.of_nat (length devX)) bs ;;
  correct <- foldM (fun correct i =>
               let Xbatch := py_slice devX i (i + bs) in
               let ybatch := py_slice devy i (i + bs) in
               let pred := predict_batch (weights o) Xbatch in
               c <- eq_sum pred ybatch ;;
               Ok (correct + c))
             starts 0 ;;
  py_truediv correct (length devX).

(** [self.model.eval()] *)
Definition model_eval (h : heap) (l : loc) : heap :=
  upd h l {| weights := weights (cell h l); training := false |}.

(** [self.model.train()] *)
Definition model_train (h : heap) (l : loc) : heap :=
  upd h l {| weights := weights (cell h l); training := true |}.

Definition score (h : heap) (t : trainer)
           (devX : list Example) (devy : list Z) : result (heap * Q) :=
  let h := model_eval h (model t) in
  accuracy <- score_on (batch_size t) (cell h (model t)) devX devy ;;
  Ok (h, accuracy).

(** [np.vstack(yhat)] for a one-dimensional [yhat]: a column with one row
    per element; an empty [yhat] raises. *)
Definition np_vstack (yhat : list Z) : result (list Z) :=
  match yhat with
  | [] => Raise ValueError
  | _ => Ok yhat
  end.

Definition predict_on (bs : Z) (o : module_obj) (devX : list Example)
  : result (list Z) :=
  starts <- py_range 0 (Z.of_nat (length devX)) bs ;;
  let yhat :=
    fold_left (fun yhat i =>
                 let Xbatch := py_slice devX i (i + bs) in
                 yhat ++ predict_batch (weights o) Xbatch)
              starts [] in
  np_vstack yhat.

Definition predict (h : heap) (t : trainer) (devX : list Example)
  : result (heap * list Z) :=
  let h := model_eval h (model t) in
  yhat <- predict_on (batch_size t) (cell h (model t)) devX ;;
  Ok (h, yhat).

(** *** [predict_proba] *)

(** [Prob]: a probability as [F.softmax] computes it. *)
Context {Prob : Type}.
(** [p != 0.0] *)
Variable prob_nonzero : Prob -> bool.
(** [F.softmax(a)] on the array of logits of one batch, one row of
    probabilities per row of logits when it returns.  The source passes a
    numpy array where torch expects a tensor, so the call may raise. *)
Variable F_softmax : list Logits -> result (list (list Prob)).

(** The values that the local [probas] takes: the initial list [[]] or a
    two-dimensional array. *)
Inductive probas_val : Type :=
| PyEmptyList
| NdArray (rows : list (list Prob)).

(** [bool(a)] for an array: defined for at most one element. *)
Definition ndarray_bool (rows : list (list Prob)) : result bool :=
  match concat rows with
  | [] => Ok false
  | [p] => Ok (prob_nonzero p)
  | _ => Raise ValueError
  end.

(** [not probas] *)
Definition py_not (probas : probas_val) : result bool :=
  match probas with
  | PyEmptyList => Ok true
  | NdArray rows => b <- ndarray_bool rows ;; Ok (negb b)
  end.

(** [np.concatenate(probas, vals, axis=0)]: the arrays are not passed as one
    sequence, so [vals] is taken for the axis, which the keyword gives
    again; numpy rejects the call. *)
Definition np_concatenate_call (probas : probas_val)
           (vals : list (list Prob)) : result probas_val :=
  Raise TypeError.

Definition predict_proba_on (bs : Z) (o : module_obj) (devX : list Example)
  : result probas_val :=
  starts <- py_range 0 (Z.of_nat (length devX)) bs ;;
  foldM (fun probas i =>
           let Xbatch := py_slice devX i (i + bs) in
           vals <- F_softmax (map (forward (weights o)) Xbatch) ;;
           b <- py_not probas ;;
           if b then Ok (NdArray vals)
           else np_concatenate_call probas vals)
        starts PyEmptyList.

Definition predict_proba (h : heap) (t : trainer) (devX : list Example)
  : result (heap * probas_val) :=
  let h := model_eval h (model t) in
  probas <- predict_proba_on (batch_size t) (cell h (model t)) devX ;;
  Ok (h, probas).

(** *** [trainepoch] *)

(** What the updates of a pass read and write: the parameters of
    [self.model], the parameters that the optimizer holds when they are
    others, and the rest of the training state. *)
Record pass_state : Type := Pass_state {
  ps_weights : Weights;
  ps_detached : option Weights;
  ps_aux : Aux
}.

(** The body of the inner [for] on the positions [idx] of a mini-batch:
    [X[idx]] and [y[idx]] raise on a position that is out of range. *)
Definition train_batch (X : list Example) (y : list Z)
           (s : pass_state) (idx : list nat) : result pass_state :=
  Xbatch <- gather X idx ;;
  ybatch <- gather y idx ;;
  wa <- train_step (ps_weights s) (ps_detached s) (ps_aux s)
                   Xbatch ybatch ;;
  Ok (match ps_detached s with
      | None => {| ps_weights := fst wa; ps_detached := None;
                   ps_aux := snd wa |}
      | Some _ => {| ps_weights := ps_weights s;
                     ps_detached := Some (fst wa); ps_aux := snd wa |}
      end).

(** One pass over the training set: the body of the outer [for]. *)
Definition train_pass (bs : Z) (X : list Example) (y : list Z)
           (s : pass_state) : result pass_state :=
  let '(permutation, a) := np_permutation (ps_aux s) (length X) in
  starts <- py_range 0 (Z.of_nat (length X)) bs ;;
  foldM (fun s i => train_batch X y s (py_slice permutation i (i + bs)))
        starts
        {| ps_weights := ps_weights s; ps_detached := ps_detached s;
           ps_aux := a |}.

(** The body of [trainepoch] on the object that [self.model] refers to:
    the optimizer updates in place the parameters that it holds. *)
Definition trainepoch_on (bs nepoch epoch_size : Z)
           (X : list Example) (y : list Z) (o : module_obj)
           (d : option Weights) (a : Aux)
  : result (module_obj * pass_state) :=
  passes <- py_range nepoch (nepoch + epoch_size) 1 ;;
  s <- foldM (fun s _ => train_pass bs X y s) passes
             {| ps_weights := weights o; ps_detached := d; ps_aux := a |} ;;
  Ok ({| weights := ps_weights s; training := training o |}, s).

Definition trainepoch (h : heap) (t : trainer)
           (X : list Example) (y : list Z) (epoch_size : Z)
  : result (heap * trainer) :=
  let h := model_train h (model t) in
  os <- trainepoch_on (batch_size t) (nepoch t) epoch_size X y
                      (cell h (model t)) (detached t) (aux t) ;;
  Ok (upd h (model t) (fst os),
      set_nepoch (set_detached (set_aux t (ps_aux (snd os)))
                               (ps_detached (snd os)))
                 (nepoch t + epoch_size)).

(** A training set can be trained on when its labels cover its rows, the
    permutations drawn for it hold positions of it only, and the update
    accepts the batches of its rows. *)
Definition trainable (X : list Example) (y : list Z) : Prop :=
  (length X <= length y)%nat /\
  (forall a, Forall (fun i => (i < length X)%nat)
                    (fst (np_permutation a (length X)))) /\
  (forall w d a idx Xbatch ybatch,
      gather X idx = Ok Xbatch -> gather y idx = Ok ybatch ->
      exists wa, train_step w d a Xbatch ybatch = Ok wa).

(** *** [prepare_split] *)

Definition dataset : Type := list Example * list Z.

(** Truth value of the argument [validation_split] ([None] or a float). *)
Definition split_truthy (validation_split : option float) : bool :=
  match validation_split with
  | None => false
  | Some q => negb (PrimFloat.eqb q 0)
  end.

(** Truth value of the argument [validation_data] ([None] or a pair). *)
Definition data_truthy (validation_data : option dataset) : bool :=
  match validation_data with
  | None => false
  | Some _ => true
  end.

(** [int(validation_split * n)]: the product is a float. *)
Definition int_times (validation_split : float) (n : nat) : result Z :=
  py_int (validation_split * float_of_nat n).

Definition prepare_split (t : trainer) (X : list Example) (y : list Z)
           (validation_data : option dataset) (validation_split : option float)
  : result (trainer * (dataset * dataset)) :=
  if split_truthy validation_split || data_truthy validation_data then
    match validation_data with
    | Some (devX, devy) => Ok (t, ((X, y), (devX, devy)))
    | None =>
        let '(permutation, a) := np_permutation (aux t) (length X) in
        match validation_split with
        | None => Raise TypeError
        | Some q =>
            k <- int_times q (length X) ;;
            let trainidx := py_slice_from permutation k in
            let devidx := py_slice permutation 0 k in
            trainX <- gather X trainidx ;;
            trainy <- gather y trainidx ;;
            devX <- gather X devidx ;;
            devy <- gather y devidx ;;
            Ok (set_aux t a, ((trainX, trainy), (devX, devy)))
        end
    end
  else Raise AssertionError.

(** *** [fit] *)

(** The trainer, the heap and the local variables of [fit] that change in
    the loop.  [accuracy] and [bestmodel] are unbound before the first
    iteration. *)
Record fit_state : Type := Fit_state {
  hp : heap;
  self : trainer;
  bestaccuracy : Q;
  stop_train : bool;
  early_stop_count : Z;
  accuracy : option Q;
  bestmodel : option loc
}.

(** [not stop_train and self.nepoch <= self.max_epoch] *)
Definition fit_cond (st : fit_state) : bool :=
  negb (stop_train st) && (nepoch (self st) <=? max_epoch (self st)).

(** The body of the [while] loop. *)
Definition fit_body (early_stop : bool) (train dev : dataset)
           (st : fit_state) : result fit_state :=
  ht <- trainepoch (hp st) (self st) (fst train) (snd train)
                   (epoch_size (self st)) ;;
  ha <- score (fst ht) (snd ht) (fst dev) (snd dev) ;;
  let t := snd ht in
  let acc := snd ha in
  if Qgt_bool acc (bestaccuracy st) then
    let lh := deepcopy (fst ha) (model t) in
    Ok {| hp := snd lh; self := t;
          bestaccuracy := acc;
          stop_train := stop_train st;
          early_stop_count := early_stop_count st;
          accuracy := Some acc;
          bestmodel := Some (fst lh) |}
  else if early_stop then
    Ok {| hp := fst ha; self := t;
          bestaccuracy := bestaccuracy st;
          stop_train := if tenacity t <=? early_stop_count st then true
                        else stop_train st;
          early_stop_count := early_stop_count st + 1;
          accuracy := Some acc;
          bestmodel := bestmodel st |}
  else
    Ok {| hp := fst ha; self := t;
          bestaccuracy := bestaccuracy st;
          stop_train := stop_train st;
          early_stop_count := early_stop_count st;
          accuracy := Some acc;
          bestmodel := bestmodel st |}.

(** The [while] loop; one unit of fuel per execution of the body. *)
Fixpoint fit_loop (early_stop : bool) (train dev : dataset)
         (fuel : nat) (st : fit_state) : option (result fit_state) :=
  if fit_cond st then
    match fuel with
    | O => None
    | S fuel' =>
        match fit_body early_stop train dev st with
        | Ok st' => fit_loop early_stop train dev fuel' st'
        | Raise e => Some (Raise e)
        end
    end
  else Some (Ok st).

(** The state at the head of the loop. *)
Definition fit_init (h : heap) (t : trainer) : fit_state :=
  {| hp := h; self := t;
     bestaccuracy := (-1 # 1)%Q;
     stop_train := false;
     early_stop_count := 0;
     accuracy := None;
     bestmodel := None |}.

(** [self.model = bestmodel; return bestaccuracy] *)
Definition fit_return (st : fit_state) : result (heap * trainer * Q) :=
  match bestmodel st with
  | None => Raise UnboundLocalError
  | Some l => Ok (hp st, set_model (hp st) (self st) l, bestaccuracy st)
  end.

Definition fit (fuel : nat) (h : heap) (t : trainer)
           (X : list Example) (y : list Z)
           (validation_data : option dataset) (validation_split : option float)
           (early_stop : bool) : option (result (heap * trainer * Q)) :=
  let t := set_nepoch t 0 in
  match prepare_split t X y validation_data validation_split with
  | Raise e => Some (Raise e)
  | Ok (t, (train, dev)) =>
      match fit_loop early_stop train dev fuel (fit_init h t) with
      | None => None
      | Some (Raise e) => Some (Raise e)
      | Some (Ok st) => Some (fit_return st)
      end
  end.

(** *** Executions of the loop *)

(** [fit_steps n st st']: from [st] the loop runs [n] times, the condition
    holding before and the body returning at each of them, and reaches
    [st']. *)
Inductive fit_steps (early_stop : bool) (train dev : dataset)
  : nat -> fit_state -> fit_state -> Prop :=
| fit_steps_O st : fit_steps early_stop train dev O st st
| fit_steps_S n st st1 st2 :
    fit_cond st = true ->
    fit_body early_stop train dev st = Ok st1 ->
    fit_steps early_stop train dev n st1 st2 ->
    fit_steps early_stop train dev (S n) st st2.

(** Training stops exactly at iteration [n]: the loop has left after [n]
    executions of its body and not before. *)
Definition fit_stops_at (n : nat) (h : heap) (t : trainer)
           (X : list Example) (y : list Z)
           (validation_data : option dataset) (validation_split : option float)
           (early_stop : bool) (r : heap * trainer * Q) : Prop :=
  fit n h t X y validation_data validation_split early_stop = Some (Ok r) /\
  forall fuel, (fuel < n)%nat ->
    fit fuel h t X y validation_data validation_split early_stop = None.

(** *** The training trajectory *)

(** What one epoch of training and validation reads and writes: the object
    behind [self.model], the rest of the training state, [self.nepoch]. *)
Record live : Type := Live {
  live_obj : module_obj;
  live_detached : option Weights;
  live_aux : Aux;
  live_nepoch : Z
}.

Definition live_of (st : fit_state) : live :=
  {| live_obj := cell (hp st) (model (self st));
     live_detached := detached (self st);
     live_aux := aux (self st);
     live_nepoch := nepoch (self st) |}.

Definition set_training (b : bool) (o : module_obj) : module_obj :=
  {| weights := weights o; training := b |}.

(** [trainepoch] followed by [score], without the bookkeeping of [fit]:
    the new live state and the validation accuracy. *)
Definition train_round (bs es : Z) (train dev : dataset) (s : live)
  : result (live * Q) :=
  os <- trainepoch_on bs (live_nepoch s) es (fst train) (snd train)
                      (set_training true (live_obj s)) (live_detached s)
                      (live_aux s) ;;
  let o := set_training false (fst os) in
  acc <- score_on bs o (fst dev) (snd dev) ;;
  Ok ({| live_obj := o; live_detached := ps_detached (snd os);
         live_aux := ps_aux (snd os);
         live_nepoch := live_nepoch s + es |}, acc).

(** [n] rounds in a row: the last live state and the accuracies in order. *)
Fixpoint rounds (bs es : Z) (train dev : dataset) (n : nat) (s : live)
  : result (live * list Q) :=
  match n with
  | O => Ok (s, [])
  | S n' =>
      sa <- train_round bs es train dev s ;;
      r <- rounds bs es train dev n' (fst sa) ;;
      Ok (fst r, snd sa :: snd r)
  end.

(** *** Accuracy sequences *)

(** The best accuracy after a sequence of epochs, from the best before it. *)
Fixpoint best_of (best : Q) (accs : list Q) : Q :=
  match accs with
  | [] => best
  | a :: accs' => best_of (if Qgt_bool a best then a else best) accs'
  end.

(** The number of epochs of a sequence that do not improve on the best
    accuracy seen before them. *)
Fixpoint non_improving (best : Q) (accs : list Q) : nat :=
  match accs with
  | [] => O
  | a :: accs' =>
      if Qgt_bool a best then non_improving a accs'
      else S (non_improving best accs')
  end.

(** The position, counted from one, of the last epoch of a sequence that
    improves on the best accuracy seen before it; zero when none does. *)
Fixpoint best_round (best : Q) (accs : list Q) : nat :=
  match accs with
  | [] => O
  | a :: accs' =>
      match best_round (if Qgt_bool a best then a else best) accs' with
      | O => if Qgt_bool a best then 1%nat else O
      | S k => S (S k)
      end
  end.

(** [self.model] and [bestmodel] refer to allocated objects, and to
    different ones. *)
Definition wf_state (st : fit_state) : Prop :=
  (model (self st) < next (hp st))%nat /\
  forall l, bestmodel st = Some l ->
            (l < next (hp st))%nat /\ l <> model (self st).

(** ** Properties *)

(** *** Batches *)

Lemma bind_ok {A B : Type} (c : result A) (k : A -> result B) (b : B) :
  bind c k = Ok b -> exists a, c = Ok a /\ k a = Ok b.
Proof.
  destruct c as [a|e]; simpl; intros H; [eauto | discriminate].
Qed.

Lemma py_range_pos (n bs : Z) :
  0 < bs ->
  py_range 0 n bs =
  Ok (map (fun k => Z.of_nat k * bs) (seq 0 (range_len 0 n bs))).
Proof.
  intros Hbs. unfold py_range.
  destruct (Z.eqb_spec bs 0) as [E|_]; [lia | reflexivity].
Qed.

Lemma range_len_covers (n bs : Z) :
  0 < bs -> 0 <= n -> n <= Z.of_nat (range_len 0 n bs) * bs.
Proof.
  intros Hbs Hn. unfold range_len.
  destruct (Z.ltb_spec 0 bs) as [_|]; [|lia].
  assert (Hq : 0 <= (n - 0 + bs - 1) / bs) by (apply Z.div_pos; lia).
  rewrite Z2Nat.id by exact Hq.
  pose proof (Z.div_mod (n - 0 + bs - 1) bs ltac:(lia)) as Hd.
  pose proof (Z.mod_pos_bound (n - 0 + bs - 1) bs Hbs) as Hm.
  nia.
Qed.

Lemma py_slice_batch {A : Type} (l : list A) (k : nat) (bs : Z) :
  0 < bs ->
  py_slice l (Z.of_nat k * bs) (Z.of_nat k * bs + bs) =
  firstn (Z.to_nat bs) (skipn (k * Z.to_nat bs) l).
Proof.
  intros Hbs. unfold py_slice, slice_index.
  assert (Hi : 0 <= Z.of_nat k * bs) by nia.
  destruct (Z.ltb_spec (Z.of_nat k * bs) 0) as [|_]; [lia|].
  destruct (Z.ltb_spec (Z.of_nat k * bs + bs) 0) as [|_]; [lia|].
  assert (Hk : (k * Z.to_nat bs)%nat = Z.to_nat (Z.of_nat k * bs)).
  { rewrite Z2Nat.inj_mul, Nat2Z.id by lia. reflexivity. }
  rewrite Hk.
  set (i := Z.of_nat k * bs) in *.
  set (n := length l).
  destruct (Z_le_gt_dec (Z.of_nat n) i) as [Hle|Hgt].
  - replace (Z.to_nat (Z.min (i + bs) (Z.of_nat n)) -
             Z.to_nat (Z.min i (Z.of_nat n)))%nat with 0%nat by lia.
    rewrite (skipn_all2 (n := Z.to_nat i)) by (fold n; lia).
    now rewrite firstn_nil.
  - replace (Z.to_nat (Z.min i (Z.of_nat n))) with (Z.to_nat i) by lia.
    destruct (Z_le_gt_dec (i + bs) (Z.of_nat n)) as [Hle'|Hgt'].
    + f_equal. lia.
    + rewrite !firstn_all2; [reflexivity | |]; rewrite length_skipn;
        fold n; lia.
Qed.

(** The batches of a list, put end to end, are the list. *)
Lemma concat_batches {A : Type} (b : nat) :
  forall (m : nat) (l : list A),
    (length l <= m * b)%nat ->
    concat (map (fun k => firstn b (skipn (k * b) l)) (seq 0 m)) = l.
Proof.
  induction m as [|m IH]; intros l Hl.
  - destruct l; [reflexivity | simpl in Hl; lia].
  - rewrite <- cons_seq, <- seq_shift. simpl map. rewrite map_map.
    simpl concat.
    transitivity (firstn b l ++ skipn b l); [|apply firstn_skipn].
    f_equal. etransitivity; [|apply (IH (skipn b l))].
    + f_equal. apply map_ext. intros k.
      rewrite skipn_skipn. do 2 f_equal. lia.
    + rewrite length_skipn. lia.
Qed.

Lemma skipn_combine {A B : Type} (n : nat) :
  forall (l : list A) (l' : list B),
    skipn n (combine l l') = combine (skipn n l) (skipn n l').
Proof.
  induction n as [|n IH]; intros [|a l] [|b l']; simpl; auto.
  now destruct (skipn n l).
Qed.

Lemma fold_left_app_concat {A B : Type} (f : B -> list A) :
  forall (l : list B) (acc : list A),
    fold_left (fun yhat i => yhat ++ f i) l acc = acc ++ concat (map f l).
Proof.
  induction l as [|b l IH]; intros acc; simpl.
  - now rewrite app_nil_r.
  - now rewrite IH, app_assoc.
Qed.

Lemma count_eq_nonneg (p y : list Z) : 0 <= count_eq p y.
Proof. unfold count_eq. lia. Qed.

Lemma count_eq_le (p y : list Z) : count_eq p y <= Z.of_nat (length p).
Proof.
  unfold count_eq.
  pose proof (filter_length_le (fun py => fst py =? snd py) (combine p y)).
  rewrite length_combine in H. lia.
Qed.

Lemma eq_sum_nonneg (p y : list Z) (c : Z) : eq_sum p y = Ok c -> 0 <= c.
Proof.
  unfold eq_sum. intros H.
  destruct (length p =? length y)%nat.
  - inversion H. apply count_eq_nonneg.
  - destruct p as [|p0 [|p1 p]]; destruct y as [|y0 [|y1 y]];
      inversion H; apply count_eq_nonneg.
Qed.

Lemma eq_sum_same_length (p y : list Z) :
  length p = length y -> eq_sum p y = Ok (count_eq p y).
Proof.
  intros H. unfold eq_sum. now rewrite H, Nat.eqb_refl.
Qed.

(** The matches counted batch by batch add up to the matches of the whole. *)
Lemma foldM_count_batches (f : list Example -> list Z) (b : nat) :
  (forall n l, f (firstn b (skipn n l)) = firstn b (skipn n (f l))) ->
  forall (m : nat) (ks : list nat) (X : list Example) (y : list Z) (c0 : Z),
    length (f X) = length y ->
    foldM (fun correct k =>
             c <- eq_sum (f (firstn b (skipn (k * b) X)))
                         (firstn b (skipn (k * b) y)) ;;
             Ok (correct + c)) ks c0 =
    Ok (c0 + Z.of_nat (length (filter (fun py => fst py =? snd py)
          (concat (map (fun k => firstn b (skipn (k * b) (combine (f X) y)))
                       ks))))).
Proof.
  intros Hf m ks X y. induction ks as [|k ks IH]; intros c0 Hlen.
  - simpl. f_equal. lia.
  - simpl foldM. rewrite eq_sum_same_length.
    + simpl bind. rewrite IH by exact Hlen. f_equal.
      simpl concat. rewrite filter_app, length_app.
      unfold count_eq. rewrite Hf, skipn_combine, combine_firstn. lia.
    + rewrite Hf, !length_firstn, !length_skipn. lia.
Qed.

Lemma predict_batch_slice (w : Weights) (b n : nat) (l : list Example) :
  predict_batch w (firstn b (skipn n l)) =
  firstn b (skipn n (predict_batch w l)).
Proof.
  unfold predict_batch. now rewrite !skipn_map, !firstn_map.
Qed.

Lemma foldM_ext {A B : Type} (f g : A -> B -> result A) (l : list B) :
  (forall a b, In b l -> f a b = g a b) ->
  forall a, foldM f l a = foldM g l a.
Proof.
  induction l as [|b l IH]; intros H a; simpl; [reflexivity|].
  rewrite H by now left.
  destruct (g a b); simpl; [apply IH; intros; apply H; now right | reflexivity].
Qed.

Lemma foldM_map {A B C : Type} (f : A -> C -> result A) (g : B -> C)
      (l : list B) :
  forall a, foldM f (map g l) a = foldM (fun a b => f a (g b)) l a.
Proof.
  induction l as [|b l IH]; intros a; simpl; [reflexivity|].
  destruct (f a (g b)); simpl; auto.
Qed.

(** On a well-formed non-empty data set [score] returns the fraction of
    rows whose predicted class is the label. *)
Lemma score_on_eq (bs : Z) (o : module_obj)
      (devX : list Example) (devy : list Z) :
  0 < bs -> devX <> [] -> length devX = length devy ->
  score_on bs o devX devy =
  Ok (count_eq (predict_batch (weights o) devX) devy
      # Pos.of_nat (length devX)).
Proof.
  intros Hbs Hne Hlen. unfold score_on.
  rewrite py_range_pos by exact Hbs. simpl bind.
  rewrite foldM_map.
  rewrite (foldM_ext _
    (fun correct k =>
       c <- eq_sum (predict_batch (weights o)
                      (firstn (Z.to_nat bs) (skipn (k * Z.to_nat bs) devX)))
                   (firstn (Z.to_nat bs) (skipn (k * Z.to_nat bs) devy)) ;;
       Ok (correct + c))).
  2:{ intros a k _. now rewrite !py_slice_batch by exact Hbs. }
  rewrite (foldM_count_batches (predict_batch (weights o)) (Z.to_nat bs)
             (predict_batch_slice (weights o) (Z.to_nat bs)) 0%nat).
  2:{ unfold predict_batch. now rewrite !length_map. }
  rewrite concat_batches.
  2:{ rewrite length_combine. unfold predict_batch. rewrite !length_map.
      pose proof (range_len_covers (Z.of_nat (length devX)) bs Hbs
                    ltac:(lia)) as Hc.
      rewrite <- Hlen, Nat.min_id.
      apply Nat2Z.inj_le. rewrite Nat2Z.inj_mul, Z2Nat.id by lia. exact Hc. }
  simpl bind. unfold py_truediv.
  destruct devX as [|x devX]; [congruence | reflexivity].
Qed.

Lemma predict_on_eq (bs : Z) (o : module_obj) (devX : list Example) :
  0 < bs -> devX <> [] ->
  predict_on bs o devX = Ok (predict_batch (weights o) devX).
Proof.
  intros Hbs Hne. unfold predict_on.
  rewrite py_range_pos by exact Hbs. simpl bind.
  rewrite fold_left_app_concat, map_map. simpl app.
  rewrite (map_ext _
    (fun k => firstn (Z.to_nat bs)
                (skipn (k * Z.to_nat bs) (predict_batch (weights o) devX)))).
  2:{ intros k. rewrite py_slice_batch by exact Hbs.
      apply predict_batch_slice. }
  rewrite concat_batches.
  - unfold np_vstack, predict_batch.
    destruct devX as [|x devX]; [congruence | reflexivity].
  - unfold predict_batch. rewrite !length_map.
    pose proof (range_len_covers (Z.of_nat (length devX)) bs Hbs
                  ltac:(lia)) as Hc.
    apply Nat2Z.inj_le. rewrite Nat2Z.inj_mul, Z2Nat.id by lia. exact Hc.
Qed.

(** C8. On every non-empty data set whose labels are parallel to its rows,
    and for a positive batch size, [score] returns a value of [[0, 1]] that
    is the number of positions where the column returned by [predict] on the
    same rows (the predicted classes, in input order, of the same model)
    agrees with the labels, divided by the number of rows. *)
Theorem score_is_fraction_of_predict_matches
        (h : heap) (t : trainer) (devX : list Example) (devy : list Z) :
  0 < batch_size t -> devX <> [] -> length devX = length devy ->
  exists h1 h2 acc yhat,
    score h t devX devy = Ok (h1, acc) /\
    predict h t devX = Ok (h2, yhat) /\
    yhat = map (fun x => row_argmax (forward (weights (cell h (model t))) x))
               devX /\
    acc = count_eq yhat devy # Pos.of_nat (length devX) /\
    (0 <= acc)%Q /\ (acc <= 1)%Q.
Proof.
  intros Hbs Hne Hlen.
  unfold score, predict.
  rewrite score_on_eq, predict_on_eq by assumption. simpl bind.
  rewrite Nat.eqb_refl. simpl weights.
  do 4 eexists. split; [reflexivity|]. split; [reflexivity|].
  split; [unfold predict_batch; now rewrite map_map|].
  split; [reflexivity|].
  pose proof (count_eq_nonneg
                (predict_batch (weights (cell h (model t))) devX) devy) as H0.
  pose proof (count_eq_le
                (predict_batch (weights (cell h (model t))) devX) devy) as H1.
  unfold predict_batch in H1 at 2. rewrite !length_map in H1.
  assert (Hp : Z.pos (Pos.of_nat (length devX)) = Z.of_nat (length devX)).
  { destruct devX as [|x devX]; [congruence|].
    simpl length. lia. }
  unfold Qle. simpl. lia.
Qed.

(** *** One execution of the loop body *)

(** What one execution of the body does to the state of [fit], given the
    live state [s'] and the accuracy [acc] that the round of training and
    validation produces. *)
Record step_spec (early_stop : bool) (st : fit_state) (s' : live) (acc : Q)
       (st' : fit_state) : Prop := Step_spec {
  ss_live : live_of st' = s';
  ss_model : model (self st') = model (self st);
  ss_batch_size : batch_size (self st') = batch_size (self st);
  ss_tenacity : tenacity (self st') = tenacity (self st);
  ss_epoch_size : epoch_size (self st') = epoch_size (self st);
  ss_max_epoch : max_epoch (self st') = max_epoch (self st);
  ss_nepoch : nepoch (self st') = nepoch (self st) + epoch_size (self st);
  ss_accuracy : accuracy st' = Some acc;
  ss_frame : forall l, l <> model (self st) -> (l < next (hp st))%nat ->
                       cell (hp st') l = cell (hp st) l;
  ss_next : next (hp st') =
            if Qgt_bool acc (bestaccuracy st) then S (next (hp st))
            else next (hp st);
  ss_bestaccuracy : bestaccuracy st' =
                    if Qgt_bool acc (bestaccuracy st) then acc
                    else bestaccuracy st;
  ss_bestmodel : bestmodel st' =
                 if Qgt_bool acc (bestaccuracy st) then Some (next (hp st))
                 else bestmodel st;
  ss_copy : Qgt_bool acc (bestaccuracy st) = true ->
            cell (hp st') (next (hp st)) = live_obj s';
  ss_stop_train : stop_train st' =
                  if Qgt_bool acc (bestaccuracy st) then stop_train st
                  else if early_stop
                       then (if tenacity (self st) <=? early_stop_count st
                             then true else stop_train st)
                       else stop_train st;
  ss_early_stop_count : early_stop_count st' =
                        if Qgt_bool acc (bestaccuracy st)
                        then early_stop_count st
                        else if early_stop then early_stop_count st + 1
                             else early_stop_count st
}.

(** The body of the loop is a round of training and validation on the live
    state followed by the bookkeeping of [step_spec]; it raises exactly when
    the round does. *)
Lemma fit_body_cases (early_stop : bool) (train dev : dataset)
      (st : fit_state) :
  match train_round (batch_size (self st)) (epoch_size (self st)) train dev
                    (live_of st) with
  | Raise e => fit_body early_stop train dev st = Raise e
  | Ok sa => exists st', fit_body early_stop train dev st = Ok st' /\
                         step_spec early_stop st (fst sa) (snd sa) st'
  end.
Proof.
  unfold train_round, fit_body, trainepoch, score, live_of, set_training.
  simpl. rewrite Nat.eqb_refl. simpl.
  destruct (trainepoch_on _ _ _ _ _ _ _) as [[o a]|e]; simpl; [|reflexivity].
  rewrite !Nat.eqb_refl. simpl.
  destruct (score_on _ _ _ _) as [acc|e]; simpl; [|reflexivity].
  destruct (Qgt_bool acc (bestaccuracy st)) eqn:Hgt;
    [|destruct early_stop]; eexists; (split; [reflexivity|]);
    constructor; unfold live_of; simpl; intros;
    rewrite ?Hgt, ?Nat.eqb_refl; simpl;
    repeat match goal with
           | |- context [Nat.eqb ?a ?b] => destruct (Nat.eqb_spec a b)
           end;
    try reflexivity; try lia; try congruence.
Qed.

Lemma fit_body_ok (early_stop : bool) (train dev : dataset)
      (st st' : fit_state) :
  fit_body early_stop train dev st = Ok st' ->
  exists s' acc,
    train_round (batch_size (self st)) (epoch_size (self st)) train dev
                (live_of st) = Ok (s', acc) /\
    step_spec early_stop st s' acc st'.
Proof.
  intros H. pose proof (fit_body_cases early_stop train dev st) as Hc.
  destruct (train_round _ _ _ _ _) as [[s' acc]|e].
  - destruct Hc as (st'' & Hb & Hs). rewrite H in Hb. inversion Hb; subst.
    eauto.
  - congruence.
Qed.

Lemma fit_body_of_round (early_stop : bool) (train dev : dataset)
      (st : fit_state) (s' : live) (acc : Q) :
  train_round (batch_size (self st)) (epoch_size (self st)) train dev
              (live_of st) = Ok (s', acc) ->
  exists st', fit_body early_stop train dev st = Ok st' /\
              step_spec early_stop st s' acc st'.
Proof.
  intros H. pose proof (fit_body_cases early_stop train dev st) as Hc.
  rewrite H in Hc. exact Hc.
Qed.

(** *** The loop and its executions *)

Lemma fit_loop_unfold (early_stop : bool) (train dev : dataset)
      (fuel : nat) (st : fit_state) :
  fit_loop early_stop train dev fuel st =
  if fit_cond st then
    match fuel with
    | O => None
    | S fuel' =>
        match fit_body early_stop train dev st with
        | Ok st' => fit_loop early_stop train dev fuel' st'
        | Raise e => Some (Raise e)
        end
    end
  else Some (Ok st).
Proof. destruct fuel; reflexivity. Qed.

Lemma fit_steps_trans (early_stop : bool) (train dev : dataset)
      (n k : nat) (a b c : fit_state) :
  fit_steps early_stop train dev n a b ->
  fit_steps early_stop train dev k b c ->
  fit_steps early_stop train dev (n + k) a c.
Proof.
  induction 1; intros Hk; simpl; [exact Hk|].
  econstructor; eauto.
Qed.

(** A loop that returns has run some number of times and left because its
    condition failed. *)
Lemma fit_loop_steps (early_stop : bool) (train dev : dataset) :
  forall (fuel : nat) (st st' : fit_state),
    fit_loop early_stop train dev fuel st = Some (Ok st') ->
    exists n, (n <= fuel)%nat /\
              fit_steps early_stop train dev n st st' /\
              fit_cond st' = false.
Proof.
  induction fuel as [|fuel IH]; intros st st' H;
    rewrite fit_loop_unfold in H; destruct (fit_cond st) eqn:Hc.
  - discriminate.
  - inversion H; subst. exists O. repeat split; [lia | constructor | exact Hc].
  - destruct (fit_body early_stop train dev st) as [st1|e] eqn:Hb;
      [|discriminate].
    destruct (IH _ _ H) as (n & Hn & Hs & Hf).
    exists (S n). repeat split; [lia | econstructor; eauto | exact Hf].
  - inversion H; subst. exists O. repeat split; [lia | constructor | exact Hc].
Qed.

Lemma fit_steps_loop (early_stop : bool) (train dev : dataset)
      (n : nat) (st st' : fit_state) :
  fit_steps early_stop train dev n st st' ->
  fit_cond st' = false ->
  forall fuel, (n <= fuel)%nat ->
    fit_loop early_stop train dev fuel st = Some (Ok st').
Proof.
  induction 1 as [st|n st st1 st2 Hc Hb Hs IH]; intros Hf fuel Hfuel;
    rewrite fit_loop_unfold.
  - now rewrite Hf.
  - rewrite Hc. destruct fuel as [|fuel]; [lia|]. rewrite Hb.
    apply IH; [exact Hf | lia].
Qed.

Lemma fit_steps_loop_running (early_stop : bool) (train dev : dataset)
      (n : nat) (st st' : fit_state) :
  fit_steps early_stop train dev n st st' ->
  forall fuel, (fuel < n)%nat ->
    fit_loop early_stop train dev fuel st = None.
Proof.
  induction 1 as [st|n st st1 st2 Hc Hb Hs IH]; intros fuel Hfuel;
    [lia|].
  rewrite fit_loop_unfold, Hc. destruct fuel as [|fuel]; [reflexivity|].
  rewrite Hb. apply IH. lia.
Qed.

(** *** Accuracies of a round, and when it returns *)

Lemma Qgt_bool_true (a b : Q) : Qgt_bool a b = true <-> (b < a)%Q.
Proof.
  unfold Qgt_bool. rewrite negb_true_iff, <- not_true_iff_false, Qle_bool_iff.
  split; [apply Qnot_le_lt | apply Qlt_not_le].
Qed.

Lemma Qgt_bool_false (a b : Q) : Qgt_bool a b = false <-> (a <= b)%Q.
Proof.
  unfold Qgt_bool. rewrite negb_false_iff. apply Qle_bool_iff.
Qed.

Lemma foldM_add_nonneg {B : Type} (g : B -> result Z) :
  (forall i c, g i = Ok c -> 0 <= c) ->
  forall (l : list B) (c0 c : Z),
    0 <= c0 ->
    foldM (fun correct i => x <- g i ;; Ok (correct + x)) l c0 = Ok c ->
    0 <= c.
Proof.
  intros Hg. induction l as [|i l IH]; intros c0 c H0 H; simpl in H.
  - inversion H; subst. exact H0.
  - apply bind_ok in H. destruct H as (c1 & H1 & H2).
    apply bind_ok in H1. destruct H1 as (x & Hx & Hc1).
    inversion Hc1; subst. pose proof (Hg _ _ Hx) as Hx0.
    eapply IH; [|exact H2]. lia.
Qed.

Lemma score_on_nonneg (bs : Z) (o : module_obj)
      (devX : list Example) (devy : list Z) (q : Q) :
  score_on bs o devX devy = Ok q -> (0 <= q)%Q.
Proof.
  unfold score_on. intros H.
  apply bind_ok in H. destruct H as (starts & _ & H).
  apply bind_ok in H. destruct H as (correct & Hc & H).
  apply foldM_add_nonneg in Hc; [| intros i c; apply eq_sum_nonneg | lia].
  unfold py_truediv in H. destruct (length devX); [discriminate|].
  inversion H; subst. unfold Qle. simpl. lia.
Qed.

Lemma train_round_nonneg (bs es : Z) (train dev : dataset)
      (s s' : live) (acc : Q) :
  train_round bs es train dev s = Ok (s', acc) -> (0 <= acc)%Q.
Proof.
  unfold train_round. intros H.
  apply bind_ok in H. destruct H as (oa & _ & H).
  apply bind_ok in H. destruct H as (q & Hq & H).
  inversion H; subst. eapply score_on_nonneg; eauto.
Qed.

Lemma rounds_nonneg (bs es : Z) (train dev : dataset) :
  forall (n : nat) (s s' : live) (accs : list Q),
    rounds bs es train dev n s = Ok (s', accs) ->
    Forall (fun a => 0 <= a)%Q accs /\ length accs = n.
Proof.
  induction n as [|n IH]; intros s s' accs H; simpl in H.
  - inversion H; subst. split; [constructor | reflexivity].
  - apply bind_ok in H. destruct H as ([s1 a] & H1 & H).
    apply bind_ok in H. destruct H as ([s2 l] & H2 & H).
    inversion H; subst. simpl in *. destruct (IH _ _ _ H2) as (Hf & Hl).
    split; [constructor; [eapply train_round_nonneg; eauto | exact Hf]
           | simpl; now rewrite Hl].
Qed.

Lemma gather_in_range {A : Type} (l : list A) (idx : list nat) :
  Forall (fun i => (i < length l)%nat) idx ->
  exists xs, gather l idx = Ok xs.
Proof.
  induction 1 as [|i idx Hi _ (xs & IH)]; simpl; [eauto|].
  destruct (nth_error l i) as [x|] eqn:E.
  - rewrite IH. simpl. eauto.
  - apply nth_error_None in E. lia.
Qed.

Lemma Forall_py_slice {A : Type} (P : A -> Prop) (l : list A) (i j : Z) :
  Forall P l -> Forall P (py_slice l i j).
Proof.
  intros H. unfold py_slice. apply Forall_forall. intros x Hx.
  assert (Hs : In x (skipn (slice_index (length l) i) l)).
  { rewrite <- (firstn_skipn (slice_index (length l) j -
                              slice_index (length l) i)
                             (skipn (slice_index (length l) i) l)).
    apply in_or_app. now left. }
  assert (Hl : In x l).
  { rewrite <- (firstn_skipn (slice_index (length l) i) l).
    apply in_or_app. now right. }
  clear Hx Hs. revert x Hl. now apply Forall_forall.
Qed.

(** On a training set that can be trained on, and with a positive batch
    size, a pass returns. *)
Lemma train_pass_returns (bs : Z) (X : list Example) (y : list Z)
      (s : pass_state) :
  0 < bs -> trainable X y -> exists s', train_pass bs X y s = Ok s'.
Proof.
  intros Hbs (Hlen & Hperm & Hstep). unfold train_pass.
  pose proof (Hperm (ps_aux s)) as Hp.
  destruct (np_permutation (ps_aux s) (length X)) as [perm a]. simpl in Hp.
  rewrite py_range_pos by exact Hbs. simpl bind.
  generalize (map (fun k : nat => Z.of_nat k * bs)
                  (seq 0 (range_len 0 (Z.of_nat (length X)) bs))).
  generalize {| ps_weights := ps_weights s; ps_detached := ps_detached s;
                ps_aux := a |}.
  intros s0 l. revert s0.
  induction l as [|i l IH]; intros s0; simpl; [eauto|].
  unfold train_batch at 1.
  pose proof (Forall_py_slice _ perm i (i + bs) Hp) as Hidx.
  destruct (gather_in_range X _ Hidx) as (Xb & HX).
  destruct (gather_in_range y (py_slice perm i (i + bs))) as (yb & Hy).
  { eapply Forall_impl; [|exact Hidx]. simpl. intros; lia. }
  rewrite HX, Hy. simpl bind.
  destruct (Hstep (ps_weights s0) (ps_detached s0) (ps_aux s0) _ Xb yb HX Hy)
    as (wa & ->).
  simpl bind. apply IH.
Qed.

Lemma trainepoch_on_returns (bs nep es : Z) (X : list Example) (y : list Z)
      (o : module_obj) (d : option Weights) (a : Aux) :
  es <= 0 \/ (0 < bs /\ trainable X y) ->
  exists os, trainepoch_on bs nep es X y o d a = Ok os.
Proof.
  intros H. unfold trainepoch_on.
  unfold py_range at 1. simpl Z.eqb. cbv iota. simpl bind.
  assert (Hpass : exists s, foldM (fun s0 (_ : Z) => train_pass bs X y s0)
             (map (fun k => nep + Z.of_nat k * 1)
                  (seq 0 (range_len nep (nep + es) 1)))
             {| ps_weights := weights o; ps_detached := d; ps_aux := a |}
             = Ok s).
  { destruct H as [Hes|(Hbs & Htr)].
    - unfold range_len. simpl Z.ltb. cbv iota.
      replace (Z.to_nat ((nep + es - nep + 1 - 1) / 1)) with O
        by (rewrite Z.div_1_r; lia).
      simpl. eauto.
    - generalize (map (fun k => nep + Z.of_nat k * 1)
                      (seq 0 (range_len nep (nep + es) 1))).
      generalize {| ps_weights := weights o; ps_detached := d; ps_aux := a |}.
      intros s0 l. revert s0.
      induction l as [|i l IH]; intros s0; simpl; [eauto|].
      destruct (train_pass_returns bs X y s0 Hbs Htr) as (s1 & ->).
      simpl bind. apply IH. }
  destruct Hpass as (s & ->). simpl. eauto.
Qed.

(** With a positive batch size, a training set that can be trained on (or
    no pass to make) and a validation set that is not empty and whose
    labels are parallel to its rows, a round returns. *)
Lemma train_round_returns (bs es : Z) (train dev : dataset) (s : live) :
  0 < bs -> es <= 0 \/ trainable (fst train) (snd train) ->
  fst dev <> [] -> length (fst dev) = length (snd dev) ->
  exists s' acc, train_round bs es train dev s = Ok (s', acc).
Proof.
  intros Hbs Htr Hne Hlen. unfold train_round.
  destruct (trainepoch_on_returns bs (live_nepoch s) es (fst train)
              (snd train) (set_training true (live_obj s))
              (live_detached s) (live_aux s)) as (os & ->).
  { destruct Htr; [now left | right; now split]. }
  simpl bind. rewrite score_on_eq by assumption. simpl. eauto.
Qed.

Lemma step_wf (early_stop : bool) (st st' : fit_state) (s' : live) (acc : Q) :
  wf_state st -> step_spec early_stop st s' acc st' -> wf_state st'.
Proof.
  intros (Hm & Hb) Hs. unfold wf_state.
  rewrite (ss_model _ _ _ _ _ Hs), (ss_next _ _ _ _ _ Hs),
    (ss_bestmodel _ _ _ _ _ Hs).
  destruct (Qgt_bool acc (bestaccuracy st)).
  - split; [lia|]. intros l Hl. inversion Hl; subst. lia.
  - split; [exact Hm | exact Hb].
Qed.

(** *** Runs of the loop *)

(** What [n] executions of the loop body do to the state of [fit], in terms
    of the accuracies [accs] of the [n] rounds of training and validation
    that they perform. *)
Record run_spec (early_stop : bool) (train dev : dataset) (st : fit_state)
       (accs : list Q) (st' : fit_state) : Prop := Run_spec {
  rs_rounds :
    rounds (batch_size (self st)) (epoch_size (self st)) train dev
           (length accs) (live_of st) = Ok (live_of st', accs);
  rs_wf : wf_state st -> wf_state st';
  rs_model : model (self st') = model (self st);
  rs_batch_size : batch_size (self st') = batch_size (self st);
  rs_tenacity : tenacity (self st') = tenacity (self st);
  rs_epoch_size : epoch_size (self st') = epoch_size (self st);
  rs_max_epoch : max_epoch (self st') = max_epoch (self st);
  rs_nepoch :
    nepoch (self st') =
    nepoch (self st) + Z.of_nat (length accs) * epoch_size (self st);
  rs_next : (next (hp st) <= next (hp st'))%nat;
  rs_frame : forall l, l <> model (self st) -> (l < next (hp st))%nat ->
                       cell (hp st') l = cell (hp st) l;
  rs_bestaccuracy : bestaccuracy st' = best_of (bestaccuracy st) accs;
  rs_early_stop_count :
    early_stop_count st' =
    early_stop_count st +
    (if early_stop then Z.of_nat (non_improving (bestaccuracy st) accs)
     else 0);
  rs_stop_train :
    stop_train st' =
    stop_train st ||
    (early_stop && (early_stop_count st <? early_stop_count st') &&
     (tenacity (self st) <? early_stop_count st'));
  rs_bestmodel :
    match best_round (bestaccuracy st) accs with
    | O => bestmodel st' = bestmodel st
    | S k => exists l sk,
        bestmodel st' = Some l /\
        (next (hp st) <= l < next (hp st'))%nat /\
        nth_error accs k = Some (bestaccuracy st') /\
        rounds (batch_size (self st)) (epoch_size (self st)) train dev
               (S k) (live_of st) = Ok (sk, firstn (S k) accs) /\
        (wf_state st -> cell (hp st') l = live_obj sk)
    end
}.

Lemma best_round_zero (accs : list Q) :
  forall best, best_round best accs = O -> best_of best accs = best.
Proof.
  induction accs as [|a accs IH]; intros best H; simpl in *; [reflexivity|].
  destruct (best_round _ accs) eqn:E; [|discriminate].
  destruct (Qgt_bool a best); [discriminate|]. now apply IH.
Qed.

Lemma run_spec_nil (early_stop : bool) (train dev : dataset)
      (st : fit_state) :
  run_spec early_stop train dev st [] st.
Proof.
  constructor; simpl; auto; try lia.
  - destruct early_stop; lia.
  - rewrite Z.ltb_irrefl, andb_false_r. simpl. now rewrite orb_false_r.
Qed.

Lemma run_spec_cons (early_stop : bool) (train dev : dataset)
      (st st1 st2 : fit_state) (a : Q) (accs : list Q) :
  train_round (batch_size (self st)) (epoch_size (self st)) train dev
              (live_of st) = Ok (live_of st1, a) ->
  step_spec early_stop st (live_of st1) a st1 ->
  run_spec early_stop train dev st1 accs st2 ->
  run_spec early_stop train dev st (a :: accs) st2.
Proof.
  intros Hr Hs Hrun.
  pose proof (fun H => step_wf early_stop st st1 _ _ H Hs) as Hwf1.
  destruct Hs as [_ Hm Hbs Hten Hes Hmax Hnep Hacc Hframe Hnext Hbest
                    Hbm Hcopy Hstop Hcount].
  destruct Hrun as [Rr Rwf Rm Rbs Rten Res Rmax Rnep Rnext Rframe Rbest
                      Rcount Rstop Rsnap].
  rewrite Hbs, Hes in Rr, Rsnap.
  assert (Hmono : early_stop_count st1 <= early_stop_count st2).
  { rewrite Rcount. destruct early_stop; lia. }
  assert (Hnext1 : (next (hp st) <= next (hp st1))%nat).
  { rewrite Hnext. destruct (Qgt_bool a (bestaccuracy st)); lia. }
  constructor; try congruence.
  - simpl. rewrite Hr. simpl. rewrite Rr. reflexivity.
  - auto.
  - rewrite Rnep, Hnep, Hes. simpl length. lia.
  - lia.
  - intros l Hl Hn. rewrite Rframe; [now apply Hframe | congruence | lia].
  - simpl. now rewrite Rbest, Hbest.
  - rewrite Rcount, Hcount, Hbest. simpl.
    destruct (Qgt_bool a (bestaccuracy st)), early_stop; lia.
  - rewrite Rstop, Hstop, Hten. rewrite Hcount in Hmono |- *.
    destruct (Qgt_bool a (bestaccuracy st)), early_stop, (stop_train st);
      simpl; try reflexivity;
      repeat match goal with
             | |- context [Z.ltb ?x ?y] => destruct (Z.ltb_spec x y)
             | |- context [Z.leb ?x ?y] => destruct (Z.leb_spec x y)
             end; simpl; try reflexivity; lia.
  - simpl. rewrite <- Hbest.
    destruct (best_round (bestaccuracy st1) accs) as [|k] eqn:Ek.
    + destruct (Qgt_bool a (bestaccuracy st)) eqn:Hgt; [|congruence].
      exists (next (hp st)), (live_of st1).
      split; [congruence|].
      split; [rewrite Hnext in Rnext; lia|].
      split; [simpl; f_equal; rewrite Rbest, (best_round_zero _ _ Ek);
              exact (eq_sym Hbest)|].
      split; [simpl; rewrite Hr; reflexivity|].
      intros (Hwm & _). rewrite Rframe; [now apply Hcopy | | ].
      * rewrite Hm. lia.
      * rewrite Hnext. lia.
    + destruct Rsnap as (l & sk & Rb & Rl & Rnth & Rk & Rcell).
      exists l, sk. split; [exact Rb|]. split; [lia|].
      split; [exact Rnth|]. split; [|auto].
      change (firstn (S (S k)) (a :: accs)) with (a :: firstn (S k) accs).
      change (rounds (batch_size (self st)) (epoch_size (self st)) train dev
                     (S (S k)) (live_of st))
        with (sa <- train_round (batch_size (self st)) (epoch_size (self st))
                                train dev (live_of st) ;;
              r <- rounds (batch_size (self st)) (epoch_size (self st))
                          train dev (S k) (fst sa) ;;
              Ok (fst r, snd sa :: snd r)).
      rewrite Hr. cbn [bind fst]. rewrite Rk. reflexivity.
Qed.

(** Every run of the loop is described by [run_spec]. *)
Lemma fit_steps_run (early_stop : bool) (train dev : dataset)
      (n : nat) (st st' : fit_state) :
  fit_steps early_stop train dev n st st' ->
  exists accs, length accs = n /\ run_spec early_stop train dev st accs st'.
Proof.
  induction 1 as [st|n st st1 st2 Hc Hb Hs IH].
  - exists []. split; [reflexivity | apply run_spec_nil].
  - destruct (fit_body_ok _ _ _ _ _ Hb) as (s1 & a & Hr & Hspec).
    pose proof (ss_live _ _ _ _ _ Hspec) as Hl. subst s1.
    destruct IH as (accs & Hlen & Hrun).
    exists (a :: accs). split; [simpl; now rewrite Hlen|].
    eapply run_spec_cons; eauto.
Qed.

(** *** Improving and non-improving sequences *)

Lemma last_cons {A : Type} (l : list A) (a d : A) :
  last (a :: l) d = last l a.
Proof.
  revert a d. induction l as [|x l IH]; intros a d; [reflexivity|].
  change (last (a :: x :: l) d) with (last (x :: l) d).
  now rewrite (IH x d), (IH x a).
Qed.

Lemma improving_spec (accs : list Q) :
  forall best,
    StronglySorted Qlt (best :: accs) ->
    non_improving best accs = O /\
    best_of best accs = last accs best /\
    best_round best accs = length accs.
Proof.
  induction accs as [|a accs IH]; intros best H; [now simpl|].
  inversion H as [|? ? Hs Hf]; subst.
  inversion Hf as [|? ? Hlt _]; subst.
  apply Qgt_bool_true in Hlt.
  destruct (IH a Hs) as (H1 & H2 & H3).
  simpl. rewrite Hlt, H1, H2, H3. repeat split.
  - symmetry. apply (last_cons accs a best).
  - now destruct (length accs).
Qed.

Lemma plateau_spec (accs : list Q) :
  forall best,
    Forall (fun a => a <= best)%Q accs ->
    non_improving best accs = length accs /\
    best_of best accs = best /\
    best_round best accs = O.
Proof.
  induction accs as [|a accs IH]; intros best H; [now simpl|].
  inversion H as [|? ? Hle Hf]; subst.
  apply Qgt_bool_false in Hle.
  destruct (IH best Hf) as (H1 & H2 & H3).
  simpl. rewrite Hle, H1, H2, H3. auto.
Qed.

Lemma best_of_upper (accs : list Q) :
  forall best,
    (best <= best_of best accs)%Q /\
    Forall (fun a => a <= best_of best accs)%Q accs.
Proof.
  induction accs as [|a accs IH]; intros best; simpl.
  - split; [apply Qle_refl | constructor].
  - destruct (Qgt_bool a best) eqn:E.
    + destruct (IH a) as (H1 & H2). apply Qgt_bool_true in E.
      split; [|constructor; assumption].
      eapply Qle_trans; [apply Qlt_le_weak; exact E | exact H1].
    + destruct (IH best) as (H1 & H2). apply Qgt_bool_false in E.
      split; [exact H1|]. constructor; [|exact H2].
      eapply Qle_trans; eauto.
Qed.

Lemma best_round_improves (a best : Q) (accs : list Q) :
  Qgt_bool a best = true -> best_round best (a :: accs) <> O.
Proof.
  intros H. simpl. rewrite H. now destruct (best_round a accs).
Qed.

(** *** Existence of runs *)

(** While the accuracy keeps improving the loop goes on, as far as the
    epoch cap allows. *)
Lemma steps_improving (early_stop : bool) (train dev : dataset) :
  forall (accs : list Q) (st : fit_state) (s' : live),
    rounds (batch_size (self st)) (epoch_size (self st)) train dev
           (length accs) (live_of st) = Ok (s', accs) ->
    StronglySorted Qlt (bestaccuracy st :: accs) ->
    stop_train st = false ->
    0 <= epoch_size (self st) ->
    nepoch (self st) + (Z.of_nat (length accs) - 1) * epoch_size (self st)
      <= max_epoch (self st) ->
    exists st', fit_steps early_stop train dev (length accs) st st'.
Proof.
  induction accs as [|a accs IH]; intros st s' Hr Hs Hstop Hes Hcap.
  - exists st. constructor.
  - simpl in Hr. apply bind_ok in Hr. destruct Hr as ([s1 a1] & Hr1 & Hr).
    apply bind_ok in Hr. destruct Hr as ([s2 l2] & Hr2 & Hr).
    inversion Hr; subst a1 l2 s2. simpl in Hr2.
    destruct (fit_body_of_round early_stop _ _ _ _ _ Hr1) as (st1 & Hb & Hsp).
    inversion Hs as [|? ? Hs' Hf]; subst.
    inversion Hf as [|? ? Hlt _]; subst.
    apply Qgt_bool_true in Hlt.
    destruct Hsp as [Hl Hm Hbs Hten Hes1 Hmax Hnep Hacc Hframe Hnext Hbest
                       Hbm Hcopy Hst Hcount].
    rewrite Hlt in *. subst s1.
    destruct (IH st1 s') as (st' & Hsteps).
    + now rewrite Hbs, Hes1.
    + now rewrite Hbest.
    + congruence.
    + lia.
    + rewrite Hnep, Hes1, Hmax. simpl length in Hcap. lia.
    + exists st'. econstructor; eauto.
      unfold fit_cond. rewrite Hstop. simpl. apply Z.leb_le.
      simpl length in Hcap. nia.
Qed.

(** With early stopping, while the accuracy does not improve the loop goes
    on until the counter has passed the tenacity, as far as the epoch cap
    allows. *)
Lemma steps_plateau (train dev : dataset) :
  forall (accs : list Q) (st : fit_state) (s' : live),
    rounds (batch_size (self st)) (epoch_size (self st)) train dev
           (length accs) (live_of st) = Ok (s', accs) ->
    Forall (fun a => a <= bestaccuracy st)%Q accs ->
    stop_train st = false ->
    early_stop_count st <= tenacity (self st) ->
    early_stop_count st + Z.of_nat (length accs) <= tenacity (self st) + 1 ->
    0 <= epoch_size (self st) ->
    nepoch (self st) + (Z.of_nat (length accs) - 1) * epoch_size (self st)
      <= max_epoch (self st) ->
    exists st', fit_steps true train dev (length accs) st st'.
Proof.
  induction accs as [|a accs IH]; intros st s' Hr Hf Hstop Hc Hc' Hes Hcap.
  - exists st. constructor.
  - simpl in Hr. apply bind_ok in Hr. destruct Hr as ([s1 a1] & Hr1 & Hr).
    apply bind_ok in Hr. destruct Hr as ([s2 l2] & Hr2 & Hr).
    inversion Hr; subst a1 l2 s2. simpl in Hr2.
    destruct (fit_body_of_round true _ _ _ _ _ Hr1) as (st1 & Hb & Hsp).
    inversion Hf as [|? ? Hle Hf']; subst.
    apply Qgt_bool_false in Hle.
    destruct Hsp as [Hl Hm Hbs Hten Hes1 Hmax Hnep Hacc Hframe Hnext Hbest
                       Hbm Hcopy Hst Hcount].
    rewrite Hle in *. subst s1.
    assert (Hcond : fit_cond st = true).
    { unfold fit_cond. rewrite Hstop. simpl. apply Z.leb_le.
      simpl length in Hcap. nia. }
    destruct accs as [|a' accs].
    + exists st1. econstructor; eauto. constructor.
    + destruct (IH st1 s') as (st' & Hsteps).
      * now rewrite Hbs, Hes1.
      * now rewrite Hbest.
      * rewrite Hst, Hstop.
        destruct (Z.leb_spec (tenacity (self st)) (early_stop_count st));
          [simpl length in Hc'; lia | reflexivity].
      * rewrite Hcount, Hten. simpl length in Hc'. lia.
      * rewrite Hcount, Hten. simpl length in Hc' |- *. lia.
      * lia.
      * rewrite Hnep, Hes1, Hmax. simpl length in Hcap |- *. lia.
      * exists st'. econstructor; eauto.
Qed.

(** *** [prepare_split] *)

Lemma gather_raise {A : Type} (l : list A) (idx : list nat) (e : exn) :
  gather l idx = Raise e -> e = IndexError.
Proof.
  induction idx as [|i idx IH]; simpl; [discriminate|].
  destruct (nth_error l i); [|intros H; now inversion H].
  destruct (gather l idx); simpl; [discriminate|].
  intros H. inversion H; subst. now apply IH.
Qed.

Lemma int_times_raise (q : float) (n : nat) (e : exn) :
  int_times q n = Raise e -> e = OverflowError \/ e = ValueError.
Proof.
  unfold int_times, py_int.
  destruct (Prim2SF _); intros H; inversion H; auto.
Qed.

(** [prepare_split] leaves the trainer as it is, the random stream apart. *)
Lemma prepare_split_config (t t1 : trainer) (X : list Example) (y : list Z)
      (validation_data : option dataset) (validation_split : option float)
      (d : dataset * dataset) :
  prepare_split t X y validation_data validation_split = Ok (t1, d) ->
  model t1 = model t /\ nepoch t1 = nepoch t /\
  batch_size t1 = batch_size t /\ tenacity t1 = tenacity t /\
  epoch_size t1 = epoch_size t /\ max_epoch t1 = max_epoch t.
Proof.
  unfold prepare_split.
  destruct (split_truthy validation_split || data_truthy validation_data);
    [|discriminate].
  destruct validation_data as [[devX devy]|].
  - intros H. inversion H; subst. repeat split.
  - destruct (np_permutation (aux t) (length X)) as [perm a].
    destruct validation_split as [q|]; [|discriminate].
    intros H.
    apply bind_ok in H. destruct H as (k & _ & H).
    apply bind_ok in H. destruct H as (trainX & _ & H).
    apply bind_ok in H. destruct H as (trainy & _ & H).
    apply bind_ok in H. destruct H as (devX & _ & H).
    apply bind_ok in H. destruct H as (devy & _ & H).
    inversion H; subst. repeat split.
Qed.

(** C9. When [validation_data] is supplied, whatever [validation_split] is,
    [prepare_split] raises nothing, draws no permutation and returns the
    full input [(X, y)] as the training part and [validation_data] as the
    validation part. *)
Theorem prepare_split_validation_data_precedence
        (t : trainer) (X : list Example) (y : list Z)
        (devX : list Example) (devy : list Z)
        (validation_split : option float) :
  prepare_split t X y (Some (devX, devy)) validation_split =
  Ok (t, ((X, y), (devX, devy))).
Proof.
  unfold prepare_split. simpl data_truthy. now rewrite orb_true_r.
Qed.

(** C3 (amended). [prepare_split] raises the assertion error exactly when
    neither argument is supplied, that is when [validation_data] is [None]
    and [validation_split] is [None] or zero; [fit] then raises it before
    the first epoch, whatever the fuel.  When both are supplied nothing is
    raised. *)
Theorem prepare_split_asserts_one_supplied
        (t : trainer) (X : list Example) (y : list Z)
        (validation_data : option dataset) (validation_split : option float) :
  (prepare_split t X y validation_data validation_split
   = Raise AssertionError <->
   validation_data = None /\ split_truthy validation_split = false) /\
  (validation_data = None /\ split_truthy validation_split = false ->
   forall fuel h early_stop,
     fit fuel h t X y validation_data validation_split early_stop
     = Some (Raise AssertionError)) /\
  (forall d, validation_data = Some d ->
             prepare_split t X y validation_data validation_split
             = Ok (t, ((X, y), d))).
Proof.
  split; [split|split].
  - unfold prepare_split.
    destruct (split_truthy validation_split) eqn:Es;
      destruct validation_data as [[devX devy]|]; simpl; try discriminate.
    + destruct (np_permutation (aux t) (length X)) as [perm a].
      destruct validation_split as [q|]; [|discriminate].
      intros H. exfalso.
      destruct (int_times q (length X)) as [k|e0] eqn:Ek; simpl in H;
        [|inversion H; subst; apply int_times_raise in Ek;
          destruct Ek; discriminate].
      repeat match type of H with
             | bind (gather ?l ?i) _ = _ =>
                 let E := fresh "E" in
                 destruct (gather l i) eqn:E; simpl in H;
                 [|inversion H; subst; apply gather_raise in E; discriminate]
             end.
      discriminate.
    + auto.
  - intros (-> & Hs). unfold prepare_split. now rewrite Hs.
  - intros (-> & Hs) fuel h early_stop. unfold fit, prepare_split.
    destruct validation_split as [q|]; simpl in *; now rewrite ?Hs.
  - intros [devX devy] ->. unfold prepare_split. simpl data_truthy.
    now rewrite orb_true_r.
Qed.

(** *** Results of [fit] *)

(** An exception of the loop is the exception of a round of training and
    validation, after some number of executions of the body. *)
Lemma fit_loop_raise (early_stop : bool) (train dev : dataset) (e : exn) :
  forall (fuel : nat) (st : fit_state),
    fit_loop early_stop train dev fuel st = Some (Raise e) ->
    exists n st', (n < fuel)%nat /\
      fit_steps early_stop train dev n st st' /\
      fit_cond st' = true /\
      train_round (batch_size (self st')) (epoch_size (self st')) train dev
                  (live_of st') = Raise e.
Proof.
  induction fuel as [|fuel IH]; intros st H; rewrite fit_loop_unfold in H;
    destruct (fit_cond st) eqn:Hcond; try discriminate.
  pose proof (fit_body_cases early_stop train dev st) as Hc.
  destruct (train_round _ _ _ _ _) as [sa|e'] eqn:Hr.
  - destruct Hc as (st1 & Hb & _). rewrite Hb in H.
    destruct (IH _ H) as (n & st' & Hn & Hs & Hc' & Hr').
    exists (S n), st'. split; [lia|].
    split; [econstructor; eauto | split; assumption].
  - rewrite Hc in H. inversion H; subst.
    exists O, st. split; [lia|].
    split; [constructor | split; assumption].
Qed.

(** After at least one epoch a snapshot is bound and the best accuracy is
    not negative. *)
Lemma fit_steps_from_init (early_stop : bool) (train dev : dataset)
      (h : heap) (t : trainer) (n : nat) (st : fit_state) :
  fit_steps early_stop train dev (S n) (fit_init h t) st ->
  (0 <= bestaccuracy st)%Q /\
  exists l, bestmodel st = Some l /\ (next h <= l)%nat /\
            (l < next (hp st))%nat.
Proof.
  intros Hs. destruct (fit_steps_run _ _ _ _ _ _ Hs) as (accs & Hlen & Hrun).
  destruct accs as [|a accs]; [discriminate|].
  destruct (rounds_nonneg _ _ _ _ _ _ _ _ (rs_rounds _ _ _ _ _ _ Hrun))
    as (Hnn & _).
  inversion Hnn as [|? ? Ha _]; subst.
  assert (Hgt : Qgt_bool a (bestaccuracy (fit_init h t)) = true).
  { apply Qgt_bool_true. simpl. eapply Qlt_le_trans; [|exact Ha]. reflexivity. }
  split.
  - rewrite (rs_bestaccuracy _ _ _ _ _ _ Hrun).
    destruct (best_of_upper (a :: accs) (bestaccuracy (fit_init h t)))
      as (_ & Hup).
    inversion Hup; subst. eapply Qle_trans; eauto.
  - pose proof (rs_bestmodel _ _ _ _ _ _ Hrun) as Hbm.
    pose proof (best_round_improves _ _ accs Hgt) as Hne.
    destruct (best_round _ (a :: accs)); [congruence|].
    destruct Hbm as (l & sk & Hb & Hl & _). exists l. simpl in Hl.
    split; [exact Hb | lia].
Qed.

(** With a positive batch size, a positive epoch size, a training set that
    can be trained on and a validation set that is not empty and parallel
    to its labels, the loop ends. *)
Lemma fit_loop_terminates (early_stop : bool) (train dev : dataset) :
  trainable (fst train) (snd train) ->
  fst dev <> [] -> length (fst dev) = length (snd dev) ->
  forall (m : nat) (st : fit_state),
    0 < batch_size (self st) -> 0 < epoch_size (self st) ->
    (Z.to_nat (max_epoch (self st) - nepoch (self st) + 1) <= m)%nat ->
    exists n st', (n <= m)%nat /\
                  fit_steps early_stop train dev n st st' /\
                  fit_cond st' = false.
Proof.
  intros Htr Hne Hlen. induction m as [|m IH]; intros st Hbs Hes Hm.
  - exists O, st. split; [lia|]. split; [constructor|].
    unfold fit_cond. destruct (Z.leb_spec (nepoch (self st))
                                          (max_epoch (self st))); [lia|].
    apply andb_false_r.
  - destruct (fit_cond st) eqn:Hc.
    2:{ exists O, st. split; [lia|]. split; [constructor | exact Hc]. }
    destruct (train_round_returns (batch_size (self st)) (epoch_size (self st))
                train dev (live_of st) Hbs (or_intror Htr) Hne Hlen)
      as (s' & acc & Hr).
    destruct (fit_body_of_round early_stop _ _ _ _ _ Hr) as (st1 & Hb & Hsp).
    destruct (IH st1) as (n & st' & Hn & Hs & Hf).
    + now rewrite (ss_batch_size _ _ _ _ _ Hsp).
    + now rewrite (ss_epoch_size _ _ _ _ _ Hsp).
    + rewrite (ss_max_epoch _ _ _ _ _ Hsp), (ss_nepoch _ _ _ _ _ Hsp).
      unfold fit_cond in Hc. apply andb_true_iff in Hc.
      destruct Hc as (_ & Hc). apply Z.leb_le in Hc. lia.
    + exists (S n), st'. split; [lia|].
      split; [econstructor; eauto | exact Hf].
Qed.

(** C10. For a call of [fit] with [max_epoch >= 0] whose validation set is
    not empty.  The loop body is executed at least once: the loop condition
    holds at the head of the loop, and [fit] does not return without fuel.
    When the first execution of the body returns, its validation accuracy
    is not negative and so exceeds the initial [-1]; it becomes the best
    accuracy, and the snapshot is bound to a newly allocated object that
    holds what the live model holds right after that epoch, every other
    object being as [trainepoch] left it.  Whenever the loop returns, a
    snapshot taken during the call is bound, the final restoration
    succeeds, and [fit] returns it with a best accuracy that is not
    negative.  An exception of [fit] is never raised by the restoration:
    it is the exception of [trainepoch] or [score] in some epoch.  If
    moreover the batch size is positive, the validation labels are parallel
    to the rows and the training set can be trained on (or an epoch makes
    no pass), the first execution of the body returns and [fit] raises
    nothing; and for a positive epoch size [fit] returns. *)
Theorem fit_first_epoch_binds_snapshot
        (h : heap) (t t1 : trainer) (X : list Example) (y : list Z)
        (validation_data : option dataset) (validation_split : option float)
        (early_stop : bool) (train dev : dataset) :
  0 <= max_epoch t ->
  prepare_split (set_nepoch t 0) X y validation_data validation_split
  = Ok (t1, (train, dev)) ->
  fst dev <> [] ->
  fit_cond (fit_init h t1) = true /\
  fit O h t X y validation_data validation_split early_stop = None /\
  (forall st1,
      fit_body early_stop train dev (fit_init h t1) = Ok st1 ->
      exists s' acc,
        train_round (batch_size t) (epoch_size t) train dev
                    (live_of (fit_init h t1)) = Ok (s', acc) /\
        accuracy st1 = Some acc /\ (0 <= acc)%Q /\
        Qgt_bool acc (bestaccuracy (fit_init h t1)) = true /\
        bestaccuracy st1 = acc /\
        bestmodel st1 = Some (next h) /\
        next (hp st1) = S (next h) /\
        model (self st1) = model t /\
        cell (hp st1) (next h) = live_obj s' /\
        cell (hp st1) (model (self st1)) = live_obj s' /\
        (forall l, l <> model t -> (l < next h)%nat ->
                   cell (hp st1) l = cell h l)) /\
  (forall fuel st,
      fit_loop early_stop train dev fuel (fit_init h t1) = Some (Ok st) ->
      exists l,
        bestmodel st = Some l /\ (next h <= l)%nat /\
        (l < next (hp st))%nat /\
        (0 <= bestaccuracy st)%Q /\
        fit fuel h t X y validation_data validation_split early_stop
        = Some (Ok (hp st, set_model (hp st) (self st) l,
                    bestaccuracy st))) /\
  (forall fuel h' t' best,
      fit fuel h t X y validation_data validation_split early_stop
      = Some (Ok (h', t', best)) ->
      (0 <= best)%Q /\ (next h <= model t' < next h')%nat) /\
  (forall fuel e,
      fit fuel h t X y validation_data validation_split early_stop
      = Some (Raise e) ->
      exists n st,
        fit_steps early_stop train dev n (fit_init h t1) st /\
        fit_cond st = true /\
        train_round (batch_size t) (epoch_size t) train dev (live_of st)
        = Raise e) /\
  (0 < batch_size t -> length (fst dev) = length (snd dev) ->
   epoch_size t <= 0 \/ trainable (fst train) (snd train) ->
   (exists st1,
       fit_body early_stop train dev (fit_init h t1) = Ok st1) /\
   (forall fuel e,
       fit fuel h t X y validation_data validation_split early_stop
       <> Some (Raise e)) /\
   (0 < epoch_size t ->
    exists fuel r,
      fit fuel h t X y validation_data validation_split early_stop
      = Some (Ok r))).
Proof.
  intros Hmax Hps Hne.
  destruct (prepare_split_config _ _ _ _ _ _ _ Hps)
    as (Hm1 & Hn1 & Hbs1 & Hten1 & Hes1 & Hmax1).
  simpl in Hm1, Hn1, Hbs1, Hes1, Hmax1.
  assert (Hcond : fit_cond (fit_init h t1) = true).
  { unfold fit_cond. simpl. rewrite Hn1, Hmax1. now apply Z.leb_le. }
  assert (Hret : forall fuel st,
             fit_loop early_stop train dev fuel (fit_init h t1)
             = Some (Ok st) ->
             (0 <= bestaccuracy st)%Q /\
             exists l, bestmodel st = Some l /\ (next h <= l)%nat /\
                       (l < next (hp st))%nat).
  { intros fuel st Hl.
    destruct (fit_loop_steps _ _ _ _ _ _ Hl) as (n & _ & Hs & Hf).
    destruct n as [|n]; [inversion Hs; subst; congruence|].
    eapply fit_steps_from_init; eauto. }
  assert (Hkeep : forall n st,
             fit_steps early_stop train dev n (fit_init h t1) st ->
             batch_size (self st) = batch_size t /\
             epoch_size (self st) = epoch_size t).
  { intros n st Hs.
    destruct (fit_steps_run _ _ _ _ _ _ Hs) as (accs & _ & Hrun).
    rewrite (rs_batch_size _ _ _ _ _ _ Hrun),
      (rs_epoch_size _ _ _ _ _ _ Hrun). simpl. now split. }
  split; [exact Hcond|]. split; [|split; [|split; [|split; [|split]]]].
  - unfold fit. rewrite Hps, fit_loop_unfold, Hcond. reflexivity.
  - intros st1 Hb.
    destruct (fit_body_ok _ _ _ _ _ Hb) as (s' & acc & Hr & Hsp).
    pose proof (train_round_nonneg _ _ _ _ _ _ _ Hr) as Hacc.
    assert (Hgt : Qgt_bool acc (bestaccuracy (fit_init h t1)) = true).
    { apply Qgt_bool_true. simpl.
      eapply Qlt_le_trans; [|exact Hacc]. reflexivity. }
    simpl in Hr. rewrite Hbs1, Hes1 in Hr.
    exists s', acc. split; [exact Hr|].
    split; [exact (ss_accuracy _ _ _ _ _ Hsp)|]. split; [exact Hacc|].
    split; [exact Hgt|].
    pose proof (ss_bestaccuracy _ _ _ _ _ Hsp) as H1.
    pose proof (ss_bestmodel _ _ _ _ _ Hsp) as H2.
    pose proof (ss_next _ _ _ _ _ Hsp) as H3.
    pose proof (ss_copy _ _ _ _ _ Hsp Hgt) as H4.
    pose proof (ss_model _ _ _ _ _ Hsp) as H5.
    pose proof (ss_live _ _ _ _ _ Hsp) as H6.
    pose proof (ss_frame _ _ _ _ _ Hsp) as H7.
    rewrite Hgt in H1, H2, H3. simpl in H2, H3, H4, H5, H7.
    rewrite Hm1 in H5, H7.
    repeat split; try assumption.
    rewrite <- H6. reflexivity.
  - intros fuel st Hl.
    destruct (Hret _ _ Hl) as (Hb0 & l & Hb & Hl1 & Hl2).
    exists l. repeat split; try assumption.
    unfold fit. rewrite Hps, Hl. unfold fit_return. now rewrite Hb.
  - intros fuel h' t' best H. unfold fit in H. rewrite Hps in H.
    destruct (fit_loop _ _ _ _ _) as [[st|e]|] eqn:Hl; try discriminate.
    destruct (Hret _ _ Hl) as (Hb0 & l & Hb & Hl1 & Hl2).
    unfold fit_return in H. rewrite Hb in H. inversion H; subst.
    simpl. repeat split; assumption.
  - intros fuel e H. unfold fit in H. rewrite Hps in H.
    destruct (fit_loop _ _ _ _ _) as [[st|e']|] eqn:Hl; [| |discriminate].
    + destruct (Hret _ _ Hl) as (_ & l & Hb & _).
      unfold fit_return in H. rewrite Hb in H. discriminate.
    + inversion H; subst.
      destruct (fit_loop_raise _ _ _ _ _ _ Hl) as (n & st & _ & Hs & Hc & Hr).
      destruct (Hkeep _ _ Hs) as (Hb & He). rewrite Hb, He in Hr.
      exists n, st. repeat split; assumption.
  - intros Hbs Hlen Htr. split; [|split].
    + destruct (train_round_returns (batch_size (self (fit_init h t1)))
                  (epoch_size (self (fit_init h t1))) train dev
                  (live_of (fit_init h t1))) as (s' & acc & Hr);
        [simpl; lia | simpl; rewrite Hes1; exact Htr | assumption
        | assumption |].
      destruct (fit_body_of_round early_stop _ _ _ _ _ Hr)
        as (st1 & Hb & _).
      exists st1. exact Hb.
    + intros fuel e H. unfold fit in H. rewrite Hps in H.
      destruct (fit_loop _ _ _ _ _) as [[st|e']|] eqn:Hl; [| |discriminate].
      * destruct (Hret _ _ Hl) as (_ & l & Hb & _).
        unfold fit_return in H. rewrite Hb in H. discriminate.
      * destruct (fit_loop_raise _ _ _ _ _ _ Hl)
          as (n & st & _ & Hs & _ & Hr).
        destruct (Hkeep _ _ Hs) as (Hb & He).
        destruct (train_round_returns (batch_size (self st))
                    (epoch_size (self st)) train dev (live_of st))
          as (s' & acc & Hr');
          [lia | rewrite He; exact Htr | assumption | assumption |].
        congruence.
    + intros Hes. destruct Htr as [Htr|Htr]; [lia|].
      destruct (fit_loop_terminates early_stop train dev Htr Hne Hlen
                  (Z.to_nat (max_epoch t1 - nepoch t1 + 1)) (fit_init h t1))
        as (n & st' & _ & Hs & Hf); [simpl; lia | simpl; lia | simpl; lia |].
      pose proof (fit_steps_loop _ _ _ _ _ _ Hs Hf n (le_n n)) as Hl.
      destruct (Hret _ _ Hl) as (_ & l & Hb & _).
      exists n. eexists. unfold fit. rewrite Hps, Hl.
      unfold fit_return. rewrite Hb. reflexivity.
Qed.

(** C2 (amended). The failure counter is never reset.  Over any run of the
    loop it never decreases, and with early stopping it grows by the number
    of epochs of the run that did not improve on the best accuracy seen
    before them, consecutive or not; an improving epoch leaves it as it is.
    Training is stopped by the run exactly when a non-improving epoch of
    the run has brought the counter above the tenacity. *)
Theorem early_stop_count_is_cumulative
        (early_stop : bool) (train dev : dataset)
        (n : nat) (st st' : fit_state) :
  fit_steps early_stop train dev n st st' ->
  exists accs,
    length accs = n /\
    rounds (batch_size (self st)) (epoch_size (self st)) train dev n
           (live_of st) = Ok (live_of st', accs) /\
    early_stop_count st <= early_stop_count st' /\
    early_stop_count st' =
      early_stop_count st +
      (if early_stop then Z.of_nat (non_improving (bestaccuracy st) accs)
       else 0) /\
    stop_train st' =
      stop_train st ||
      (early_stop && (early_stop_count st <? early_stop_count st') &&
       (tenacity (self st) <? early_stop_count st')).
Proof.
  intros Hs. destruct (fit_steps_run _ _ _ _ _ _ Hs) as (accs & Hlen & Hrun).
  exists accs. split; [exact Hlen|].
  split; [rewrite <- Hlen; exact (rs_rounds _ _ _ _ _ _ Hrun)|].
  pose proof (rs_early_stop_count _ _ _ _ _ _ Hrun) as Hc.
  split; [rewrite Hc; destruct early_stop; lia|].
  split; [exact Hc | exact (rs_stop_train _ _ _ _ _ _ Hrun)].
Qed.

Lemma wf_fit_init (h : heap) (t : trainer) :
  (model t < next h)%nat -> wf_state (fit_init h t).
Proof.
  intros H. split; [exact H|]. simpl. discriminate.
Qed.

(** [trainepoch] writes no object but the one behind [self.model]. *)
Lemma trainepoch_frame (h h' : heap) (t t' : trainer)
      (X : list Example) (y : list Z) (es : Z) (l : loc) :
  l <> model t ->
  trainepoch h t X y es = Ok (h', t') ->
  cell h' l = cell h l /\ model t' = model t.
Proof.
  intros Hl H. unfold trainepoch in H.
  apply bind_ok in H. destruct H as (oa & _ & H).
  inversion H; subst. unfold model_train. simpl.
  now destruct (Nat.eqb_spec l (model t)).
Qed.

(** C4. At every point of the loop of [fit], started on an allocated
    model, the snapshot bound to [bestmodel] is an object other than the
    live model; it holds the live object as it was right after the epoch
    whose accuracy is the best so far (an accuracy that no epoch so far
    exceeds); no call of [trainepoch] and no further iteration of the loop,
    whatever training it does, changes it; and when the loop ends there,
    [fit] returns with [self.model] bound to it. *)
Theorem snapshot_does_not_alias_live_model
        (h : heap) (t t1 : trainer) (X : list Example) (y : list Z)
        (validation_data : option dataset) (validation_split : option float)
        (early_stop : bool) (train dev : dataset)
        (n : nat) (st : fit_state) (l : loc) :
  (model t < next h)%nat ->
  prepare_split (set_nepoch t 0) X y validation_data validation_split
  = Ok (t1, (train, dev)) ->
  fit_steps early_stop train dev n (fit_init h t1) st ->
  bestmodel st = Some l ->
  l <> model (self st) /\
  (exists accs k sk,
      rounds (batch_size t) (epoch_size t) train dev n
             (live_of (fit_init h t1)) = Ok (live_of st, accs) /\
      nth_error accs k = Some (bestaccuracy st) /\
      Forall (fun a => a <= bestaccuracy st)%Q accs /\
      rounds (batch_size t) (epoch_size t) train dev (S k)
             (live_of (fit_init h t1)) = Ok (sk, firstn (S k) accs) /\
      cell (hp st) l = live_obj sk) /\
  (forall X' y' es h1 t1',
      trainepoch (hp st) (self st) X' y' es = Ok (h1, t1') ->
      cell h1 l = cell (hp st) l) /\
  (forall m st', fit_steps early_stop train dev m st st' ->
                 cell (hp st') l = cell (hp st) l) /\
  (fit_cond st = false ->
   forall fuel, (n <= fuel)%nat ->
     fit fuel h t X y validation_data validation_split early_stop
     = Some (Ok (hp st, set_model (hp st) (self st) l, bestaccuracy st))).
Proof.
  intros Hwf Hps Hs Hb.
  destruct (prepare_split_config _ _ _ _ _ _ _ Hps)
    as (Hm1 & Hn1 & Hbs1 & Hten1 & Hes1 & Hmax1).
  simpl in Hm1, Hbs1, Hes1.
  assert (Hwf0 : wf_state (fit_init h t1))
    by (apply wf_fit_init; now rewrite Hm1).
  destruct (fit_steps_run _ _ _ _ _ _ Hs) as (accs & Hlen & Hrun).
  pose proof (rs_wf _ _ _ _ _ _ Hrun Hwf0) as Hwfst.
  destruct Hwfst as (Hmst & Hbst). destruct (Hbst _ Hb) as (Hlt & Hneq).
  assert (Hframe : forall m st',
             fit_steps early_stop train dev m st st' ->
             cell (hp st') l = cell (hp st) l).
  { intros m st' Hs'.
    destruct (fit_steps_run _ _ _ _ _ _ Hs') as (accs' & _ & Hrun').
    now apply (rs_frame _ _ _ _ _ _ Hrun'). }
  split; [exact Hneq|]. split; [|split; [|split]].
  - pose proof (rs_bestmodel _ _ _ _ _ _ Hrun) as Hbm.
    pose proof (rs_rounds _ _ _ _ _ _ Hrun) as Hr.
    simpl self in Hbm, Hr. rewrite Hbs1, Hes1, Hlen in Hr.
    rewrite Hbs1, Hes1 in Hbm.
    destruct (best_round _ accs) as [|k].
    + simpl in Hbm. congruence.
    + destruct Hbm as (l' & sk & Hb' & _ & Hnth & Hk & Hcell).
      assert (l' = l) by congruence. subst l'.
      exists accs, k, sk. split; [exact Hr|]. split; [exact Hnth|].
      split; [|split; [exact Hk | now apply Hcell]].
      rewrite (rs_bestaccuracy _ _ _ _ _ _ Hrun).
      apply best_of_upper.
  - intros X' y' es h1 t1' Ht.
    now destruct (trainepoch_frame _ _ _ _ _ _ _ _ Hneq Ht).
  - exact Hframe.
  - intros Hf fuel Hfuel. unfold fit. rewrite Hps.
    rewrite (fit_steps_loop _ _ _ _ _ _ Hs Hf fuel Hfuel).
    unfold fit_return. now rewrite Hb.
Qed.

(** C1 (amended). With early stopping, if the validation accuracy strictly
    increases over the first [E >= 1] epochs and none of the next
    [tenacity + 1] epochs improves on the accuracy of epoch [E], and the
    epoch cap leaves room for them, then the loop of [fit] runs exactly
    [E + tenacity + 1] times; on return [self.model] is a snapshot, other
    than the object that was trained, holding the live model as it was after
    epoch [E]; and [fit] returns the accuracy of epoch [E]. *)
Theorem fit_stops_after_tenacity_plus_one
        (h : heap) (t t1 : trainer) (X : list Example) (y : list Z)
        (validation_data : option dataset) (validation_split : option float)
        (train dev : dataset) (E T : nat)
        (sE s' : live) (accs plateau : list Q) :
  (model t < next h)%nat ->
  prepare_split (set_nepoch t 0) X y validation_data validation_split
  = Ok (t1, (train, dev)) ->
  tenacity t = Z.of_nat T ->
  0 <= epoch_size t ->
  Z.of_nat (E + T) * epoch_size t <= max_epoch t ->
  (1 <= E)%nat ->
  rounds (batch_size t) (epoch_size t) train dev E
         (live_of (fit_init h t1)) = Ok (sE, accs) ->
  StronglySorted Qlt accs ->
  rounds (batch_size t) (epoch_size t) train dev (S T) sE
  = Ok (s', plateau) ->
  Forall (fun a => a <= last accs 0)%Q plateau ->
  exists h' t',
    fit_stops_at (E + T + 1) h t X y validation_data validation_split true
                 (h', t', last accs 0%Q) /\
    cell h' (model t') = live_obj sE /\
    model t' <> model t /\
    nepoch t' = Z.of_nat (E + T + 1) * epoch_size t.
Proof.
  intros Hwf Hps Hten Hes Hcap HE HrE Hsorted Hrp Hplat.
  destruct (prepare_split_config _ _ _ _ _ _ _ Hps)
    as (Hm1 & Hn1 & Hbs1 & Hten1 & Hes1 & Hmax1).
  simpl in Hm1, Hn1, Hbs1, Hten1, Hes1, Hmax1.
  set (st0 := fit_init h t1) in *.
  assert (Hwf0 : wf_state st0) by (apply wf_fit_init; now rewrite Hm1).
  destruct (rounds_nonneg _ _ _ _ _ _ _ _ HrE) as (HnnE & HlenE).
  destruct (rounds_nonneg _ _ _ _ _ _ _ _ Hrp) as (_ & HlenP).
  (* the improving epochs *)
  assert (Hsorted0 : StronglySorted Qlt (bestaccuracy st0 :: accs)).
  { constructor; [exact Hsorted|].
    eapply Forall_impl; [|exact HnnE].
    intros a Ha. simpl. eapply Qlt_le_trans; [|exact Ha]. reflexivity. }
  destruct (steps_improving true train dev accs st0 sE) as (stE & HsE).
  { simpl. now rewrite Hbs1, Hes1, HlenE. }
  { exact Hsorted0. }
  { reflexivity. }
  { simpl. lia. }
  { simpl. rewrite Hn1, Hes1, Hmax1, HlenE. nia. }
  rewrite HlenE in HsE.
  destruct (fit_steps_run _ _ _ _ _ _ HsE) as (accs' & Hlen' & HrunE).
  pose proof (rs_rounds _ _ _ _ _ _ HrunE) as Hr'.
  simpl self in Hr'. rewrite Hbs1, Hes1, Hlen' in Hr'.
  rewrite HrE in Hr'.
  assert (HliveE : sE = live_of stE) by congruence.
  assert (Haccs : accs' = accs) by congruence.
  subst accs'. clear Hr'.
  destruct (improving_spec accs _ Hsorted0) as (Hni & Hbo & Hbr).
  pose proof (rs_bestaccuracy _ _ _ _ _ _ HrunE) as HbestE.
  rewrite Hbo in HbestE.
  assert (Hlast : last accs (bestaccuracy st0) = last accs 0%Q).
  { destruct accs as [|a accs]; [simpl in HlenE; lia|].
    now rewrite !last_cons. }
  rewrite Hlast in HbestE.
  pose proof (rs_early_stop_count _ _ _ _ _ _ HrunE) as HcE.
  rewrite Hni in HcE. simpl in HcE.
  pose proof (rs_stop_train _ _ _ _ _ _ HrunE) as HstopE.
  rewrite HcE in HstopE. simpl in HstopE.
  pose proof (rs_wf _ _ _ _ _ _ HrunE Hwf0) as HwfE.
  pose proof (rs_bestmodel _ _ _ _ _ _ HrunE) as HbmE.
  rewrite Hbr, HlenE in HbmE.
  destruct E as [|E']; [lia|].
  destruct HbmE as (l & sk & HbE & _ & _ & Hk & HcellE).
  simpl self in Hk. rewrite Hbs1, Hes1 in Hk.
  rewrite <- HlenE, firstn_all in Hk. rewrite HlenE, HrE in Hk.
  assert (Hsk : sk = sE) by congruence. subst sk. clear Hk.
  specialize (HcellE Hwf0).
  (* the epochs that do not improve *)
  destruct (steps_plateau train dev plateau stE s') as (st' & HsP).
  { rewrite (rs_batch_size _ _ _ _ _ _ HrunE),
      (rs_epoch_size _ _ _ _ _ _ HrunE), <- HliveE. simpl.
    now rewrite Hbs1, Hes1, HlenP. }
  { now rewrite HbestE. }
  { exact HstopE. }
  { rewrite HcE, (rs_tenacity _ _ _ _ _ _ HrunE). simpl. lia. }
  { rewrite HcE, (rs_tenacity _ _ _ _ _ _ HrunE), HlenP. simpl. lia. }
  { rewrite (rs_epoch_size _ _ _ _ _ _ HrunE). simpl. lia. }
  { rewrite (rs_nepoch _ _ _ _ _ _ HrunE), (rs_epoch_size _ _ _ _ _ _ HrunE),
      (rs_max_epoch _ _ _ _ _ _ HrunE), HlenE, HlenP. simpl self.
    rewrite Hn1, Hes1, Hmax1. simpl nepoch. nia. }
  rewrite HlenP in HsP.
  destruct (fit_steps_run _ _ _ _ _ _ HsP) as (plat' & HlenP' & HrunP).
  pose proof (rs_rounds _ _ _ _ _ _ HrunP) as Hr'.
  rewrite (rs_batch_size _ _ _ _ _ _ HrunE),
    (rs_epoch_size _ _ _ _ _ _ HrunE), <- HliveE, HlenP' in Hr'.
  simpl self in Hr'. rewrite Hbs1, Hes1, Hrp in Hr'.
  assert (Hplat' : plat' = plateau) by congruence.
  subst plat'. clear Hr'.
  assert (HplatE : Forall (fun a => a <= bestaccuracy stE)%Q plateau)
    by now rewrite HbestE.
  destruct (plateau_spec plateau _ HplatE) as (Pni & Pbo & Pbr).
  pose proof (rs_bestaccuracy _ _ _ _ _ _ HrunP) as HbestP.
  rewrite Pbo, HbestE in HbestP.
  pose proof (rs_early_stop_count _ _ _ _ _ _ HrunP) as HcP.
  rewrite Pni, HcE, HlenP in HcP.
  pose proof (rs_stop_train _ _ _ _ _ _ HrunP) as HstopP.
  rewrite HstopE, HcP, HcE, (rs_tenacity _ _ _ _ _ _ HrunE) in HstopP.
  simpl self in HstopP. rewrite Hten1, Hten in HstopP. simpl in HstopP.
  assert (Hstop : stop_train st' = true).
  { rewrite HstopP.
    destruct (Z.ltb_spec 0 (Z.pos (Pos.of_succ_nat T))); [|lia].
    destruct (Z.ltb_spec (Z.of_nat T) (Z.pos (Pos.of_succ_nat T))); [|lia].
    reflexivity. }
  pose proof (rs_bestmodel _ _ _ _ _ _ HrunP) as HbmP.
  rewrite Pbr, HbE in HbmP.
  pose proof (rs_wf _ _ _ _ _ _ HrunP HwfE) as HwfP.
  destruct HwfE as (HmE & HbwE). destruct (HbwE _ HbE) as (HlE & HneE).
  pose proof (rs_frame _ _ _ _ _ _ HrunP l HneE HlE) as HcellP.
  pose proof (fit_steps_trans _ _ _ _ _ _ _ _ HsE HsP) as Hsteps.
  replace (S E' + S T)%nat with (S E' + T + 1)%nat in Hsteps by lia.
  assert (Hcond : fit_cond st' = false)
    by (unfold fit_cond; now rewrite Hstop).
  exists (hp st'), (set_model (hp st') (self st') l).
  split; [split|split; [|split]].
  - unfold fit. rewrite Hps. fold st0.
    rewrite (fit_steps_loop _ _ _ _ _ _ Hsteps Hcond _ (le_n _)).
    unfold fit_return. now rewrite HbmP, HbestP.
  - intros fuel Hfuel. unfold fit. rewrite Hps. fold st0.
    now rewrite (fit_steps_loop_running _ _ _ _ _ _ Hsteps fuel Hfuel).
  - simpl. now rewrite HcellP, HcellE.
  - simpl. rewrite <- Hm1. change (model t1) with (model (self st0)).
    rewrite <- (rs_model _ _ _ _ _ _ HrunE). exact HneE.
  - unfold set_model. cbn [nepoch].
    rewrite (rs_nepoch _ _ _ _ _ _ HrunP),
      (rs_nepoch _ _ _ _ _ _ HrunE), (rs_epoch_size _ _ _ _ _ _ HrunE),
      HlenE, HlenP. unfold st0, fit_init. cbn [self].
    rewrite Hn1, Hes1. cbn [nepoch set_nepoch]. nia.
Qed.

(** C5 (what the code does).  Without early stopping, whenever
    [fit] returns, [self.nepoch], the number of passes over the training
    set that the call has performed, is a multiple of [epoch_size] that
    exceeds [max_epoch]: the loop tests [nepoch <= max_epoch] before a call
    of [trainepoch] that performs [epoch_size] more passes. *)
Theorem fit_runs_past_max_epoch
        (fuel : nat) (h h' : heap) (t t' : trainer)
        (X : list Example) (y : list Z)
        (validation_data : option dataset) (validation_split : option float)
        (best : Q) :
  fit fuel h t X y validation_data validation_split false
  = Some (Ok (h', t', best)) ->
  max_epoch t < nepoch t' /\
  exists n, (n <= fuel)%nat /\ nepoch t' = Z.of_nat n * epoch_size t.
Proof.
  unfold fit. intros H.
  destruct (prepare_split _ _ _ _ _) as [[t1 [train dev]]|e] eqn:Hps;
    [|discriminate].
  destruct (prepare_split_config _ _ _ _ _ _ _ Hps)
    as (Hm1 & Hn1 & Hbs1 & Hten1 & Hes1 & Hmax1).
  simpl in Hn1, Hes1, Hmax1.
  destruct (fit_loop _ _ _ _ _) as [[st|e]|] eqn:Hl; try discriminate.
  unfold fit_return in H. destruct (bestmodel st) as [l|]; [|discriminate].
  inversion H; subst. clear H.
  destruct (fit_loop_steps _ _ _ _ _ _ Hl) as (n & Hn & Hs & Hf).
  destruct (fit_steps_run _ _ _ _ _ _ Hs) as (accs & Hlen & Hrun).
  pose proof (rs_stop_train _ _ _ _ _ _ Hrun) as Hstop.
  pose proof (rs_nepoch _ _ _ _ _ _ Hrun) as Hnep.
  pose proof (rs_max_epoch _ _ _ _ _ _ Hrun) as Hmax.
  simpl in Hstop, Hnep, Hmax. rewrite Hn1, Hes1, Hlen in Hnep.
  unfold fit_cond in Hf. rewrite Hstop in Hf. simpl in Hf.
  apply Z.leb_gt in Hf. simpl.
  split; [lia | exists n; split; [exact Hn | lia]].
Qed.

(** *** [predict_proba] on more than one batch *)

Lemma range_len_two (n bs : Z) :
  0 < bs -> bs < n -> (2 <= range_len 0 n bs)%nat.
Proof.
  intros Hbs Hn. unfold range_len.
  destruct (Z.ltb_spec 0 bs) as [_|]; [|lia].
  assert (2 <= (n - 0 + bs - 1) / bs)
    by (apply Z.div_le_lower_bound; lia).
  lia.
Qed.

(** C7 (what the code does).  On an input that spans more than one
    batch [predict_proba] returns nothing: for every behaviour of
    [F.softmax] that yields at least two probabilities on a batch, the
    call raises.  If the first batch goes through, [probas] is an array of
    several elements, and its truth value is asked for in the second
    iteration. *)
Theorem predict_proba_raises_on_several_batches
        (h : heap) (t : trainer) (devX : list Example) :
  0 < batch_size t ->
  batch_size t < Z.of_nat (length devX) ->
  (forall ls rows, ls <> [] -> F_softmax ls = Ok rows ->
                   (2 <= length (concat rows))%nat) ->
  exists e, predict_proba h t devX = Raise e.
Proof.
  intros Hbs Hn Hsm. unfold predict_proba, predict_proba_on.
  rewrite py_range_pos by exact Hbs.
  pose proof (range_len_two _ _ Hbs Hn) as H2.
  destruct (range_len 0 (Z.of_nat (length devX)) (batch_size t))
    as [|[|m]]; [lia | lia |].
  cbn [bind seq map foldM].
  destruct (F_softmax _) as [vals|e] eqn:E1; cbn [bind py_not];
    [|eauto].
  destruct (F_softmax _) as [vals2|e] eqn:E2 in |- *; cbn [bind];
    [|eauto].
  unfold ndarray_bool.
  assert (Hv : (2 <= length (concat vals))%nat).
  { eapply Hsm; [|exact E1]. rewrite py_slice_batch by exact Hbs.
    simpl skipn. destruct devX as [|x devX]; [simpl in Hn; lia|].
    destruct (Z.to_nat (batch_size t)) eqn:Eb; [lia|]. discriminate. }
  destruct (concat vals) as [|p [|p' ps]]; simpl in Hv; [lia | lia |].
  cbn [bind]. eauto.
Qed.

(** ** Further properties of the classifier *)

(** *** [prepare_split] by a fraction *)

Lemma gather_app {A : Type} (l : list A) (idx1 idx2 : list nat)
      (xs1 xs2 : list A) :
  gather l idx1 = Ok xs1 -> gather l idx2 = Ok xs2 ->
  gather l (idx1 ++ idx2) = Ok (xs1 ++ xs2).
Proof.
  revert xs1. induction idx1 as [|i idx1 IH]; intros xs1 H1 H2; simpl in *.
  - inversion H1; subst. exact H2.
  - destruct (nth_error l i) as [x|]; [|discriminate].
    apply bind_ok in H1. destruct H1 as (xs & Hx & H1).
    inversion H1; subst. rewrite (IH _ Hx H2). reflexivity.
Qed.

Lemma gather_app_inv {A : Type} (l : list A) (idx1 idx2 : list nat)
      (xs : list A) :
  gather l (idx1 ++ idx2) = Ok xs ->
  exists xs1 xs2, gather l idx1 = Ok xs1 /\ gather l idx2 = Ok xs2 /\
                  xs = xs1 ++ xs2.
Proof.
  revert xs. induction idx1 as [|i idx1 IH]; intros xs H; simpl in *.
  - exists [], xs. auto.
  - destruct (nth_error l i) as [x|]; [|discriminate].
    apply bind_ok in H. destruct H as (xs' & Hx & H).
    inversion H; subst. destruct (IH _ Hx) as (xs1 & xs2 & H1 & H2 & ->).
    exists (x :: xs1), xs2. rewrite H1. auto.
Qed.

Lemma gather_length {A : Type} (l : list A) (idx : list nat) (xs : list A) :
  gather l idx = Ok xs -> length xs = length idx.
Proof.
  revert xs. induction idx as [|i idx IH]; intros xs H; simpl in *.
  - now inversion H.
  - destruct (nth_error l i) as [x|]; [|discriminate].
    apply bind_ok in H. destruct H as (xs' & Hx & H).
    inversion H; subst. simpl. now rewrite (IH _ Hx).
Qed.

Lemma gather_nth_error {A : Type} (l : list A) (idx : list nat)
      (xs : list A) :
  gather l idx = Ok xs -> map (@Some A) xs = map (nth_error l) idx.
Proof.
  revert xs. induction idx as [|i idx IH]; intros xs H; simpl in *.
  - now inversion H.
  - destruct (nth_error l i) as [x|] eqn:E; [|discriminate].
    apply bind_ok in H. destruct H as (xs' & Hx & H).
    inversion H; subst. simpl. now rewrite (IH _ Hx).
Qed.

Lemma map_nth_error_seq {A : Type} (l : list A) :
  map (nth_error l) (seq 0 (length l)) = map (@Some A) l.
Proof.
  induction l as [|a l IH]; [reflexivity|].
  simpl length. rewrite <- cons_seq, <- seq_shift. simpl.
  rewrite map_map. f_equal. exact IH.
Qed.

Lemma map_Some_inj {A : Type} (l l' : list A) :
  map (@Some A) l = map (@Some A) l' -> l = l'.
Proof.
  revert l'. induction l as [|a l IH]; intros [|a' l'] H; simpl in H;
    try discriminate; [reflexivity|].
  inversion H; subst. f_equal. now apply IH.
Qed.

(** Indexing by a permutation of the positions permutes the rows. *)
Lemma gather_permutation {A : Type} (l : list A) (idx : list nat) :
  Permutation idx (seq 0 (length l)) ->
  exists xs, gather l idx = Ok xs /\ Permutation xs l.
Proof.
  intros Hp.
  destruct (gather_in_range l idx) as (xs & Hx).
  { apply Forall_forall. intros i Hi.
    apply (Permutation_in _ Hp) in Hi. apply in_seq in Hi. lia. }
  exists xs. split; [exact Hx|].
  apply gather_nth_error in Hx.
  apply (Permutation_map (nth_error l)) in Hp.
  rewrite map_nth_error_seq, <- Hx in Hp.
  apply Permutation_sym, Permutation_map_inv in Hp.
  destruct Hp as (l3 & Heq & Hp). apply map_Some_inj in Heq. now subst.
Qed.

Lemma nth_error_combine_some {A B : Type} (l : list A) (l' : list B)
      (i : nat) (a : A) (b : B) :
  nth_error l i = Some a -> nth_error l' i = Some b ->
  nth_error (combine l l') i = Some (a, b).
Proof.
  revert l l'. induction i as [|i IH]; intros [|x l] [|x' l'] Ha Hb;
    simpl in *; try discriminate.
  - now inversion Ha; inversion Hb.
  - now apply IH.
Qed.

(** Indexing rows and labels by the same positions keeps them paired. *)
Lemma gather_combine {A B : Type} (l : list A) (l' : list B)
      (idx : list nat) (xs : list A) (ys : list B) :
  gather l idx = Ok xs -> gather l' idx = Ok ys ->
  gather (combine l l') idx = Ok (combine xs ys).
Proof.
  revert xs ys. induction idx as [|i idx IH]; intros xs ys Hx Hy;
    simpl in *.
  - now inversion Hx; inversion Hy.
  - destruct (nth_error l i) as [a|] eqn:Ea; [|discriminate].
    destruct (nth_error l' i) as [b|] eqn:Eb; [|discriminate].
    apply bind_ok in Hx. destruct Hx as (xs' & Hx & H1).
    apply bind_ok in Hy. destruct Hy as (ys' & Hy & H2).
    inversion H1; inversion H2; subst.
    rewrite (nth_error_combine_some _ _ _ _ _ Ea Eb), (IH _ _ Hx Hy).
    reflexivity.
Qed.

(** X1. Splitting by a fraction, with parallel rows and labels and a
    generator that returns a permutation of the positions.  The product
    [validation_split * len(X)] is a product of floats, and [int] of it
    raises when it is infinite or not a number; [prepare_split] then raises
    the same.  Otherwise, with [k] the integer obtained, [prepare_split]
    returns; the validation part holds the rows at the positions
    [permutation[0:k]] and the training part the rows at the positions
    [permutation[k:]] (so [k] validation rows when [k] is between zero and
    the number of rows); rows stay paired with their labels, and the two
    parts together are a rearrangement of the input, so that no example is
    lost, duplicated or in both parts. *)
Theorem prepare_split_fraction_partitions
        (t : trainer) (X : list Example) (y : list Z) (q : float) :
  length X = length y ->
  Permutation (fst (np_permutation (aux t) (length X)))
              (seq 0 (length X)) ->
  split_truthy (Some q) = true ->
  match int_times q (length X) with
  | Raise e => prepare_split t X y None (Some q) = Raise e
  | Ok k =>
      exists trainX trainy devX devy,
        prepare_split t X y None (Some q)
        = Ok (set_aux t (snd (np_permutation (aux t) (length X))),
              ((trainX, trainy), (devX, devy))) /\
        gather (combine X y)
               (py_slice (fst (np_permutation (aux t) (length X))) 0 k)
        = Ok (combine devX devy) /\
        gather (combine X y)
               (py_slice_from (fst (np_permutation (aux t) (length X))) k)
        = Ok (combine trainX trainy) /\
        length devX = slice_index (length X) k /\
        length devy = length devX /\
        length trainX = (length X - length devX)%nat /\
        length trainy = length trainX /\
        Permutation (combine devX devy ++ combine trainX trainy)
                    (combine X y) /\
        (0 <= k <= Z.of_nat (length X) -> Z.of_nat (length devX) = k)
  end.
Proof.
  intros Hlen Hperm Hq. unfold prepare_split. rewrite Hq. simpl orb.
  destruct (np_permutation (aux t) (length X)) as [perm a] eqn:Ep.
  simpl fst in Hperm. simpl snd. simpl fst.
  destruct (int_times q (length X)) as [k|e]; [|reflexivity].
  simpl bind.
  assert (Hpl : length perm = length X).
  { rewrite (Permutation_length Hperm). apply length_seq. }
  unfold py_slice_from, py_slice. rewrite Hpl.
  replace (slice_index (length X) 0) with O
    by (unfold slice_index; simpl; lia).
  rewrite Nat.sub_0_r, skipn_0.
  set (b := slice_index (length X) k).
  assert (Hb : (b <= length X)%nat).
  { unfold b, slice_index. destruct (Z.ltb_spec k 0); lia. }
  assert (Hpx : Permutation (firstn b perm ++ skipn b perm)
                            (seq 0 (length X)))
    by now rewrite firstn_skipn.
  destruct (gather_permutation X _ Hpx) as (xs & Hgx & _).
  pose proof Hpx as Hpy. rewrite Hlen in Hpy.
  destruct (gather_permutation y _ Hpy) as (ys & Hgy & _).
  destruct (gather_app_inv _ _ _ _ Hgx) as (devX & trainX & HdX & HtX & ->).
  destruct (gather_app_inv _ _ _ _ Hgy) as (devy & trainy & Hdy & Hty & ->).
  exists trainX, trainy, devX, devy.
  rewrite HtX, Hty, HdX, Hdy. simpl bind.
  pose proof (gather_length _ _ _ HdX) as LdX.
  pose proof (gather_length _ _ _ Hdy) as Ldy.
  pose proof (gather_length _ _ _ HtX) as LtX.
  pose proof (gather_length _ _ _ Hty) as Lty.
  rewrite length_firstn in LdX, Ldy. rewrite length_skipn in LtX, Lty.
  split; [reflexivity|].
  split; [exact (gather_combine _ _ _ _ _ HdX Hdy)|].
  split; [exact (gather_combine _ _ _ _ _ HtX Hty)|].
  split; [lia|]. split; [lia|].
  split; [lia|]. split; [lia|]. split.
  - pose proof (gather_app _ _ _ _ _ (gather_combine _ _ _ _ _ HdX Hdy)
                           (gather_combine _ _ _ _ _ HtX Hty)) as Hg.
    assert (Hpc : Permutation (firstn b perm ++ skipn b perm)
                              (seq 0 (length (combine X y)))).
    { rewrite length_combine, <- Hlen, Nat.min_id. exact Hpx. }
    destruct (gather_permutation _ _ Hpc) as (zs & Hz & Hzp).
    rewrite Hg in Hz. inversion Hz; subst. exact Hzp.
  - intros Hk. rewrite LdX, Hpl.
    unfold b, slice_index. destruct (Z.ltb_spec k 0); lia.
Qed.

(** *** Edge cases of [fit] *)

Lemma range_len_empty (bs : Z) : range_len 0 0 bs = O.
Proof.
  unfold range_len.
  destruct (Z.ltb_spec 0 bs); [|destruct (Z.ltb_spec bs 0)];
    [| |reflexivity].
  - replace (0 - 0 + bs - 1) with (bs - 1) by lia.
    rewrite Z.div_small by lia. reflexivity.
  - replace (0 - 0 - bs - 1) with (- bs - 1) by lia.
    rewrite Z.div_small by lia. reflexivity.
Qed.

Lemma score_on_empty (bs : Z) (o : module_obj) (devy : list Z) :
  bs <> 0 -> score_on bs o [] devy = Raise ZeroDivisionError.
Proof.
  intros Hbs. unfold score_on, py_range.
  destruct (Z.eqb_spec bs 0); [contradiction|].
  simpl length. simpl Z.of_nat. rewrite range_len_empty. reflexivity.
Qed.

Lemma score_on_zero_batch (o : module_obj)
      (devX : list Example) (devy : list Z) :
  score_on 0 o devX devy = Raise ValueError.
Proof. reflexivity. Qed.

(** X2. On an empty validation set, whether passed as [validation_data] or
    left by a fraction too small for the data, [fit] with [max_epoch >= 0]
    enters the loop and never leaves its first iteration: when the first
    [trainepoch] raises, [fit] raises the same; when it returns, [score]
    raises, [ZeroDivisionError] on the division by [len(devX)] for a batch
    size other than zero and [ValueError] on [range] for a zero one.  This
    holds whatever the fuel beyond the first iteration. *)
Theorem fit_empty_validation_set
        (h : heap) (t t1 : trainer) (X : list Example) (y : list Z)
        (validation_data : option dataset) (validation_split : option float)
        (early_stop : bool) (train dev : dataset) :
  0 <= max_epoch t ->
  prepare_split (set_nepoch t 0) X y validation_data validation_split
  = Ok (t1, (train, dev)) ->
  fst dev = [] ->
  forall fuel,
    fit (S fuel) h t X y validation_data validation_split early_stop
    = match trainepoch h t1 (fst train) (snd train) (epoch_size t) with
      | Raise e => Some (Raise e)
      | Ok _ => Some (Raise (if batch_size t =? 0 then ValueError
                             else ZeroDivisionError))
      end.
Proof.
  intros Hmax Hps Hdev fuel.
  destruct (prepare_split_config _ _ _ _ _ _ _ Hps)
    as (Hm1 & Hn1 & Hbs1 & Hten1 & Hes1 & Hmax1).
  simpl in Hn1, Hbs1, Hes1, Hmax1.
  unfold fit. rewrite Hps, fit_loop_unfold.
  assert (Hcond : fit_cond (fit_init h t1) = true).
  { unfold fit_cond. simpl. rewrite Hn1, Hmax1. now apply Z.leb_le. }
  rewrite Hcond. unfold fit_body. simpl hp. simpl self. rewrite Hes1.
  destruct (trainepoch h t1 (fst train) (snd train) (epoch_size t))
    as [[h1 t2]|e] eqn:Et; [|reflexivity].
  simpl bind. unfold score.
  assert (Hb2 : batch_size t2 = batch_size t).
  { unfold trainepoch in Et. apply bind_ok in Et.
    destruct Et as (os & _ & Et). inversion Et; subst. simpl. exact Hbs1. }
  simpl fst. simpl snd. rewrite Hb2, Hdev.
  destruct (Z.eqb_spec (batch_size t) 0) as [E|E].
  - rewrite E, score_on_zero_batch. reflexivity.
  - rewrite score_on_empty by exact E. reflexivity.
Qed.

(** X3. With a negative [max_epoch] the loop of [fit] is never entered:
    whenever the split succeeds, [fit] raises [UnboundLocalError] on
    [self.model = bestmodel], without training, for every fuel. *)
Theorem fit_negative_max_epoch
        (h : heap) (t t1 : trainer) (X : list Example) (y : list Z)
        (validation_data : option dataset) (validation_split : option float)
        (early_stop : bool) (d : dataset * dataset) :
  max_epoch t < 0 ->
  prepare_split (set_nepoch t 0) X y validation_data validation_split
  = Ok (t1, d) ->
  forall fuel,
    fit fuel h t X y validation_data validation_split early_stop
    = Some (Raise UnboundLocalError).
Proof.
  intros Hmax Hps fuel.
  destruct (prepare_split_config _ _ _ _ _ _ _ Hps)
    as (Hm1 & Hn1 & Hbs1 & Hten1 & Hes1 & Hmax1).
  simpl in Hn1, Hmax1. destruct d as [train dev].
  unfold fit. rewrite Hps, fit_loop_unfold.
  assert (Hcond : fit_cond (fit_init h t1) = false).
  { unfold fit_cond. simpl. rewrite Hn1, Hmax1. apply Z.leb_gt. lia. }
  now rewrite Hcond.
Qed.

(** *** What [fit] returns *)

(** A call of [fit] that returns has split the data, run the loop some
    number of times from the initial state, left it because the condition
    failed, and found [bestmodel] bound. *)
Lemma fit_returns_inv
      (fuel : nat) (h h' : heap) (t t' : trainer)
      (X : list Example) (y : list Z)
      (validation_data : option dataset) (validation_split : option float)
      (early_stop : bool) (best : Q) :
  fit fuel h t X y validation_data validation_split early_stop
  = Some (Ok (h', t', best)) ->
  exists t1 train dev n st l,
    prepare_split (set_nepoch t 0) X y validation_data validation_split
    = Ok (t1, (train, dev)) /\
    (n <= fuel)%nat /\
    fit_steps early_stop train dev n (fit_init h t1) st /\
    fit_cond st = false /\
    bestmodel st = Some l /\
    h' = hp st /\ t' = set_model (hp st) (self st) l /\ best = bestaccuracy st.
Proof.
  unfold fit. intros H.
  destruct (prepare_split _ _ _ _ _) as [[t1 [train dev]]|e] eqn:Hps;
    [|discriminate].
  destruct (fit_loop _ _ _ _ _) as [[st|e]|] eqn:Hl; try discriminate.
  unfold fit_return in H.
  destruct (bestmodel st) as [l|] eqn:Hb; [|discriminate].
  inversion H; subst.
  destruct (fit_loop_steps _ _ _ _ _ _ Hl) as (n & Hn & Hs & Hf).
  exists t1, train, dev, n, st, l. repeat split; auto.
Qed.

Lemma score_on_weights (bs : Z) (o o' : module_obj)
      (devX : list Example) (devy : list Z) :
  weights o = weights o' -> score_on bs o devX devy = score_on bs o' devX devy.
Proof. intros H. unfold score_on. now rewrite H. Qed.

(** The last accuracy of a sequence of rounds is the accuracy of the live
    model that the rounds leave. *)
Lemma rounds_last_score (bs es : Z) (train dev : dataset) :
  forall (n : nat) (s s' : live) (accs : list Q),
    rounds bs es train dev (S n) s = Ok (s', accs) ->
    exists a, nth_error accs n = Some a /\
              score_on bs (live_obj s') (fst dev) (snd dev) = Ok a.
Proof.
  induction n as [|n IH]; intros s s' accs H.
  - simpl in H. apply bind_ok in H. destruct H as ([s1 a] & Hr & H).
    inversion H; subst. simpl. exists a. split; [reflexivity|].
    unfold train_round in Hr.
    apply bind_ok in Hr. destruct Hr as (oa & _ & Hr).
    apply bind_ok in Hr. destruct Hr as (q & Hq & Hr).
    inversion Hr; subst. exact Hq.
  - change (rounds bs es train dev (S (S n)) s)
      with (sa <- train_round bs es train dev s ;;
            r <- rounds bs es train dev (S n) (fst sa) ;;
            Ok (fst r, snd sa :: snd r)) in H.
    apply bind_ok in H. destruct H as ([s1 a1] & _ & H).
    apply bind_ok in H. destruct H as ([s2 l2] & Hr & H).
    inversion H; subst. simpl in Hr.
    destruct (IH _ _ _ Hr) as (a & Ha & Hs). exists a. auto.
Qed.

(** The epoch that [best_round] designates is the first to reach the best
    accuracy: the epochs before it are strictly below. *)
Lemma best_round_first (accs : list Q) :
  forall (best : Q) (k : nat),
    best_round best accs = S k ->
    (best < best_of best accs)%Q /\
    forall j a, (j < k)%nat -> nth_error accs j = Some a ->
                (a < best_of best accs)%Q.
Proof.
  induction accs as [|a accs IH]; intros best k H; simpl in H;
    [discriminate|].
  simpl best_of.
  destruct (best_round (if Qgt_bool a best then a else best) accs)
    as [|k'] eqn:Ek.
  - destruct (Qgt_bool a best) eqn:Hgt; [|discriminate].
    inversion H; subst. rewrite (best_round_zero _ _ Ek).
    apply Qgt_bool_true in Hgt. split; [exact Hgt | intros; lia].
  - inversion H; subst. destruct (IH _ _ Ek) as (Hb & Hj).
    assert (Hab : (a <= if Qgt_bool a best then a else best)%Q /\
                  (best <= if Qgt_bool a best then a else best)%Q).
    { destruct (Qgt_bool a best) eqn:Hgt.
      - apply Qgt_bool_true in Hgt.
        split; [apply Qle_refl | now apply Qlt_le_weak].
      - apply Qgt_bool_false in Hgt. split; [exact Hgt | apply Qle_refl]. }
    destruct Hab as (Ha & Hbest).
    split; [eapply Qle_lt_trans; eauto|].
    intros [|j] a' Hlt Hn; simpl in Hn.
    + inversion Hn; subst. eapply Qle_lt_trans; eauto.
    + eapply Hj; [|exact Hn]. lia.
Qed.

(** X4. When [fit], started on an allocated model, returns, the accuracy it
    returns is the largest validation accuracy of the epochs it ran, and
    the model it installs is the live model as it was after the first epoch
    that reached it: every earlier epoch scored strictly less, and a later
    epoch that only equals it does not replace the snapshot. *)
Theorem fit_returns_first_best_epoch
        (fuel : nat) (h h' : heap) (t t' : trainer)
        (X : list Example) (y : list Z)
        (validation_data : option dataset) (validation_split : option float)
        (early_stop : bool) (best : Q) :
  (model t < next h)%nat ->
  fit fuel h t X y validation_data validation_split early_stop
  = Some (Ok (h', t', best)) ->
  exists t1 train dev n s accs k sk,
    prepare_split (set_nepoch t 0) X y validation_data validation_split
    = Ok (t1, (train, dev)) /\
    (n <= fuel)%nat /\
    rounds (batch_size t) (epoch_size t) train dev n
           (live_of (fit_init h t1)) = Ok (s, accs) /\
    nth_error accs k = Some best /\
    (forall j a, nth_error accs j = Some a -> (a <= best)%Q) /\
    (forall j a, (j < k)%nat -> nth_error accs j = Some a -> (a < best)%Q) /\
    rounds (batch_size t) (epoch_size t) train dev (S k)
           (live_of (fit_init h t1)) = Ok (sk, firstn (S k) accs) /\
    cell h' (model t') = live_obj sk.
Proof.
  intros Hwf H.
  destruct (fit_returns_inv _ _ _ _ _ _ _ _ _ _ _ H)
    as (t1 & train & dev & n & st & l & Hps & Hn & Hs & Hf & Hb & -> & ->
        & ->).
  destruct (prepare_split_config _ _ _ _ _ _ _ Hps)
    as (Hm1 & Hn1 & Hbs1 & Hten1 & Hes1 & Hmax1).
  simpl in Hm1, Hbs1, Hes1.
  destruct (fit_steps_run _ _ _ _ _ _ Hs) as (accs & Hlen & Hrun).
  pose proof (rs_rounds _ _ _ _ _ _ Hrun) as Hr.
  pose proof (rs_bestmodel _ _ _ _ _ _ Hrun) as Hbm.
  pose proof (rs_bestaccuracy _ _ _ _ _ _ Hrun) as Hba.
  simpl self in Hr, Hbm. rewrite Hbs1, Hes1 in Hr, Hbm. rewrite Hlen in Hr.
  destruct (best_round (bestaccuracy (fit_init h t1)) accs) as [|k] eqn:Ek.
  { simpl in Hbm. congruence. }
  destruct Hbm as (l' & sk & Hb' & _ & Hnth & Hk & Hcell).
  assert (l' = l) by congruence. subst l'.
  destruct (best_round_first _ _ _ Ek) as (_ & Hfirst).
  exists t1, train, dev, n, (live_of st), accs, k, sk.
  split; [exact Hps|]. split; [exact Hn|]. split; [exact Hr|].
  split; [exact Hnth|]. split; [|split; [|split]].
  - intros j a Hj. rewrite Hba.
    destruct (best_of_upper accs (bestaccuracy (fit_init h t1))) as (_ & Hup).
    rewrite Forall_forall in Hup. apply Hup.
    eapply nth_error_In; eauto.
  - intros j a Hlt Hj. rewrite Hba. eapply Hfirst; eauto.
  - exact Hk.
  - simpl. apply Hcell. apply wf_fit_init. now rewrite Hm1.
Qed.

(** X5. When [fit], started on an allocated model, returns, scoring the
    installed model on the validation set gives the accuracy that [fit]
    returned. *)
Theorem score_after_fit_is_best_accuracy
        (fuel : nat) (h h' : heap) (t t1 t' : trainer)
        (X : list Example) (y : list Z)
        (validation_data : option dataset) (validation_split : option float)
        (early_stop : bool) (train dev : dataset) (best : Q) :
  (model t < next h)%nat ->
  prepare_split (set_nepoch t 0) X y validation_data validation_split
  = Ok (t1, (train, dev)) ->
  fit fuel h t X y validation_data validation_split early_stop
  = Some (Ok (h', t', best)) ->
  exists h'', score h' t' (fst dev) (snd dev) = Ok (h'', best).
Proof.
  intros Hwf Hps H.
  destruct (fit_returns_inv _ _ _ _ _ _ _ _ _ _ _ H)
    as (t1' & train' & dev' & n & st & l & Hps' & Hn & Hs & Hf & Hb & -> & ->
        & ->).
  rewrite Hps in Hps'. inversion Hps'; subst t1' train' dev'. clear Hps'.
  destruct (prepare_split_config _ _ _ _ _ _ _ Hps)
    as (Hm1 & Hn1 & Hbs1 & Hten1 & Hes1 & Hmax1).
  simpl in Hm1, Hbs1, Hes1.
  destruct (fit_steps_run _ _ _ _ _ _ Hs) as (accs & Hlen & Hrun).
  pose proof (rs_bestmodel _ _ _ _ _ _ Hrun) as Hbm.
  pose proof (rs_batch_size _ _ _ _ _ _ Hrun) as Hbs.
  simpl self in Hbm, Hbs.
  destruct (best_round (bestaccuracy (fit_init h t1)) accs) as [|k].
  { simpl in Hbm. congruence. }
  destruct Hbm as (l' & sk & Hb' & _ & Hnth & Hk & Hcell).
  assert (l' = l) by congruence. subst l'.
  assert (Hwf0 : wf_state (fit_init h t1))
    by (apply wf_fit_init; now rewrite Hm1).
  specialize (Hcell Hwf0).
  destruct (rounds_last_score _ _ _ _ _ _ _ _ Hk) as (a & Ha & Hsc).
  assert (Hab : a = bestaccuracy st).
  { assert (Hk' : (k < length accs)%nat)
      by (apply nth_error_Some; congruence).
    rewrite nth_error_firstn in Ha.
    destruct (Nat.ltb_spec k (S k)); [|lia]. congruence. }
  subst a. unfold score. simpl model.
  rewrite (score_on_weights _ _ (live_obj sk)).
  - simpl batch_size. rewrite Hbs, Hsc. simpl. eauto.
  - unfold model_eval. simpl. rewrite Nat.eqb_refl. simpl. now rewrite Hcell.
Qed.

(** *** How long [fit] trains *)

(** The last iteration of a run started with the loop condition true. *)
Lemma fit_steps_last (early_stop : bool) (train dev : dataset) :
  forall (n : nat) (a c : fit_state),
    fit_steps early_stop train dev (S n) a c ->
    exists b, fit_steps early_stop train dev n a b /\
              fit_cond b = true /\
              fit_body early_stop train dev b = Ok c.
Proof.
  induction n as [|n IH]; intros a c H;
    inversion H as [|? ? st1 ? Hc Hb Hs]; subst.
  - inversion Hs; subst. exists a. repeat split; [constructor | | ]; auto.
  - destruct (IH _ _ Hs) as (b & Hs' & Hc' & Hb').
    exists b. repeat split; [econstructor; eauto | | ]; auto.
Qed.

(** X6. When [fit] returns with a positive [epoch_size], the number of
    passes over the training set that it has made is a positive multiple
    of [epoch_size] and at most [max_epoch + epoch_size]: the epoch cap can
    be passed, but by less than one call of [trainepoch].  Without early
    stopping it is exactly [(max_epoch / epoch_size + 1) * epoch_size]. *)
Theorem fit_epoch_count
        (fuel : nat) (h h' : heap) (t t' : trainer)
        (X : list Example) (y : list Z)
        (validation_data : option dataset) (validation_split : option float)
        (early_stop : bool) (best : Q) :
  0 < epoch_size t ->
  fit fuel h t X y validation_data validation_split early_stop
  = Some (Ok (h', t', best)) ->
  (exists n, (1 <= n <= fuel)%nat /\
             nepoch t' = Z.of_nat n * epoch_size t) /\
  epoch_size t <= nepoch t' <= max_epoch t + epoch_size t /\
  (early_stop = false ->
   nepoch t' = (max_epoch t / epoch_size t + 1) * epoch_size t).
Proof.
  intros Hes H.
  destruct (fit_returns_inv _ _ _ _ _ _ _ _ _ _ _ H)
    as (t1 & train & dev & n & st & l & Hps & Hn & Hs & Hf & Hb & -> & ->
        & ->).
  destruct (prepare_split_config _ _ _ _ _ _ _ Hps)
    as (Hm1 & Hn1 & Hbs1 & Hten1 & Hes1 & Hmax1).
  simpl in Hn1, Hes1, Hmax1.
  destruct n as [|n]; [inversion Hs; subst; discriminate|].
  destruct (fit_steps_last _ _ _ _ _ _ Hs) as (b & Hsb & Hcb & Hbb).
  destruct (fit_steps_run _ _ _ _ _ _ Hsb) as (accs & Hlen & Hrun).
  destruct (fit_body_ok _ _ _ _ _ Hbb) as (s' & acc & _ & Hsp).
  pose proof (rs_nepoch _ _ _ _ _ _ Hrun) as Hnb.
  pose proof (rs_epoch_size _ _ _ _ _ _ Hrun) as Heb.
  pose proof (rs_max_epoch _ _ _ _ _ _ Hrun) as Hmb.
  pose proof (ss_nepoch _ _ _ _ _ Hsp) as Hnst.
  simpl self in Hnb, Heb, Hmb. rewrite Hlen, Hn1, Hes1 in Hnb.
  rewrite Heb, Hes1, Hnb in Hnst.
  unfold fit_cond in Hcb. apply andb_true_iff in Hcb.
  destruct Hcb as (_ & Hle). apply Z.leb_le in Hle.
  rewrite Hnb, Hmb, Hmax1 in Hle.
  simpl nepoch.
  assert (Hmul : nepoch (self st) = Z.of_nat (S n) * epoch_size t)
    by (rewrite Hnst; lia).
  split; [exists (S n); split; [lia | exact Hmul]|].
  split; [nia|].
  intros ->.
  destruct (fit_steps_run _ _ _ _ _ _ Hs) as (accs' & _ & Hrun').
  pose proof (rs_stop_train _ _ _ _ _ _ Hrun') as Hstop.
  pose proof (rs_max_epoch _ _ _ _ _ _ Hrun') as Hmax'.
  simpl in Hstop, Hmax'.
  unfold fit_cond in Hf. rewrite Hstop in Hf. simpl in Hf.
  apply Z.leb_gt in Hf. rewrite Hmax', Hmax1 in Hf.
  rewrite Hmul in Hf |- *. f_equal.
  assert (Hq : Z.of_nat n = max_epoch t / epoch_size t)
    by (apply (Z.div_unique_pos _ _ _
                 (max_epoch t - Z.of_nat n * epoch_size t)); lia).
  lia.
Qed.

(** The counter passes the tenacity by at most one, and not while the
    training has not been stopped. *)
Definition early_stop_inv (st : fit_state) : Prop :=
  early_stop_count st <= Z.max (tenacity (self st)) 0 + 1 /\
  (stop_train st = false ->
   early_stop_count st <= Z.max (tenacity (self st)) 0).

Lemma early_stop_inv_steps (early_stop : bool) (train dev : dataset)
      (n : nat) (st st' : fit_state) :
  fit_steps early_stop train dev n st st' ->
  early_stop_inv st -> early_stop_inv st'.
Proof.
  induction 1 as [st|n st st1 st2 Hc Hb Hs IH]; intros Hi; [exact Hi|].
  apply IH. destruct (fit_body_ok _ _ _ _ _ Hb) as (s' & acc & _ & Hsp).
  unfold fit_cond in Hc. apply andb_true_iff in Hc.
  destruct Hc as (Hstop & _). apply negb_true_iff in Hstop.
  destruct Hi as (_ & Hi). specialize (Hi Hstop).
  unfold early_stop_inv.
  rewrite (ss_tenacity _ _ _ _ _ Hsp), (ss_early_stop_count _ _ _ _ _ Hsp),
    (ss_stop_train _ _ _ _ _ Hsp), Hstop.
  destruct (Qgt_bool acc (bestaccuracy st)), early_stop;
    try (split; [lia | intros _; lia]).
  destruct (Z.leb_spec (tenacity (self st)) (early_stop_count st));
    split; try lia; intros; try discriminate; lia.
Qed.

(** X7. At most [max(tenacity, 0) + 1] of the epochs that a call of [fit]
    with early stopping runs fail to improve on the best accuracy before
    them; the counter of [fit] is their number. *)
Theorem fit_non_improving_epochs_bounded
        (h : heap) (t : trainer) (train dev : dataset)
        (n : nat) (st : fit_state) :
  fit_steps true train dev n (fit_init h t) st ->
  exists accs,
    rounds (batch_size t) (epoch_size t) train dev n
           (live_of (fit_init h t)) = Ok (live_of st, accs) /\
    early_stop_count st = Z.of_nat (non_improving (-1 # 1)%Q accs) /\
    Z.of_nat (non_improving (-1 # 1)%Q accs) <= Z.max (tenacity t) 0 + 1.
Proof.
  intros Hs.
  destruct (fit_steps_run _ _ _ _ _ _ Hs) as (accs & Hlen & Hrun).
  pose proof (rs_rounds _ _ _ _ _ _ Hrun) as Hr.
  pose proof (rs_early_stop_count _ _ _ _ _ _ Hrun) as Hc.
  pose proof (rs_tenacity _ _ _ _ _ _ Hrun) as Ht.
  simpl in Hr, Hc, Ht. rewrite Hlen in Hr.
  exists accs. split; [exact Hr|]. split; [exact Hc|].
  rewrite <- Hc, <- Ht.
  apply (early_stop_inv_steps _ _ _ _ _ _ Hs).
  unfold early_stop_inv. simpl. lia.
Qed.

(** *** An [epoch_size] that is not positive *)

(** X8. With [epoch_size <= 0] the call [trainepoch] makes no pass: it
    raises nothing, even for a zero batch size, leaves the weights of every
    object and the rest of the training state as they are, and still adds
    [epoch_size] to [self.nepoch]. *)
Theorem trainepoch_without_pass
        (h : heap) (t : trainer) (X : list Example) (y : list Z) (es : Z) :
  es <= 0 ->
  exists h' t',
    trainepoch h t X y es = Ok (h', t') /\
    nepoch t' = nepoch t + es /\
    aux t' = aux t /\ model t' = model t /\
    next h' = next h /\
    (forall l, weights (cell h' l) = weights (cell h l)) /\
    training (cell h' (model t)) = true.
Proof.
  intros Hes. unfold trainepoch, trainepoch_on, py_range.
  replace (1 =? 0) with false by reflexivity.
  assert (Hlen : range_len (nepoch t) (nepoch t + es) 1 = O).
  { unfold range_len. change (0 <? 1) with true. cbv iota.
    replace (nepoch t + es - nepoch t + 1 - 1) with es by lia.
    rewrite Z.div_1_r. lia. }
  rewrite Hlen. simpl.
  do 2 eexists. split; [reflexivity|]. simpl.
  repeat split.
  - intros l. rewrite ?Nat.eqb_refl.
    destruct (Nat.eqb_spec l (model t)); [subst|]; reflexivity.
  - now rewrite !Nat.eqb_refl.
Qed.

(** X9. With [epoch_size <= 0], [max_epoch >= 0] and no early stopping, a
    call of [fit] whose rounds return (positive batch size, a validation
    set that is not empty and parallel to its labels) never returns: the
    loop is still running whatever the fuel. *)
Theorem fit_never_returns_without_epochs
        (h : heap) (t t1 : trainer) (X : list Example) (y : list Z)
        (validation_data : option dataset) (validation_split : option float)
        (train dev : dataset) :
  epoch_size t <= 0 ->
  0 <= max_epoch t ->
  0 < batch_size t ->
  prepare_split (set_nepoch t 0) X y validation_data validation_split
  = Ok (t1, (train, dev)) ->
  fst dev <> [] -> length (fst dev) = length (snd dev) ->
  forall fuel,
    fit fuel h t X y validation_data validation_split false = None.
Proof.
  intros Hes Hmax Hbs Hps Hne Hlen fuel.
  destruct (prepare_split_config _ _ _ _ _ _ _ Hps)
    as (Hm1 & Hn1 & Hbs1 & Hten1 & Hes1 & Hmax1).
  simpl in Hn1, Hbs1, Hes1, Hmax1.
  unfold fit. rewrite Hps.
  assert (Hloop : forall fuel st,
             stop_train st = false ->
             nepoch (self st) <= 0 ->
             epoch_size (self st) <= 0 ->
             0 <= max_epoch (self st) ->
             0 < batch_size (self st) ->
             fit_loop false train dev fuel st = None).
  { clear fuel. induction fuel as [|fuel IH];
      intros st Hs Hn He Hm Hb; rewrite fit_loop_unfold.
    - unfold fit_cond. rewrite Hs. simpl.
      destruct (Z.leb_spec (nepoch (self st)) (max_epoch (self st)));
        [reflexivity | lia].
    - unfold fit_cond. rewrite Hs. simpl.
      destruct (Z.leb_spec (nepoch (self st)) (max_epoch (self st)));
        [|lia].
      destruct (train_round_returns (batch_size (self st))
                  (epoch_size (self st)) train dev (live_of st) Hb
                  (or_introl He) Hne Hlen)
        as (s' & acc & Hr).
      destruct (fit_body_of_round false _ _ _ _ _ Hr) as (st1 & Hb1 & Hsp).
      rewrite Hb1. apply IH.
      + rewrite (ss_stop_train _ _ _ _ _ Hsp), Hs.
        now destruct (Qgt_bool acc (bestaccuracy st)).
      + rewrite (ss_nepoch _ _ _ _ _ Hsp). lia.
      + now rewrite (ss_epoch_size _ _ _ _ _ Hsp).
      + now rewrite (ss_max_epoch _ _ _ _ _ Hsp).
      + now rewrite (ss_batch_size _ _ _ _ _ Hsp). }
  rewrite Hloop; simpl; try reflexivity; lia.
Qed.

(** *** The mini-batches of a pass *)

Lemma range_len_tight (n bs : Z) :
  0 < bs -> 0 < n -> (Z.of_nat (range_len 0 n bs) - 1) * bs < n.
Proof.
  intros Hbs Hn. unfold range_len.
  destruct (Z.ltb_spec 0 bs) as [_|]; [|lia].
  assert (Hq : 0 <= (n - 0 + bs - 1) / bs) by (apply Z.div_pos; lia).
  rewrite Z2Nat.id by exact Hq.
  pose proof (Z.div_mod (n - 0 + bs - 1) bs ltac:(lia)) as Hd.
  pose proof (Z.mod_pos_bound (n - 0 + bs - 1) bs Hbs) as Hm.
  nia.
Qed.

(** X10. With a positive batch size and a generator that returns as many
    positions as there are rows, a pass of [trainepoch] draws one
    permutation and runs the update on one mini-batch after the other, up
    to the first that raises, where the mini-batches are consecutive pieces
    of the permutation: put end to end they are the permutation, so that
    each drawn position is used exactly once; none is empty or longer than
    the batch size, and all but the last have exactly the batch size. *)
Theorem train_pass_batches_partition_permutation
        (bs : Z) (X : list Example) (y : list Z) (s : pass_state) :
  0 < bs ->
  length (fst (np_permutation (ps_aux s) (length X))) = length X ->
  exists batches,
    train_pass bs X y s
    = foldM (train_batch X y) batches
            {| ps_weights := ps_weights s; ps_detached := ps_detached s;
               ps_aux := snd (np_permutation (ps_aux s) (length X)) |} /\
    concat batches = fst (np_permutation (ps_aux s) (length X)) /\
    Forall (fun b => (1 <= length b <= Z.to_nat bs)%nat) batches /\
    (forall k b, nth_error batches k = Some b ->
                 (S k < length batches)%nat ->
                 length b = Z.to_nat bs).
Proof.
  intros Hbs Hpl. unfold train_pass.
  destruct (np_permutation (ps_aux s) (length X)) as [perm a']. simpl in *.
  rewrite py_range_pos by exact Hbs. simpl bind.
  set (m := range_len 0 (Z.of_nat (length X)) bs).
  set (b := Z.to_nat bs).
  exists (map (fun k => firstn b (skipn (k * b) perm)) (seq 0 m)).
  assert (Hcov : (length perm <= m * b)%nat).
  { pose proof (range_len_covers (Z.of_nat (length X)) bs Hbs ltac:(lia)).
    fold m in H. unfold b. rewrite Hpl. nia. }
  assert (Htight : forall k, (k < m)%nat -> (k * b < length perm)%nat).
  { intros k Hk. destruct (Nat.eq_dec (length X) 0) as [En|En].
    - exfalso. unfold m in Hk. rewrite En in Hk.
      simpl Z.of_nat in Hk. rewrite range_len_empty in Hk. lia.
    - pose proof (range_len_tight (Z.of_nat (length X)) bs Hbs
                                  ltac:(lia)) as Ht.
      fold m in Ht. rewrite Hpl. unfold b. nia. }
  split; [|split; [|split]].
  - rewrite !foldM_map. apply foldM_ext. intros s0 k _.
    now rewrite py_slice_batch.
  - now apply concat_batches.
  - apply Forall_forall. intros l Hl. apply in_map_iff in Hl.
    destruct Hl as (k & <- & Hk). apply in_seq in Hk.
    rewrite length_firstn, length_skipn.
    specialize (Htight k ltac:(lia)). unfold b in *. lia.
  - intros k l Hn Hk. rewrite length_map, length_seq in Hk.
    rewrite nth_error_map, nth_error_seq in Hn.
    destruct (Nat.ltb_spec k m); [|lia]. simpl in Hn.
    inversion Hn; subst. rewrite length_firstn, length_skipn.
    specialize (Htight (S k) Hk). unfold b in *. lia.
Qed.

(** *** Inference on edge inputs *)

(** X11. Inference on an empty input, for a batch size other than zero:
    [score] raises [ZeroDivisionError], [predict] raises [ValueError] (from
    [np.vstack]) and [predict_proba] returns the empty list it started
    from.  With a zero batch size the three methods raise [ValueError] on
    every input. *)
Theorem inference_on_empty_input (h : heap) (t : trainer) :
  (batch_size t <> 0 ->
   (forall devy, score h t [] devy = Raise ZeroDivisionError) /\
   predict h t [] = Raise ValueError /\
   predict_proba h t [] = Ok (model_eval h (model t), PyEmptyList)) /\
  (batch_size t = 0 ->
   forall devX devy,
     score h t devX devy = Raise ValueError /\
     predict h t devX = Raise ValueError /\
     predict_proba h t devX = Raise ValueError).
Proof.
  split.
  - intros Hbs. unfold score, predict, predict_proba.
    split; [|split].
    + intros devy. now rewrite score_on_empty.
    + unfold predict_on, py_range.
      destruct (Z.eqb_spec (batch_size t) 0); [contradiction|].
      simpl length. simpl Z.of_nat. rewrite range_len_empty. reflexivity.
    + unfold predict_proba_on, py_range.
      destruct (Z.eqb_spec (batch_size t) 0); [contradiction|].
      simpl length. simpl Z.of_nat. rewrite range_len_empty. reflexivity.
  - intros Hbs devX devy.
    unfold score, predict, predict_proba, score_on, predict_on,
      predict_proba_on, py_range.
    rewrite Hbs. simpl. auto.
Qed.

(** X12. A call of [score] that returns has put the live model in
    evaluation mode and changed nothing else: no weights of any object, no
    other object, no allocation; scoring again returns the same
    accuracy. *)
Theorem score_changes_only_the_mode
        (h h1 : heap) (t : trainer) (devX : list Example) (devy : list Z)
        (acc : Q) :
  score h t devX devy = Ok (h1, acc) ->
  next h1 = next h /\
  (forall l, weights (cell h1 l) = weights (cell h l)) /\
  (forall l, l <> model t -> cell h1 l = cell h l) /\
  training (cell h1 (model t)) = false /\
  exists h2, score h1 t devX devy = Ok (h2, acc).
Proof.
  unfold score. intros H.
  apply bind_ok in H. destruct H as (a & Ha & H). inversion H; subst.
  split; [reflexivity|]. split; [|split; [|split]].
  - intros l. simpl. destruct (Nat.eqb_spec l (model t)); [subst|];
      reflexivity.
  - intros l Hl. simpl. now destruct (Nat.eqb_spec l (model t)).
  - simpl. now rewrite Nat.eqb_refl.
  - rewrite (score_on_weights _ _ (cell (model_eval h (model t)) (model t))).
    + rewrite Ha. simpl. eauto.
    + simpl. now rewrite !Nat.eqb_refl.
Qed.

Lemma range_len_one (n bs : Z) :
  0 < n -> n <= bs -> range_len 0 n bs = 1%nat.
Proof.
  intros Hn Hbs. unfold range_len.
  destruct (Z.ltb_spec 0 bs) as [_|]; [|lia].
  replace ((n - 0 + bs - 1) / bs) with 1; [reflexivity|].
  apply (Z.div_unique_pos _ _ _ (n - 1)); lia.
Qed.

(** X13. On an input that is not empty and fits in one batch,
    [predict_proba] returns what [F.softmax] returns on the logits of all
    the rows, in input order, and raises exactly when [F.softmax] does. *)
Theorem predict_proba_single_batch
        (h : heap) (t : trainer) (devX : list Example) :
  devX <> [] ->
  Z.of_nat (length devX) <= batch_size t ->
  predict_proba h t devX
  = (rows <- F_softmax (map (forward (weights (cell h (model t)))) devX) ;;
     Ok (model_eval h (model t), NdArray rows)).
Proof.
  intros Hne Hbs.
  assert (Hn : 0 < Z.of_nat (length devX))
    by (destruct devX; [congruence | simpl; lia]).
  unfold predict_proba, predict_proba_on.
  rewrite py_range_pos by lia. rewrite range_len_one by lia.
  cbn [seq map foldM bind].
  rewrite (py_slice_batch devX 0 (batch_size t)) by lia.
  simpl skipn. rewrite firstn_all2 by lia.
  simpl weights. rewrite Nat.eqb_refl. simpl weights.
  destruct (F_softmax _) as [rows|e]; reflexivity.
Qed.

(** *** Training does not depend on where the module is *)

(** Two classifiers with the same parameters, optimizers that both hold
    them or hold the same others, the same training state and the same
    settings, whatever the locations of their modules. *)
Definition same_model (h1 : heap) (t1 : trainer) (h2 : heap) (t2 : trainer)
  : Prop :=
  weights (cell h1 (model t1)) = weights (cell h2 (model t2)) /\
  detached t1 = detached t2 /\
  nepoch t1 = nepoch t2 /\ aux t1 = aux t2 /\
  batch_size t1 = batch_size t2 /\ tenacity t1 = tenacity t2 /\
  epoch_size t1 = epoch_size t2 /\ max_epoch t1 = max_epoch t2.

(** Two states of [fit] that differ in the locations only. *)
Definition fit_sim (st1 st2 : fit_state) : Prop :=
  same_model (hp st1) (self st1) (hp st2) (self st2) /\
  bestaccuracy st1 = bestaccuracy st2 /\
  stop_train st1 = stop_train st2 /\
  early_stop_count st1 = early_stop_count st2 /\
  wf_state st1 /\ wf_state st2 /\
  match bestmodel st1, bestmodel st2 with
  | None, None => True
  | Some l1, Some l2 =>
      weights (cell (hp st1) l1) = weights (cell (hp st2) l2)
  | _, _ => False
  end.

(** Two outcomes that raise the same exception or return related values. *)
Definition sim_result {A : Type} (R : A -> A -> Prop) (r1 r2 : result A)
  : Prop :=
  match r1, r2 with
  | Ok a, Ok b => R a b
  | Raise e1, Raise e2 => e1 = e2
  | _, _ => False
  end.

Definition sim_comp {A : Type} (R : A -> A -> Prop)
           (c1 c2 : option (result A)) : Prop :=
  match c1, c2 with
  | Some r1, Some r2 => sim_result R r1 r2
  | None, None => True
  | _, _ => False
  end.

(** Two results of [fit]: the same accuracy, and the same model installed
    at an allocated location. *)
Definition same_fit (r1 r2 : heap * trainer * Q) : Prop :=
  snd r1 = snd r2 /\
  same_model (fst (fst r1)) (snd (fst r1)) (fst (fst r2)) (snd (fst r2)) /\
  (model (snd (fst r1)) < next (fst (fst r1)))%nat /\
  (model (snd (fst r2)) < next (fst (fst r2)))%nat.

Lemma train_round_same (bs es : Z) (train dev : dataset) (s1 s2 : live) :
  weights (live_obj s1) = weights (live_obj s2) ->
  live_detached s1 = live_detached s2 ->
  live_aux s1 = live_aux s2 -> live_nepoch s1 = live_nepoch s2 ->
  train_round bs es train dev s1 = train_round bs es train dev s2.
Proof.
  intros Hw Hd Ha Hn. unfold train_round, trainepoch_on, set_training.
  simpl weights. simpl training.
  now rewrite Hw, Hd, Ha, Hn.
Qed.

Lemma fit_body_sim (early_stop : bool) (train dev : dataset)
      (st1 st2 : fit_state) :
  fit_sim st1 st2 ->
  sim_result fit_sim (fit_body early_stop train dev st1)
             (fit_body early_stop train dev st2).
Proof.
  intros ((Hw & Hd & Hn & Ha & Hbs & Hten & Hes & Hmax) & Hba & Hst & Hec
          & Hwf1 & Hwf2 & Hbm).
  pose proof (fit_body_cases early_stop train dev st1) as H1.
  pose proof (fit_body_cases early_stop train dev st2) as H2.
  rewrite <- Hbs, <- Hes in H2.
  rewrite (train_round_same _ _ train dev (live_of st2) (live_of st1)) in H2
    by (unfold live_of; simpl; congruence).
  destruct (train_round _ _ _ _ _) as [[s' acc]|e].
  2:{ rewrite H1, H2. reflexivity. }
  destruct H1 as (st1' & Hb1 & S1). destruct H2 as (st2' & Hb2 & S2).
  rewrite Hb1, Hb2. simpl fst in *. simpl snd in *. unfold sim_result.
  pose proof (ss_live _ _ _ _ _ S1) as L1.
  pose proof (ss_live _ _ _ _ _ S2) as L2.
  assert (L : live_of st1' = live_of st2') by congruence.
  unfold live_of in L. inversion L as [[Lo Ld La Ln]].
  unfold fit_sim, same_model.
  rewrite (ss_batch_size _ _ _ _ _ S1), (ss_batch_size _ _ _ _ _ S2),
    (ss_tenacity _ _ _ _ _ S1), (ss_tenacity _ _ _ _ _ S2),
    (ss_epoch_size _ _ _ _ _ S1), (ss_epoch_size _ _ _ _ _ S2),
    (ss_max_epoch _ _ _ _ _ S1), (ss_max_epoch _ _ _ _ _ S2),
    (ss_bestaccuracy _ _ _ _ _ S1), (ss_bestaccuracy _ _ _ _ _ S2),
    (ss_stop_train _ _ _ _ _ S1), (ss_stop_train _ _ _ _ _ S2),
    (ss_early_stop_count _ _ _ _ _ S1), (ss_early_stop_count _ _ _ _ _ S2),
    (ss_bestmodel _ _ _ _ _ S1), (ss_bestmodel _ _ _ _ _ S2).
  rewrite Lo, Ld, La, Ln, Hbs, Hten, Hes, Hmax, Hba, Hst, Hec.
  split; [repeat split|]. do 3 (split; [reflexivity|]).
  split; [exact (step_wf _ _ _ _ _ Hwf1 S1)|].
  split; [exact (step_wf _ _ _ _ _ Hwf2 S2)|].
  pose proof (ss_copy _ _ _ _ _ S1) as C1.
  pose proof (ss_copy _ _ _ _ _ S2) as C2.
  rewrite Hba in C1.
  destruct (Qgt_bool acc (bestaccuracy st2)).
  - now rewrite C1, C2.
  - destruct Hwf1 as (_ & Hl1), Hwf2 as (_ & Hl2).
    destruct (bestmodel st1) as [l1|], (bestmodel st2) as [l2|];
      try exact Hbm.
    destruct (Hl1 l1 eq_refl) as (Hlt1 & Hne1).
    destruct (Hl2 l2 eq_refl) as (Hlt2 & Hne2).
    rewrite (ss_frame _ _ _ _ _ S1 l1 Hne1 Hlt1),
      (ss_frame _ _ _ _ _ S2 l2 Hne2 Hlt2). exact Hbm.
Qed.

Lemma fit_loop_sim (early_stop : bool) (train dev : dataset) :
  forall (fuel : nat) (st1 st2 : fit_state),
    fit_sim st1 st2 ->
    sim_comp fit_sim (fit_loop early_stop train dev fuel st1)
             (fit_loop early_stop train dev fuel st2).
Proof.
  induction fuel as [|fuel IH]; intros st1 st2 Hsim;
    rewrite !fit_loop_unfold;
    assert (Hc : fit_cond st1 = fit_cond st2)
      by (destruct Hsim as ((_ & _ & Hn & _ & _ & _ & _ & Hmax) & _ & Hst
                            & _);
          unfold fit_cond; now rewrite Hn, Hmax, Hst);
    rewrite Hc; destruct (fit_cond st2); simpl; auto.
  pose proof (fit_body_sim early_stop train dev _ _ Hsim) as Hb.
  destruct (fit_body early_stop train dev st1) as [st1'|e1],
           (fit_body early_stop train dev st2) as [st2'|e2];
    simpl in Hb; try contradiction.
  - now apply IH.
  - exact Hb.
Qed.

Lemma prepare_split_same (t1 t2 : trainer) (X : list Example) (y : list Z)
      (validation_data : option dataset) (validation_split : option float) :
  aux t1 = aux t2 ->
  sim_result (fun r1 r2 => snd r1 = snd r2 /\ aux (fst r1) = aux (fst r2))
             (prepare_split t1 X y validation_data validation_split)
             (prepare_split t2 X y validation_data validation_split).
Proof.
  intros Ha. unfold prepare_split. rewrite Ha.
  destruct (split_truthy validation_split || data_truthy validation_data);
    [|reflexivity].
  destruct validation_data as [[devX devy]|]; [simpl; auto|].
  destruct (np_permutation (aux t2) (length X)) as [perm a].
  destruct validation_split as [q|]; [|reflexivity].
  destruct (int_times q (length X)) as [k|e]; [|reflexivity].
  cbn [bind].
  destruct (gather X _); [|reflexivity].
  destruct (gather y _); [|reflexivity].
  destruct (gather X _); [|reflexivity].
  destruct (gather y _); [|reflexivity].
  simpl. auto.
Qed.

Lemma prepare_split_detached (t t1 : trainer) (X : list Example)
      (y : list Z) (validation_data : option dataset)
      (validation_split : option float) (d : dataset * dataset) :
  prepare_split t X y validation_data validation_split = Ok (t1, d) ->
  detached t1 = detached t.
Proof.
  unfold prepare_split.
  destruct (split_truthy validation_split || data_truthy validation_data);
    [|discriminate].
  destruct validation_data as [[devX devy]|].
  - intros H. now inversion H.
  - destruct (np_permutation (aux t) (length X)) as [perm a].
    destruct validation_split as [q|]; [|discriminate].
    intros H.
    apply bind_ok in H. destruct H as (k & _ & H).
    apply bind_ok in H. destruct H as (trainX & _ & H).
    apply bind_ok in H. destruct H as (trainy & _ & H).
    apply bind_ok in H. destruct H as (devX & _ & H).
    apply bind_ok in H. destruct H as (devy & _ & H).
    now inversion H.
Qed.

(** [fit] on two classifiers that differ in the location of their modules
    only runs as long, raises the same and returns the same accuracy and
    the same model. *)
Lemma fit_same_model (fuel : nat) (h1 h2 : heap) (t1 t2 : trainer)
      (X : list Example) (y : list Z)
      (validation_data : option dataset) (validation_split : option float)
      (early_stop : bool) :
  same_model h1 t1 h2 t2 ->
  (model t1 < next h1)%nat -> (model t2 < next h2)%nat ->
  sim_comp same_fit
           (fit fuel h1 t1 X y validation_data validation_split early_stop)
           (fit fuel h2 t2 X y validation_data validation_split early_stop).
Proof.
  intros (Hw & Hdt & Hn & Ha & Hbs & Hten & Hes & Hmax) Hm1 Hm2. unfold fit.
  pose proof (prepare_split_same (set_nepoch t1 0) (set_nepoch t2 0) X y
                validation_data validation_split Ha) as Hps.
  destruct (prepare_split (set_nepoch t1 0) _ _ _ _)
    as [[t1' [train1 dev1]]|e1] eqn:E1;
    destruct (prepare_split (set_nepoch t2 0) _ _ _ _)
      as [[t2' [train2 dev2]]|e2] eqn:E2;
    simpl in Hps; try contradiction; [|exact Hps].
  destruct Hps as (Hd & Ha'). inversion Hd; subst train2 dev2. clear Hd.
  destruct (prepare_split_config _ _ _ _ _ _ _ E1)
    as (M1 & N1 & B1 & T1 & S1 & X1).
  destruct (prepare_split_config _ _ _ _ _ _ _ E2)
    as (M2 & N2 & B2 & T2 & S2 & X2).
  simpl in M1, N1, B1, T1, S1, X1, M2, N2, B2, T2, S2, X2.
  pose proof (prepare_split_detached _ _ _ _ _ _ _ E1) as D1.
  pose proof (prepare_split_detached _ _ _ _ _ _ _ E2) as D2.
  simpl in D1, D2.
  assert (Hsim : fit_sim (fit_init h1 t1') (fit_init h2 t2')).
  { unfold fit_sim, same_model. simpl.
    rewrite M1, M2, N1, N2, B1, B2, T1, T2, S1, S2, X1, X2, D1, D2.
    repeat split; auto; try (simpl; lia); try discriminate. }
  pose proof (fit_loop_sim early_stop train1 dev1 fuel _ _ Hsim) as Hl.
  destruct (fit_loop early_stop train1 dev1 fuel (fit_init h1 t1'))
    as [[st1|e1]|];
    destruct (fit_loop early_stop train1 dev1 fuel (fit_init h2 t2'))
      as [[st2|e2]|];
    simpl in Hl; try contradiction; auto.
  destruct Hl as ((Hw' & Hd' & Hn' & Hax & Hbs' & Hten' & Hes' & Hmax')
                  & Hba & _ & _ & (_ & Hl1) & (_ & Hl2) & Hbm).
  unfold fit_return.
  destruct (bestmodel st1) as [l1|], (bestmodel st2) as [l2|];
    try contradiction; [|reflexivity].
  simpl. unfold same_fit, same_model. simpl.
  destruct (Hl1 l1 eq_refl) as (Hlt1 & Hne1).
  destruct (Hl2 l2 eq_refl) as (Hlt2 & Hne2).
  apply Nat.eqb_neq in Hne1, Hne2. rewrite Hne1, Hne2, Hd', Hw'.
  repeat split; auto.
Qed.

(** The accuracy of a classifier depends on its parameters and its batch
    size only. *)
Lemma score_same_model (h1 h2 : heap) (t1 t2 : trainer)
      (devX : list Example) (devy : list Z) :
  same_model h1 t1 h2 t2 ->
  sim_result (fun r1 r2 => snd r1 = snd r2)
             (score h1 t1 devX devy) (score h2 t2 devX devy).
Proof.
  intros (Hw & _ & _ & _ & Hbs & _). unfold score.
  rewrite (score_on_weights (batch_size t1) _
             (cell (model_eval h2 (model t2)) (model t2))).
  - rewrite Hbs. destruct (score_on _ _ _ _); simpl; reflexivity.
  - unfold model_eval. simpl. rewrite !Nat.eqb_refl. exact Hw.
Qed.

(** *** [fit] on validation data, then [score] *)

(** After [fit] has returned on a validation set, [score] on that set
    returns the best accuracy again and switches the installed model to
    evaluation mode. *)
Lemma fit_validation_score
      (fuel : nat) (h h' : heap) (t t' : trainer)
      (X : list Example) (y : list Z) (devX : list Example) (devy : list Z)
      (validation_split : option float) (early_stop : bool) (best : Q) :
  (model t < next h)%nat ->
  fit fuel h t X y (Some (devX, devy)) validation_split early_stop
  = Some (Ok (h', t', best)) ->
  score h' t' devX devy = Ok (model_eval h' (model t'), best) /\
  (model t' < next h')%nat.
Proof.
  intros Hwf H.
  destruct (fit_returns_inv _ _ _ _ _ _ _ _ _ _ _ H)
    as (t1 & train & dev & n & st & l & Hps & Hn & Hs & Hf & Hb & -> & ->
        & ->).
  destruct (prepare_split_config _ _ _ _ _ _ _ Hps)
    as (Hm1 & Hn1 & Hbs1 & Hten1 & Hes1 & Hmax1).
  simpl in Hm1, Hbs1, Hes1.
  assert (Hdev : dev = (devX, devy)).
  { unfold prepare_split in Hps.
    rewrite orb_true_r in Hps. now inversion Hps. }
  subst dev.
  destruct (fit_steps_run _ _ _ _ _ _ Hs) as (accs & Hlen & Hrun).
  pose proof (rs_bestmodel _ _ _ _ _ _ Hrun) as Hbm.
  pose proof (rs_batch_size _ _ _ _ _ _ Hrun) as Hbs.
  assert (Hwf0 : wf_state (fit_init h t1))
    by (apply wf_fit_init; now rewrite Hm1).
  pose proof (rs_wf _ _ _ _ _ _ Hrun Hwf0) as (_ & Hwf').
  destruct (Hwf' l Hb) as (Hlt & _).
  simpl self in Hbm, Hbs.
  destruct (best_round (bestaccuracy (fit_init h t1)) accs) as [|k].
  { simpl in Hbm. congruence. }
  destruct Hbm as (l' & sk & Hb' & _ & Hnth & Hk & Hcell).
  assert (l' = l) by congruence. subst l'.
  specialize (Hcell Hwf0).
  destruct (rounds_last_score _ _ _ _ _ _ _ _ Hk) as (a & Ha & Hsc).
  assert (Hab : a = bestaccuracy st).
  { assert (Hk' : (k < length accs)%nat)
      by (apply nth_error_Some; congruence).
    rewrite nth_error_firstn in Ha.
    destruct (Nat.ltb_spec k (S k)); [|lia]. congruence. }
  subst a. split; [|exact Hlt]. unfold score. simpl model.
  rewrite (score_on_weights _ _ (live_obj sk)).
  - simpl batch_size. rewrite Hbs. simpl fst in Hsc. simpl snd in Hsc.
    rewrite Hsc. reflexivity.
  - unfold model_eval. simpl. rewrite Nat.eqb_refl. simpl. now rewrite Hcell.
Qed.

(** With a positive batch size, a positive epoch size, a [max_epoch] that
    is not negative, a training set that can be trained on and a
    validation set that is not empty and parallel to its labels, [fit]
    returns once the fuel exceeds [max_epoch]. *)
Lemma fit_returns_with_fuel
      (fuel : nat) (h : heap) (t : trainer)
      (X : list Example) (y : list Z) (devX : list Example) (devy : list Z)
      (validation_split : option float) (early_stop : bool) :
  0 < batch_size t -> 0 < epoch_size t -> 0 <= max_epoch t ->
  trainable X y ->
  devX <> [] -> length devX = length devy ->
  (Z.to_nat (max_epoch t + 1) <= fuel)%nat ->
  exists r, fit fuel h t X y (Some (devX, devy)) validation_split early_stop
            = Some (Ok r).
Proof.
  intros Hbs Hes Hmax Htr Hne Hlen Hfuel. unfold fit, prepare_split.
  rewrite orb_true_r.
  destruct (fit_loop_terminates early_stop (X, y) (devX, devy) Htr Hne Hlen
              (Z.to_nat (max_epoch t + 1)) (fit_init h (set_nepoch t 0)))
    as (n & st & Hn & Hs & Hf); simpl; try assumption.
  { replace (max_epoch t - 0 + 1) with (max_epoch t + 1) by lia. lia. }
  rewrite (fit_steps_loop _ _ _ _ _ _ Hs Hf fuel) by lia.
  destruct n as [|n].
  { inversion Hs; subst. unfold fit_cond in Hf. simpl in Hf.
    destruct (Z.leb_spec 0 (max_epoch t)); [discriminate | lia]. }
  destruct (fit_steps_from_init _ _ _ _ _ _ _ Hs) as (_ & l & Hl & _).
  unfold fit_return. rewrite Hl. eauto.
Qed.

(** [fit] leaves the batch size as it is. *)
Lemma fit_keeps_batch_size
      (fuel : nat) (h h' : heap) (t t' : trainer)
      (X : list Example) (y : list Z)
      (validation_data : option dataset) (validation_split : option float)
      (early_stop : bool) (best : Q) :
  fit fuel h t X y validation_data validation_split early_stop
  = Some (Ok (h', t', best)) ->
  batch_size t' = batch_size t.
Proof.
  intros H.
  destruct (fit_returns_inv _ _ _ _ _ _ _ _ _ _ _ H)
    as (t1 & train & dev & n & st & l & Hps & Hn & Hs & Hf & Hb & -> & ->
        & ->).
  destruct (prepare_split_config _ _ _ _ _ _ _ Hps) as (_ & _ & Hbs1 & _).
  destruct (fit_steps_run _ _ _ _ _ _ Hs) as (accs & _ & Hrun).
  pose proof (rs_batch_size _ _ _ _ _ _ Hrun) as Hbs.
  simpl in *. congruence.
Qed.

(** *** [fit] on an empty validation set *)

(** A fraction of the rows that truncates to zero leaves an empty
    validation set. *)
Lemma prepare_split_small_fraction
      (t t1 : trainer) (X : list Example) (y : list Z) (q : float)
      (train dev : dataset) :
  int_times q (length X) = Ok 0 ->
  prepare_split t X y None (Some q) = Ok (t1, (train, dev)) ->
  fst dev = [].
Proof.
  intros Hk H. unfold prepare_split in H.
  destruct (split_truthy (Some q) || data_truthy None); [|discriminate].
  destruct (np_permutation (aux t) (length X)) as [perm a].
  rewrite Hk in H. cbn [bind] in H.
  assert (Hs : py_slice perm 0 0 = []).
  { unfold py_slice.
    replace (slice_index (length perm) 0) with O; [reflexivity|].
    unfold slice_index. change (0 <? 0) with false. cbv iota. lia. }
  rewrite Hs in H. cbn [gather] in H.
  apply bind_ok in H. destruct H as (trainX & _ & H).
  apply bind_ok in H. destruct H as (trainy & _ & H).
  cbn [bind] in H. now inversion H.
Qed.

Lemma score_on_nil_raises (bs : Z) (o : module_obj) (devy : list Z) :
  exists e, score_on bs o [] devy = Raise e.
Proof.
  destruct (Z.eq_dec bs 0) as [->|Hbs].
  - unfold score_on, py_range. simpl. eauto.
  - rewrite score_on_empty by exact Hbs. eauto.
Qed.

(** On an empty validation set [fit] does not return, whatever the
    settings: it raises in the first epoch or, when the loop is not
    entered, on the unbound [bestmodel]. *)
Lemma fit_never_returns_on_empty_dev
      (fuel : nat) (h : heap) (t t1 : trainer)
      (X : list Example) (y : list Z)
      (validation_data : option dataset) (validation_split : option float)
      (early_stop : bool) (train dev : dataset)
      (r : heap * trainer * Q) :
  prepare_split (set_nepoch t 0) X y validation_data validation_split
  = Ok (t1, (train, dev)) ->
  fst dev = [] ->
  fit fuel h t X y validation_data validation_split early_stop
  <> Some (Ok r).
Proof.
  intros Hps Hdev H. unfold fit in H. rewrite Hps, fit_loop_unfold in H.
  destruct (fit_cond (fit_init h t1)); [|discriminate].
  destruct fuel as [|fuel]; [discriminate|].
  pose proof (fit_body_cases early_stop train dev (fit_init h t1)) as Hc.
  unfold train_round in Hc.
  destruct (trainepoch_on _ _ _ _ _ _ _ _) as [oa|e]; cbn [bind] in Hc.
  - rewrite Hdev in Hc.
    destruct (score_on_nil_raises
                (batch_size (self (fit_init h t1)))
                (set_training false (fst oa)) (snd dev)) as (e & He).
    rewrite He in Hc. cbn [bind] in Hc. rewrite Hc in H. discriminate.
  - rewrite Hc in H. discriminate.
Qed.

(** *** Training after [fit] *)










End Classifier.

(** ** Properties of the model selection *)

(** The scan of [np.argmax] keeps the first position of the largest value
    seen so far. *)
Definition argmax_inv (seen : list Q) (acc : nat * Q * nat) : Prop :=
  let '(best_i, best, i) := acc in
  i = length seen /\
  nth_error seen best_i = Some best /\
  (forall j w, nth_error seen j = Some w -> (w <= best)%Q) /\
  (forall j w, (j < best_i)%nat -> nth_error seen j = Some w -> (w < best)%Q).

Lemma argmax_step_inv (seen : list Q) (acc : nat * Q * nat) (v : Q) :
  argmax_inv seen acc -> argmax_inv (seen ++ [v]) (argmax_step acc v).
Proof.
  destruct acc as [[best_i best] i]. unfold argmax_inv, argmax_step.
  intros (Hi & Hb & Hmax & Hfirst).
  assert (Hbi : (best_i < length seen)%nat)
    by (apply nth_error_Some; congruence).
  destruct (Qgt_bool v best) eqn:E.
  - apply Qgt_bool_true in E. subst i.
    split; [rewrite length_app; simpl; lia|].
    split; [now rewrite nth_error_app2, Nat.sub_diag by lia|].
    split.
    + intros j w Hj. destruct (Nat.lt_ge_cases j (length seen)) as [Hlt|Hge].
      * rewrite nth_error_app1 in Hj by exact Hlt.
        eapply Qle_trans; [eapply Hmax; eauto | now apply Qlt_le_weak].
      * rewrite nth_error_app2 in Hj by exact Hge.
        destruct (j - length seen)%nat as [|k]; simpl in Hj.
        -- inversion Hj; subst. apply Qle_refl.
        -- now destruct k.
    + intros j w Hlt Hj. rewrite nth_error_app1 in Hj by exact Hlt.
      eapply Qle_lt_trans; [eapply Hmax; eauto | exact E].
  - apply Qgt_bool_false in E. subst i.
    split; [rewrite length_app; simpl; lia|].
    split; [now rewrite nth_error_app1 by exact Hbi|].
    split.
    + intros j w Hj. destruct (Nat.lt_ge_cases j (length seen)) as [Hlt|Hge].
      * rewrite nth_error_app1 in Hj by exact Hlt. eapply Hmax; eauto.
      * rewrite nth_error_app2 in Hj by exact Hge.
        destruct (j - length seen)%nat as [|k]; simpl in Hj.
        -- inversion Hj; subst. exact E.
        -- now destruct k.
    + intros j w Hlt Hj. rewrite nth_error_app1 in Hj by lia.
      eapply Hfirst; eauto.
Qed.

Lemma argmax_scan_inv (rest : list Q) :
  forall (seen : list Q) (acc : nat * Q * nat),
    argmax_inv seen acc ->
    argmax_inv (seen ++ rest) (fold_left argmax_step rest acc).
Proof.
  induction rest as [|v rest IH]; intros seen acc H; simpl.
  - now rewrite app_nil_r.
  - replace (seen ++ v :: rest) with ((seen ++ [v]) ++ rest)
      by (now rewrite <- app_assoc).
    apply IH. now apply argmax_step_inv.
Qed.

(** [np.argmax] returns the first position of the maximum. *)
Lemma np_argmax_first_max (scores : list Q) :
  scores <> [] ->
  exists i v,
    np_argmax scores = Ok i /\
    nth_error scores i = Some v /\
    (forall j w, nth_error scores j = Some w -> (w <= v)%Q) /\
    (forall j w, (j < i)%nat -> nth_error scores j = Some w -> (w < v)%Q).
Proof.
  destruct scores as [|v0 rest]; [congruence|]. intros _.
  assert (H0 : argmax_inv [v0] (O, v0, 1%nat)).
  { unfold argmax_inv. repeat split.
    - intros [|[|j]] w Hj; simpl in Hj; inversion Hj; subst. apply Qle_refl.
    - intros j w Hj. lia. }
  pose proof (argmax_scan_inv rest _ _ H0) as H. simpl app in H.
  unfold np_argmax.
  destruct (fold_left argmax_step rest (O, v0, 1%nat)) as [[best_i best] i].
  destruct H as (_ & Hb & Hmax & Hfirst).
  exists best_i, best. simpl. auto.
Qed.

Lemma regs_nonempty (s : strategy) (usepytorch noreg : bool) :
  regs s usepytorch noreg <> [].
Proof. destruct s, usepytorch, noreg; discriminate. Qed.

(** For every score table with one score per candidate, [optreg] is
    determined by the table: it is the candidate at the first position of
    the table that holds the largest score. *)
Lemma optreg_first_max
        (s : strategy) (usepytorch noreg : bool) (scores : list Q) :
  length scores = length (regs s usepytorch noreg) ->
  exists i r v,
    optreg s usepytorch noreg scores = Ok r /\
    nth_error (regs s usepytorch noreg) i = Some r /\
    nth_error scores i = Some v /\
    (forall j w, nth_error scores j = Some w -> (w <= v)%Q) /\
    (forall j w, (j < i)%nat -> nth_error scores j = Some w -> (w < v)%Q).
Proof.
  intros Hlen.
  assert (Hne : scores <> []).
  { intros ->. pose proof (regs_nonempty s usepytorch noreg) as Hr.
    destruct (regs s usepytorch noreg); [congruence | discriminate]. }
  destruct (np_argmax_first_max scores Hne) as (i & v & Ha & Hv & Hmax & Hf).
  assert (Hi : (i < length (regs s usepytorch noreg))%nat).
  { rewrite <- Hlen. apply nth_error_Some. congruence. }
  destruct (nth_error (regs s usepytorch noreg) i) as [r|] eqn:Er.
  2:{ apply nth_error_None in Er. lia. }
  exists i, r, v. unfold optreg, list_item. rewrite Ha. simpl.
  rewrite Er. auto.
Qed.

(** ** A small classifier

    A concrete numerical kernel on which the statements above are run.  The
    weights are a single integer and every mini-batch update increases by
    one the integer that the optimizer holds; a row [x] is classified as
    [1] when [x <= w] and as [0] otherwise; permutations are the identity,
    and the rest of the training state counts how many of them were drawn,
    that is how many passes over the training set were made. *)

Definition toy_forward (w : Z) (x : Z) : Z := if x <=? w then 1 else 0.

Definition toy_argmax (l : Z) : Z := l.

Definition toy_permutation (draws : nat) (n : nat) : list nat * nat :=
  (seq 0 n, S draws).

Definition toy_train_step (w : Z) (d : option Z) (draws : nat)
           (Xbatch : list Z) (ybatch : list Z) : result (Z * nat) :=
  Ok (match d with None => w + 1 | Some w0 => w0 + 1 end, draws).

Definition toy_nonzero (p : Q) : bool := negb (Qeq_bool p 0).

Definition toy_softmax (ls : list Z) : result (list (list Q)) :=
  Ok (map (fun _ => [1 # 2; 1 # 2]%Q) ls).

(** One allocated module, at location [0], with weight [0]. *)
Definition toy_heap : @heap Z :=
  {| cell := fun _ => {| weights := 0; training := true |};
     next := 1%nat |}.

(** A trainer with batch size [1] on the module at location [0]. *)
Definition toy_trainer (tenacity epoch_size max_epoch : Z) : @trainer Z nat :=
  {| model := O; detached := None; nepoch := 0; aux := O; batch_size := 1;
     tenacity := tenacity; epoch_size := epoch_size;
     max_epoch := max_epoch |}.

Definition toy_fit :=
  fit toy_forward toy_argmax toy_permutation toy_train_step.

Definition toy_rounds :=
  rounds toy_forward toy_argmax toy_permutation toy_train_step.

Definition toy_fit_body :=
  fit_body toy_forward toy_argmax toy_permutation toy_train_step.

Definition toy_fit_steps :=
  fit_steps toy_forward toy_argmax toy_permutation toy_train_step.

(** One training row: one mini-batch per pass. *)
Definition toy_train : list Z * list Z := ([0], [1]).

(** Validation accuracies [1/3, 2/3, 2/3, 2/3, ...], epoch by epoch. *)
Definition toy_dev_rising : list Z * list Z := ([1; 2; 100], [1; 1; 1]).

(** Validation accuracies [1/3, 1/3, 2/3, 2/3, ...], epoch by epoch. *)
Definition toy_dev_stalling : list Z * list Z := ([1; 3; 100], [1; 1; 1]).

(** The state of [fit] after [n] executions of the loop body. *)
Definition toy_state (early_stop : bool) (dev : list Z * list Z)
           (t : @trainer Z nat) (n : nat) : @fit_state Z nat :=
  Nat.iter n
           (fun st => match toy_fit_body early_stop toy_train dev st with
                      | Ok st' => st'
                      | Raise _ => st
                      end)
           (fit_init toy_heap t).

Definition toy_live (w : Z) (n : nat) : @live Z nat :=
  {| live_obj := {| weights := w; training := false |};
     live_detached := None;
     live_aux := n;
     live_nepoch := Z.of_nat n |}.

(** C1, counterexample.  Tenacity [1]; the accuracy rises over [E = 2]
    epochs and does not improve afterwards.  The loop has not left after
    [E + tenacity = 3] iterations; it leaves after the fourth. *)
Lemma toy_fit_not_stopped_at_E_plus_tenacity :
  (exists s, toy_rounds 1 1 toy_train toy_dev_rising 5
               (live_of (fit_init toy_heap (toy_trainer 1 1 10)))
             = Ok (s, [1 # 3; 2 # 3; 2 # 3; 2 # 3; 2 # 3]%Q)) /\
  (forall r, ~ fit_stops_at toy_forward toy_argmax toy_permutation
               toy_train_step (2 + 1) toy_heap (toy_trainer 1 1 10)
               [0] [1] (Some toy_dev_rising) None true r) /\
  (exists h' t',
      toy_fit 4 toy_heap (toy_trainer 1 1 10) [0] [1]
              (Some toy_dev_rising) None true
      = Some (Ok (h', t', (2 # 3)%Q)) /\
      nepoch t' = 4).
Proof.
  split; [|split].
  - eexists. vm_compute. reflexivity.
  - intros r (H & _). vm_compute in H. discriminate.
  - do 2 eexists. split; [vm_compute; reflexivity | reflexivity].
Qed.

(** C1, instance of the amended statement: [E = 2], tenacity [1]. *)
Lemma toy_fit_stops_after_tenacity_plus_one :
  exists h' t',
    fit_stops_at toy_forward toy_argmax toy_permutation toy_train_step
                 (2 + 1 + 1) toy_heap (toy_trainer 1 1 10) [0] [1]
                 (Some toy_dev_rising) None true
                 (h', t', last [1 # 3; 2 # 3]%Q 0%Q) /\
    cell h' (model t') = live_obj (toy_live 2 2) /\
    model t' <> model (toy_trainer 1 1 10) /\
    nepoch t' = Z.of_nat (2 + 1 + 1) * epoch_size (toy_trainer 1 1 10).
Proof.
  apply (fit_stops_after_tenacity_plus_one
           toy_forward toy_argmax toy_permutation toy_train_step
           toy_heap (toy_trainer 1 1 10) (toy_trainer 1 1 10) [0] [1]
           (Some toy_dev_rising) None toy_train toy_dev_rising
           2 1 (toy_live 2 2) (toy_live 4 4)
           [1 # 3; 2 # 3]%Q [2 # 3; 2 # 3]%Q).
  - simpl. lia.
  - reflexivity.
  - reflexivity.
  - simpl. lia.
  - simpl. lia.
  - lia.
  - vm_compute. reflexivity.
  - repeat constructor.
  - vm_compute. reflexivity.
  - repeat constructor; unfold Qle; simpl; lia.
Defined.

(** C2, counterexample.  Tenacity [1]; the accuracies are
    [1/3, 1/3, 2/3, 2/3].  The third epoch strictly improves on the best
    accuracy, and the counter, which the second epoch had set to [1], is
    still [1] after it.  The fourth epoch then stops the training, although
    the two epochs that did not improve are not consecutive. *)
Lemma toy_counter_not_reset_on_improvement :
  let st2 := toy_state true toy_dev_stalling (toy_trainer 1 1 10) 2 in
  let st3 := toy_state true toy_dev_stalling (toy_trainer 1 1 10) 3 in
  toy_fit_body true toy_train toy_dev_stalling st2 = Ok st3 /\
  bestaccuracy st2 = (1 # 3)%Q /\
  accuracy st3 = Some (2 # 3)%Q /\
  early_stop_count st2 = 1 /\
  early_stop_count st3 = 1 /\
  early_stop_count st3 <> 0 /\
  (exists s, toy_rounds 1 1 toy_train toy_dev_stalling 4
               (live_of (fit_init toy_heap (toy_trainer 1 1 10)))
             = Ok (s, [1 # 3; 1 # 3; 2 # 3; 2 # 3]%Q)) /\
  (exists h' t',
      toy_fit 4 toy_heap (toy_trainer 1 1 10) [0] [1]
              (Some toy_dev_stalling) None true
      = Some (Ok (h', t', (2 # 3)%Q)) /\
      nepoch t' = 4).
Proof.
  cbv zeta. repeat split; try (vm_compute; reflexivity).
  - vm_compute. discriminate.
  - eexists. vm_compute. reflexivity.
  - do 2 eexists. split; [vm_compute; reflexivity | reflexivity].
Qed.

Lemma toy_steps (early_stop : bool) (dev : list Z * list Z)
      (t : @trainer Z nat) (n : nat) :
  (forall k, (k < n)%nat ->
             fit_cond (toy_state early_stop dev t k) = true /\
             exists st', toy_fit_body early_stop toy_train dev
                                      (toy_state early_stop dev t k)
                         = Ok st') ->
  forall k, (k <= n)%nat ->
    toy_fit_steps early_stop toy_train dev (n - k)
                  (toy_state early_stop dev t k)
                  (toy_state early_stop dev t n).
Proof.
  intros H k Hk. remember (n - k)%nat as m eqn:Em.
  revert k Hk Em. induction m as [|m IH]; intros k Hk Em.
  - replace k with n by lia. constructor.
  - destruct (H k ltac:(lia)) as (Hc & st' & Hb).
    econstructor; [exact Hc | exact Hb |].
    replace st' with (toy_state early_stop dev t (S k)).
    + apply IH; lia.
    + unfold toy_state. simpl Nat.iter. fold (toy_state early_stop dev t k).
      now rewrite Hb.
Qed.

(** C2, instance of the amended statement: four epochs, two of which do
    not improve. *)
Lemma toy_early_stop_count_is_cumulative :
  let st0 := fit_init toy_heap (toy_trainer 1 1 10) in
  let st4 := toy_state true toy_dev_stalling (toy_trainer 1 1 10) 4 in
  exists accs,
    length accs = 4%nat /\
    toy_rounds (batch_size (self st0)) (epoch_size (self st0))
               toy_train toy_dev_stalling 4 (live_of st0)
    = Ok (live_of st4, accs) /\
    early_stop_count st0 <= early_stop_count st4 /\
    early_stop_count st4 =
      early_stop_count st0 +
      (if true then Z.of_nat (non_improving (bestaccuracy st0) accs)
       else 0) /\
    stop_train st4 =
      stop_train st0 ||
      (true && (early_stop_count st0 <? early_stop_count st4) &&
       (tenacity (self st0) <? early_stop_count st4)).
Proof.
  cbv zeta.
  apply (early_stop_count_is_cumulative
           toy_forward toy_argmax toy_permutation toy_train_step
           true toy_train toy_dev_stalling 4
           (fit_init toy_heap (toy_trainer 1 1 10))
           (toy_state true toy_dev_stalling (toy_trainer 1 1 10) 4)).
  refine (toy_steps true toy_dev_stalling (toy_trainer 1 1 10) 4 _
                    0%nat (Nat.le_0_l 4)).
  intros k Hk.
  destruct k as [|[|[|[|k]]]]; [| | | |lia];
    (split; [vm_compute; reflexivity
            | eexists; vm_compute; reflexivity]).
Defined.

(** C3, counterexample.  Both [validation_data] and [validation_split] are
    supplied, and [prepare_split] returns. *)
Lemma toy_prepare_split_accepts_both :
  prepare_split toy_permutation (toy_trainer 5 4 200) [0; 1] [1; 0]
                (Some toy_dev_rising) (Some 0x1.999999999999ap-3%float)
  = Ok (toy_trainer 5 4 200, (([0; 1], [1; 0]), toy_dev_rising)).
Proof. reflexivity. Qed.

(** C4, instance: after two epochs of rising accuracy the snapshot is the
    object at location [2]; the third and fourth epochs train the object at
    location [0] and leave the snapshot as it is. *)
Lemma toy_snapshot_does_not_alias_live_model :
  let t := toy_trainer 1 1 10 in
  let st := toy_state true toy_dev_rising t 2 in
  2%nat <> model (self st) /\
  (exists accs k sk,
      toy_rounds (batch_size t) (epoch_size t) toy_train toy_dev_rising 2
                 (live_of (fit_init toy_heap t)) = Ok (live_of st, accs) /\
      nth_error accs k = Some (bestaccuracy st) /\
      Forall (fun a => a <= bestaccuracy st)%Q accs /\
      toy_rounds (batch_size t) (epoch_size t) toy_train toy_dev_rising
                 (S k) (live_of (fit_init toy_heap t))
      = Ok (sk, firstn (S k) accs) /\
      cell (hp st) 2%nat = live_obj sk) /\
  (forall X' y' es h1 t1',
      trainepoch toy_permutation toy_train_step (hp st) (self st) X' y' es
      = Ok (h1, t1') ->
      cell h1 2%nat = cell (hp st) 2%nat) /\
  (forall m st', toy_fit_steps true toy_train toy_dev_rising m st st' ->
                 cell (hp st') 2%nat = cell (hp st) 2%nat) /\
  (fit_cond st = false ->
   forall fuel, (2 <= fuel)%nat ->
     toy_fit fuel toy_heap t [0] [1] (Some toy_dev_rising) None true
     = Some (Ok (hp st, set_model (hp st) (self st) 2%nat, bestaccuracy st))).
Proof.
  cbv zeta.
  apply (snapshot_does_not_alias_live_model
           toy_forward toy_argmax toy_permutation toy_train_step
           toy_heap (toy_trainer 1 1 10) (toy_trainer 1 1 10) [0] [1]
           (Some toy_dev_rising) None true toy_train toy_dev_rising
           2 (toy_state true toy_dev_rising (toy_trainer 1 1 10) 2) 2%nat).
  - simpl. lia.
  - reflexivity.
  - refine (toy_steps true toy_dev_rising (toy_trainer 1 1 10) 2 _
                      0%nat (Nat.le_0_l 2)).
    intros k Hk.
    destruct k as [|[|k]]; [| |lia];
      (split; [vm_compute; reflexivity
              | eexists; vm_compute; reflexivity]).
  - vm_compute. reflexivity.
Defined.

(** C5, the failing input: [max_epoch = 2], [epoch_size = 1], no early
    stopping.  [fit] returns after three passes over the training set. *)
Lemma toy_fit_three_passes_for_max_epoch_two :
  exists h' l,
    toy_fit 3 toy_heap (toy_trainer 5 1 2) [0] [1]
            (Some toy_dev_rising) None false
    = Some (Ok (h',
                {| model := l; detached := Some 3; nepoch := 3;
                   aux := 3%nat; batch_size := 1;
                   tenacity := 5; epoch_size := 1; max_epoch := 2 |},
                (2 # 3)%Q)).
Proof. do 2 eexists. vm_compute. reflexivity. Qed.

(** C5, the defaults of [MLP]: [max_epoch = 200], [epoch_size = 4].  [fit]
    returns after 204 passes. *)
Lemma toy_fit_204_passes_for_max_epoch_200 :
  exists h' l best,
    toy_fit 51 toy_heap (toy_trainer 5 4 200) [0] [1]
            (Some toy_dev_rising) None false
    = Some (Ok (h',
                {| model := l; detached := Some 204; nepoch := 204;
                   aux := 204%nat;
                   batch_size := 1; tenacity := 5; epoch_size := 4;
                   max_epoch := 200 |},
                best)).
Proof. do 3 eexists. vm_compute. reflexivity. Qed.

(** C5, instance of [fit_runs_past_max_epoch] on the first of these. *)
Lemma toy_fit_runs_past_max_epoch :
  max_epoch (toy_trainer 5 1 2)
  < nepoch {| model := 2%nat; detached := Some 3; nepoch := 3;
                      aux := 3%nat; batch_size := 1;
              tenacity := 5; epoch_size := 1; max_epoch := 2 |} /\
  exists n, (n <= 3)%nat /\
            nepoch {| model := 2%nat; detached := Some 3; nepoch := 3;
                      aux := 3%nat;
                      batch_size := 1; tenacity := 5; epoch_size := 1;
                      max_epoch := 2 |}
            = Z.of_nat n * epoch_size (toy_trainer 5 1 2).
Proof.
  eapply (fit_runs_past_max_epoch
            toy_forward toy_argmax toy_permutation toy_train_step
            3 toy_heap _ (toy_trainer 5 1 2) _ [0] [1]
            (Some toy_dev_rising) None (2 # 3)%Q).
  vm_compute. reflexivity.
Defined.

Example toy_optreg_tie :
  optreg KFoldClassifier true false [1 # 2; 3 # 4; 3 # 4; 1 # 4]%Q
  = Ok (Qpower (10 # 1) (-4)).
Proof. reflexivity. Qed.

(** C7, the failing input: two rows, batch size [1], two classes.  The
    claim asks for the two rows of probabilities; the call raises. *)
Lemma toy_predict_proba_two_batches :
  predict_proba toy_forward toy_nonzero toy_softmax
                toy_heap (toy_trainer 5 4 200) [1; 2]
  = Raise ValueError.
Proof. reflexivity. Qed.

(** C7, instance of [predict_proba_raises_on_several_batches]. *)
Lemma toy_predict_proba_raises :
  exists e,
    predict_proba toy_forward toy_nonzero toy_softmax
                  toy_heap (toy_trainer 5 4 200) [1; 2]
    = Raise e.
Proof.
  apply (predict_proba_raises_on_several_batches
           toy_forward toy_nonzero toy_softmax
           toy_heap (toy_trainer 5 4 200) [1; 2]).
  - reflexivity.
  - reflexivity.
  - intros ls rows Hne H. destruct ls as [|l ls]; [congruence|].
    inversion H; subst. simpl. lia.
Defined.

(** C8, instance: three rows, two of which are classified as their label. *)
Lemma toy_score_is_fraction_of_predict_matches :
  exists h1 h2 acc yhat,
    score toy_forward toy_argmax toy_heap
          (set_model toy_heap (toy_trainer 5 4 200) O) [0; 2; 100] [1; 1; 0]
    = Ok (h1, acc) /\
    predict toy_forward toy_argmax toy_heap
            (set_model toy_heap (toy_trainer 5 4 200) O) [0; 2; 100]
    = Ok (h2, yhat) /\
    yhat = map (fun x => toy_argmax
                  (toy_forward
                     (weights
                        (cell toy_heap
                           (model (set_model toy_heap (toy_trainer 5 4 200)
                                             O)))) x))
               [0; 2; 100] /\
    acc = count_eq yhat [1; 1; 0]
          # Pos.of_nat (length [0; 2; 100]) /\
    (0 <= acc)%Q /\ (acc <= 1)%Q.
Proof.
  apply (score_is_fraction_of_predict_matches
           toy_forward toy_argmax toy_heap
           (set_model toy_heap (toy_trainer 5 4 200) O) [0; 2; 100] [1; 1; 0]).
  - reflexivity.
  - discriminate.
  - reflexivity.
Defined.

Example toy_score_value :
  exists h1,
    score toy_forward toy_argmax toy_heap (toy_trainer 5 4 200)
          [0; 2; 100] [1; 1; 0]
    = Ok (h1, (2 # 3)%Q).
Proof. eexists. vm_compute. reflexivity. Qed.

(** On the small classifier every training set whose labels cover its
    rows can be trained on. *)
Lemma toy_trainable (X y : list Z) :
  (length X <= length y)%nat -> trainable toy_permutation toy_train_step X y.
Proof.
  intros H. split; [exact H|]. split.
  - intros a. simpl. apply Forall_forall. intros i Hi.
    apply in_seq in Hi. lia.
  - intros w d a idx Xb yb _ _. unfold toy_train_step. eauto.
Qed.

Definition toy_train_round :=
  train_round toy_forward toy_argmax toy_permutation toy_train_step.

Definition toy_fit_loop :=
  fit_loop toy_forward toy_argmax toy_permutation toy_train_step.

(** C10, instance: the defaults of [MLP] and a validation set of three
    rows. *)
Lemma toy_fit_first_epoch_binds_snapshot :
  let t := toy_trainer 5 4 200 in
  let h := toy_heap in
  let run := fun fuel => toy_fit fuel h t [0] [1]
                                 (Some toy_dev_rising) None true in
  fit_cond (fit_init h t) = true /\
  run O = None /\
  (forall st1,
      toy_fit_body true toy_train toy_dev_rising (fit_init h t) = Ok st1 ->
      exists s' acc,
        toy_train_round (batch_size t) (epoch_size t) toy_train
                        toy_dev_rising (live_of (fit_init h t))
        = Ok (s', acc) /\
        accuracy st1 = Some acc /\ (0 <= acc)%Q /\
        Qgt_bool acc (bestaccuracy (fit_init h t)) = true /\
        bestaccuracy st1 = acc /\
        bestmodel st1 = Some (next h) /\
        next (hp st1) = S (next h) /\
        model (self st1) = model t /\
        cell (hp st1) (next h) = live_obj s' /\
        cell (hp st1) (model (self st1)) = live_obj s' /\
        (forall l, l <> model t -> (l < next h)%nat ->
                   cell (hp st1) l = cell h l)) /\
  (forall fuel st,
      toy_fit_loop true toy_train toy_dev_rising fuel (fit_init h t)
      = Some (Ok st) ->
      exists l,
        bestmodel st = Some l /\ (next h <= l)%nat /\
        (l < next (hp st))%nat /\
        (0 <= bestaccuracy st)%Q /\
        run fuel = Some (Ok (hp st, set_model (hp st) (self st) l,
                             bestaccuracy st))) /\
  (forall fuel h' t' best,
      run fuel = Some (Ok (h', t', best)) ->
      (0 <= best)%Q /\ (next h <= model t' < next h')%nat) /\
  (forall fuel e,
      run fuel = Some (Raise e) ->
      exists n st,
        toy_fit_steps true toy_train toy_dev_rising n (fit_init h t) st /\
        fit_cond st = true /\
        toy_train_round (batch_size t) (epoch_size t) toy_train
                        toy_dev_rising (live_of st)
        = Raise e) /\
  (0 < batch_size t ->
   length (fst toy_dev_rising) = length (snd toy_dev_rising) ->
   epoch_size t <= 0 \/
   trainable toy_permutation toy_train_step (fst toy_train)
             (snd toy_train) ->
   (exists st1,
       toy_fit_body true toy_train toy_dev_rising (fit_init h t)
       = Ok st1) /\
   (forall fuel e, run fuel <> Some (Raise e)) /\
   (0 < epoch_size t -> exists fuel r, run fuel = Some (Ok r))).
Proof.
  cbv zeta.
  apply (fit_first_epoch_binds_snapshot
           toy_forward toy_argmax toy_permutation toy_train_step
           toy_heap (toy_trainer 5 4 200) (toy_trainer 5 4 200) [0] [1]
           (Some toy_dev_rising) None true toy_train toy_dev_rising).
  - simpl. lia.
  - reflexivity.
  - discriminate.
Defined.

(** The first epoch of that call: four passes, accuracy [2/3], and a
    snapshot at location [1] that holds the trained weights. *)
Example toy_first_epoch_value :
  exists st1,
    toy_fit_body true toy_train toy_dev_rising
                 (fit_init toy_heap (toy_trainer 5 4 200)) = Ok st1 /\
    accuracy st1 = Some (2 # 3)%Q /\
    bestmodel st1 = Some 1%nat /\
    cell (hp st1) 1%nat = {| weights := 4; training := false |} /\
    cell (hp st1) 0%nat = {| weights := 4; training := false |}.
Proof. eexists. split; [vm_compute; reflexivity|]. repeat split. Qed.

(** A training set with fewer labels than rows: the first [trainepoch]
    raises [IndexError] and so does [fit]. *)
Example toy_fit_short_labels :
  toy_fit 5 toy_heap (toy_trainer 5 4 200) [0; 1] [1]
          (Some toy_dev_rising) None true
  = Some (Raise IndexError).
Proof. reflexivity. Qed.

(** ** The further properties on the small classifier *)

(** A hundred rows, labelled by their parity. *)
Definition toy_X100 : list Z := map Z.of_nat (seq 0 100).

Definition toy_y100 : list Z := map (fun x => x mod 2) toy_X100.

(** The float nearest to [0.29]. *)
Definition toy_fraction : float := 0x1.28f5c28f5c28fp-2%float.

(** X1, instance: a hundred rows and the fraction [0.29]: the product of
    the floats is just below [29] and the validation part has [28] rows. *)
Lemma toy_prepare_split_fraction_partitions :
  int_times toy_fraction (length toy_X100) = Ok 28 /\
  exists trainX trainy devX devy,
    prepare_split toy_permutation (toy_trainer 5 4 200) toy_X100 toy_y100
                  None (Some toy_fraction)
    = Ok (set_aux (toy_trainer 5 4 200)
                  (snd (toy_permutation (aux (toy_trainer 5 4 200))
                                        (length toy_X100))),
          ((trainX, trainy), (devX, devy))) /\
    gather (combine toy_X100 toy_y100)
           (py_slice (fst (toy_permutation (aux (toy_trainer 5 4 200))
                                           (length toy_X100))) 0 28)
    = Ok (combine devX devy) /\
    gather (combine toy_X100 toy_y100)
           (py_slice_from (fst (toy_permutation (aux (toy_trainer 5 4 200))
                                                (length toy_X100))) 28)
    = Ok (combine trainX trainy) /\
    length devX = slice_index (length toy_X100) 28 /\
    length devy = length devX /\
    length trainX = (length toy_X100 - length devX)%nat /\
    length trainy = length trainX /\
    Permutation (combine devX devy ++ combine trainX trainy)
                (combine toy_X100 toy_y100) /\
    (0 <= 28 <= Z.of_nat (length toy_X100) ->
     Z.of_nat (length devX) = 28).
Proof.
  split; [vm_compute; reflexivity|].
  exact (prepare_split_fraction_partitions
           toy_permutation (toy_trainer 5 4 200) toy_X100 toy_y100
           toy_fraction eq_refl (Permutation_refl _) eq_refl).
Defined.

(** Five rows and their labels. *)
Definition toy_X5 : list Z := [0; 1; 2; 3; 4].

Definition toy_y5 : list Z := [1; 0; 1; 0; 1].

(** The float nearest to [0.4]. *)
Example toy_prepare_split_fraction_value :
  prepare_split toy_permutation (toy_trainer 5 4 200) toy_X5 toy_y5
                None (Some 0x1.999999999999ap-2%float)
  = Ok (set_aux (toy_trainer 5 4 200) 1%nat,
        (([2; 3; 4], [1; 0; 1]), ([0; 1], [1; 0]))).
Proof. vm_compute. reflexivity. Qed.

(** X2, instance: three rows and the fraction [0.05], which leaves no
    validation row. *)
Lemma toy_fit_empty_validation_set :
  toy_fit 3 toy_heap (toy_trainer 5 4 200) [0; 1; 2] [1; 1; 0]
          None (Some 0x1.999999999999ap-5%float) true
  = match trainepoch toy_permutation toy_train_step toy_heap
                     (set_aux (toy_trainer 5 4 200) 1%nat)
                     (fst ([0; 1; 2], [1; 1; 0])) (snd ([0; 1; 2], [1; 1; 0]))
                     (epoch_size (toy_trainer 5 4 200)) with
    | Raise e => Some (Raise e)
    | Ok _ => Some (Raise (if batch_size (toy_trainer 5 4 200) =? 0
                           then ValueError else ZeroDivisionError))
    end.
Proof.
  refine (fit_empty_validation_set
            toy_forward toy_argmax toy_permutation toy_train_step
            toy_heap (toy_trainer 5 4 200)
            (set_aux (toy_trainer 5 4 200) 1%nat)
            [0; 1; 2] [1; 1; 0] None (Some 0x1.999999999999ap-5%float) true
            ([0; 1; 2], [1; 1; 0]) ([], []) _ _ _ 2%nat).
  - simpl. lia.
  - vm_compute. reflexivity.
  - reflexivity.
Defined.

Example toy_fit_empty_validation_set_value :
  toy_fit 3 toy_heap (toy_trainer 5 4 200) [0; 1; 2] [1; 1; 0]
          None (Some 0x1.999999999999ap-5%float) true
  = Some (Raise ZeroDivisionError) /\
  toy_fit 3 toy_heap (toy_trainer 5 4 200) [0; 1; 2] [1; 1]
          (Some ([], [])) None true
  = Some (Raise IndexError).
Proof. split; vm_compute; reflexivity. Qed.

(** X3, instance: [max_epoch = -1]. *)
Lemma toy_fit_negative_max_epoch :
  toy_fit 10 toy_heap (toy_trainer 5 4 (-1)) [0] [1]
          (Some toy_dev_rising) None true
  = Some (Raise UnboundLocalError).
Proof.
  refine (fit_negative_max_epoch
            toy_forward toy_argmax toy_permutation toy_train_step
            toy_heap (toy_trainer 5 4 (-1)) (toy_trainer 5 4 (-1)) [0] [1]
            (Some toy_dev_rising) None true (toy_train, toy_dev_rising)
            _ _ 10%nat).
  - simpl. lia.
  - reflexivity.
Defined.

(** What a call of [fit] on the small classifier returns, when it does. *)
Definition toy_fit_out (fuel : nat) (t : @trainer Z nat)
           (dev : list Z * list Z) (early_stop : bool)
  : @heap Z * @trainer Z nat * Q :=
  match toy_fit fuel toy_heap t [0] [1] (Some dev) None early_stop with
  | Some (Ok r) => r
  | _ => (toy_heap, t, 0%Q)
  end.

(** X4, instance: accuracies [1/3, 1/3, 2/3, 2/3]; the snapshot is the
    model after the third epoch, which the fourth only equals. *)
Lemma toy_fit_returns_first_best_epoch :
  let r := toy_fit_out 4 (toy_trainer 1 1 10) toy_dev_stalling true in
  let t := toy_trainer 1 1 10 in
  exists t1 train dev n s accs k sk,
    prepare_split toy_permutation (set_nepoch t 0) [0] [1]
                  (Some toy_dev_stalling) None
    = Ok (t1, (train, dev)) /\
    (n <= 4)%nat /\
    toy_rounds (batch_size t) (epoch_size t) train dev n
               (live_of (fit_init toy_heap t1)) = Ok (s, accs) /\
    nth_error accs k = Some (snd r) /\
    (forall j a, nth_error accs j = Some a -> (a <= snd r)%Q) /\
    (forall j a, (j < k)%nat -> nth_error accs j = Some a ->
                 (a < snd r)%Q) /\
    toy_rounds (batch_size t) (epoch_size t) train dev (S k)
               (live_of (fit_init toy_heap t1))
    = Ok (sk, firstn (S k) accs) /\
    cell (fst (fst r)) (model (snd (fst r))) = live_obj sk.
Proof.
  cbv zeta.
  apply (fit_returns_first_best_epoch
           toy_forward toy_argmax toy_permutation toy_train_step
           4 toy_heap _ (toy_trainer 1 1 10) _ [0] [1]
           (Some toy_dev_stalling) None true).
  - simpl. lia.
  - vm_compute. reflexivity.
Defined.

Example toy_fit_first_best_epoch_value :
  let r := toy_fit_out 4 (toy_trainer 1 1 10) toy_dev_stalling true in
  snd r = (2 # 3)%Q /\
  cell (fst (fst r)) (model (snd (fst r)))
  = {| weights := 3; training := false |}.
Proof. split; vm_compute; reflexivity. Qed.

(** X5, instance: the same call, then [score] on the validation set. *)
Lemma toy_score_after_fit_is_best_accuracy :
  let r := toy_fit_out 4 (toy_trainer 1 1 10) toy_dev_stalling true in
  exists h'',
    score toy_forward toy_argmax (fst (fst r)) (snd (fst r))
          (fst toy_dev_stalling) (snd toy_dev_stalling)
    = Ok (h'', snd r).
Proof.
  cbv zeta.
  apply (score_after_fit_is_best_accuracy
           toy_forward toy_argmax toy_permutation toy_train_step
           4 toy_heap _ (toy_trainer 1 1 10) (toy_trainer 1 1 10) _
           [0] [1] (Some toy_dev_stalling) None true
           toy_train toy_dev_stalling).
  - simpl. lia.
  - reflexivity.
  - vm_compute. reflexivity.
Defined.

(** X6, instance: the defaults of [MLP], no early stopping: 204 passes. *)
Lemma toy_fit_epoch_count :
  let t := toy_trainer 5 4 200 in
  let t' := snd (fst (toy_fit_out 51 t toy_dev_rising false)) in
  (exists n, (1 <= n <= 51)%nat /\
             nepoch t' = Z.of_nat n * epoch_size t) /\
  epoch_size t <= nepoch t' <= max_epoch t + epoch_size t /\
  (false = false ->
   nepoch t' = (max_epoch t / epoch_size t + 1) * epoch_size t).
Proof.
  cbv zeta.
  apply (fit_epoch_count
           toy_forward toy_argmax toy_permutation toy_train_step
           51 toy_heap
           (fst (fst (toy_fit_out 51 (toy_trainer 5 4 200)
                                  toy_dev_rising false)))
           (toy_trainer 5 4 200) _ [0] [1]
           (Some toy_dev_rising) None false
           (snd (toy_fit_out 51 (toy_trainer 5 4 200)
                             toy_dev_rising false))).
  - simpl. lia.
  - vm_compute. reflexivity.
Defined.

(** X7, instance: tenacity [1] and accuracies [1/3, 1/3, 2/3, 2/3]. *)
Lemma toy_fit_non_improving_epochs_bounded :
  let t := toy_trainer 1 1 10 in
  let st := toy_state true toy_dev_stalling t 4 in
  exists accs,
    toy_rounds (batch_size t) (epoch_size t) toy_train toy_dev_stalling 4
               (live_of (fit_init toy_heap t)) = Ok (live_of st, accs) /\
    early_stop_count st = Z.of_nat (non_improving (-1 # 1)%Q accs) /\
    Z.of_nat (non_improving (-1 # 1)%Q accs) <= Z.max (tenacity t) 0 + 1.
Proof.
  cbv zeta.
  apply (fit_non_improving_epochs_bounded
           toy_forward toy_argmax toy_permutation toy_train_step
           toy_heap (toy_trainer 1 1 10) toy_train toy_dev_stalling 4
           (toy_state true toy_dev_stalling (toy_trainer 1 1 10) 4)).
  refine (toy_steps true toy_dev_stalling (toy_trainer 1 1 10) 4 _
                    0%nat (Nat.le_0_l 4)).
  intros k Hk.
  destruct k as [|[|[|[|k]]]]; [| | | |lia];
    (split; [vm_compute; reflexivity
            | eexists; vm_compute; reflexivity]).
Defined.

(** X8, instance: [epoch_size = 0] and a zero batch size. *)
Lemma toy_trainepoch_without_pass :
  let t := {| model := O; detached := None; nepoch := 7; aux := O;
              batch_size := 0;
              tenacity := 5; epoch_size := 0; max_epoch := 200 |} in
  exists h' t',
    trainepoch toy_permutation toy_train_step toy_heap t [0] [1] (-3)
    = Ok (h', t') /\
    nepoch t' = nepoch t + (-3) /\
    aux t' = aux t /\ model t' = model t /\
    next h' = next toy_heap /\
    (forall l, weights (cell h' l) = weights (cell toy_heap l)) /\
    training (cell h' (model t)) = true.
Proof.
  cbv zeta.
  apply (trainepoch_without_pass toy_permutation toy_train_step toy_heap
           {| model := O; detached := None; nepoch := 7; aux := O;
              batch_size := 0;
              tenacity := 5; epoch_size := 0; max_epoch := 200 |}
           [0] [1] (-3)).
  lia.
Defined.

(** X9, instance: [epoch_size = 0]. *)
Lemma toy_fit_never_returns_without_epochs :
  toy_fit 1000 toy_heap (toy_trainer 5 0 10) [0] [1]
          (Some toy_dev_rising) None false
  = None.
Proof.
  refine (fit_never_returns_without_epochs
            toy_forward toy_argmax toy_permutation toy_train_step
            toy_heap (toy_trainer 5 0 10) (toy_trainer 5 0 10) [0] [1]
            (Some toy_dev_rising) None toy_train toy_dev_rising
            _ _ _ _ _ _ 1000%nat).
  - simpl. lia.
  - simpl. lia.
  - simpl. lia.
  - reflexivity.
  - discriminate.
  - reflexivity.
Defined.

(** X10, instance: five rows in batches of two: [[0; 1]], [[2; 3]],
    [[4]]. *)
Lemma toy_train_pass_batches_partition_permutation :
  let s := {| ps_weights := 0; ps_detached := None; ps_aux := O |} in
  exists batches,
    train_pass toy_permutation toy_train_step 2 toy_X5 toy_y5 s
    = foldM (train_batch toy_train_step toy_X5 toy_y5) batches
            {| ps_weights := ps_weights s; ps_detached := ps_detached s;
               ps_aux := snd (toy_permutation (ps_aux s) (length toy_X5)) |}
    /\
    concat batches = fst (toy_permutation (ps_aux s) (length toy_X5)) /\
    Forall (fun b => (1 <= length b <= Z.to_nat 2)%nat) batches /\
    (forall k b, nth_error batches k = Some b ->
                 (S k < length batches)%nat ->
                 length b = Z.to_nat 2).
Proof.
  cbv zeta.
  apply (train_pass_batches_partition_permutation
           toy_permutation toy_train_step 2 toy_X5 toy_y5
           {| ps_weights := 0; ps_detached := None; ps_aux := O |}).
  - reflexivity.
  - reflexivity.
Defined.

Example toy_train_pass_value :
  train_pass toy_permutation toy_train_step 2 toy_X5 toy_y5
             {| ps_weights := 0; ps_detached := None; ps_aux := O |}
  = Ok {| ps_weights := 3; ps_detached := None; ps_aux := 1%nat |}.
Proof. reflexivity. Qed.

(** X12, instance: scoring the untrained small classifier. *)
Lemma toy_score_changes_only_the_mode :
  let h1 := model_eval toy_heap O in
  next h1 = next toy_heap /\
  (forall l, weights (cell h1 l) = weights (cell toy_heap l)) /\
  (forall l, l <> model (toy_trainer 5 4 200) ->
             cell h1 l = cell toy_heap l) /\
  training (cell h1 (model (toy_trainer 5 4 200))) = false /\
  exists h2,
    score toy_forward toy_argmax h1 (toy_trainer 5 4 200)
          [0; 2; 100] [1; 1; 0]
    = Ok (h2, (2 # 3)%Q).
Proof.
  cbv zeta.
  apply (score_changes_only_the_mode
           toy_forward toy_argmax toy_heap (model_eval toy_heap O)
           (toy_trainer 5 4 200) [0; 2; 100] [1; 1; 0] (2 # 3)%Q).
  vm_compute. reflexivity.
Defined.

(** X13, instance: two rows and the default batch size [64]. *)
Lemma toy_predict_proba_single_batch :
  let t := {| model := O; detached := None; nepoch := 0; aux := O;
              batch_size := 64;
              tenacity := 5; epoch_size := 4; max_epoch := 200 |} in
  predict_proba toy_forward toy_nonzero toy_softmax toy_heap t [1; 2]
  = (rows <- toy_softmax
               (map (toy_forward (weights (cell toy_heap (model t))))
                    [1; 2]) ;;
     Ok (model_eval toy_heap (model t), NdArray rows)).
Proof.
  cbv zeta.
  apply (predict_proba_single_batch
           toy_forward toy_nonzero toy_softmax toy_heap
           {| model := O; detached := None; nepoch := 0; aux := O;
              batch_size := 64;
              tenacity := 5; epoch_size := 4; max_epoch := 200 |}
           [1; 2]).
  - discriminate.
  - simpl. lia.
Defined.


(** After that call the trained module, at location [0], has the weight
    [4] and the installed snapshot the weight [3]; two more passes of
    [trainepoch] move the weight that the optimizer holds to [6] and leave
    the installed model at [3]. *)
Example toy_trainepoch_after_fit_value :
  let r := toy_fit_out 4 (toy_trainer 1 1 10) toy_dev_stalling true in
  model (snd (fst r)) = 2%nat /\
  detached (snd (fst r)) = Some 4 /\
  exists h'' t'',
    trainepoch toy_permutation toy_train_step (fst (fst r)) (snd (fst r))
               [0] [1] 2
    = Ok (h'', t'') /\
    cell h'' 2%nat = {| weights := 3; training := true |} /\
    detached t'' = Some 6 /\ nepoch t'' = 6.
Proof.
  cbv zeta. split; [reflexivity|]. split; [vm_compute; reflexivity|].
  do 2 eexists. split; [vm_compute; reflexivity|]. repeat split.
Qed.

(** ** [MLP] and the strategies of [validation.py]

    The configuration dictionaries are records of optional entries: an
    entry is [None] when the key is absent.  [str] is the decimal notation
    of an integer, as [%s] prints it. *)

Import String.StringSyntax.
Delimit Scope string_scope with string.

Definition str (z : Z) : String.string :=
  DecimalString.NilZero.string_of_int (Z.to_int z).

(** [default if key not in d else d[key]] *)
Definition get_default {A : Type} (entry : option A) (default : A) : A :=
  match entry with
  | Some v => v
  | None => default
  end.

(** The dictionary [params] of [MLP], which is [config['classifier']]. *)
Record classifier_config : Type := Classifier_config {
  cc_nhid : option Z;
  cc_optim : option String.string;
  cc_tenacity : option Z;
  cc_epoch_size : option Z;
  cc_max_epoch : option Z;
  cc_dropout : option Q;
  cc_batch_size : option Z
}.

(** The dictionary [config] of the three strategies. *)
Record config : Type := Config {
  c_nclasses : option Z;
  c_seed : option Z;
  c_max_iter : option Z;
  c_usepytorch : option bool;
  c_classifier : option classifier_config;
  c_kfold : option Z;
  c_device : option String.string;
  c_noreg : option bool
}.

(** The result of a constructor: the object, or the [KeyError] of the first
    missing key. *)
Inductive init_result (A : Type) : Type :=
| Init_ok (a : A)
| KeyError (key : String.string).

Arguments Init_ok {A} a.
Arguments KeyError {A} key.

Definition init_bind {A B : Type} (c : init_result A)
           (k : A -> init_result B) : init_result B :=
  match c with
  | Init_ok a => k a
  | KeyError key => KeyError key
  end.

(** [d[key]] *)
Definition dict_item {A : Type} (key : String.string) (entry : option A)
  : init_result A :=
  match entry with
  | Some v => Init_ok v
  | None => KeyError key
  end.

Definition get_classif_name (classifier_config : classifier_config)
           (usepytorch : bool) : init_result String.string :=
  if negb usepytorch then Init_ok "sklearn-LogReg"%string
  else
    init_bind (dict_item "nhid"%string (cc_nhid classifier_config))
      (fun nhid =>
         let optim := get_default (cc_optim classifier_config)
                                  "adam"%string in
         let bs := get_default (cc_batch_size classifier_config) 64 in
         Init_ok (String.append "pytorch-MLP-nhid"%string
                 (String.append (str nhid)
                 (String.append "-"%string
                 (String.append optim
                 (String.append "-bs"%string (str bs))))))).

(** The layers of an [nn.Sequential]. *)
Inductive layer : Type :=
| Linear (in_features out_features : Z)
| Dropout (p : Q)
| Sigmoid.

(** A chain of layers takes rows of [d_in] features to rows of [d_out]. *)
Fixpoint well_shaped (d_in : Z) (layers : list layer) (d_out : Z) : Prop :=
  match layers with
  | [] => d_in = d_out
  | Linear a b :: rest => a = d_in /\ well_shaped b rest d_out
  | Dropout _ :: rest => well_shaped d_in rest d_out
  | Sigmoid :: rest => well_shaped d_in rest d_out
  end.

(** [np.max(scores)]; an empty sequence raises. *)
Definition np_max (scores : list Q) : result Q :=
  match scores with
  | [] => Raise ValueError
  | v0 :: rest =>
      Ok (fold_left (fun m v => if Qgt_bool v m then v else m) rest v0)
  end.

(** A computation that may raise or, with [None], still be running when
    the fuel of a training loop is spent. *)
Definition comp (A : Type) : Type := option (result A).

Definition comp_bind {A B : Type} (c : comp A) (k : A -> comp B) : comp B :=
  match c with
  | Some (Ok a) => k a
  | Some (Raise e) => Some (Raise e)
  | None => None
  end.

Notation "x <-- c ;; k" := (comp_bind c (fun x => k))
  (at level 61, c at next level, right associativity).

(** The dictionaries [X] and [y] of [SplitClassifier]. *)
Record splits (A : Type) : Type := Splits {
  sp_train : A;
  sp_valid : A;
  sp_test : A
}.

Arguments Splits {A} sp_train sp_valid sp_test.
Arguments sp_train {A} s.
Arguments sp_valid {A} s.
Arguments sp_test {A} s.

(** The float [0.05] of [validation_split=0.05]. *)
Definition validation_split_eval : float := 0x1.999999999999ap-5%float.

Section Strategies.

Context {Example Weights Logits Aux Logreg : Type}.

(** The numerical kernel of the classifier, as above. *)
Variable forward : Weights -> Example -> Logits.
Variable row_argmax : Logits -> Z.
Variable np_permutation : Aux -> nat -> list nat * Aux.
Variable train_step :
  Weights -> option Weights -> Aux -> list Example -> list Z ->
  result (Weights * Aux).

(** What the library calls of [MLP.__init__] produce, from the seed, the
    device, the layers, the optimizer string and [l2reg]: the parameters of
    the layers as [nn.Sequential] draws them after [np.random.seed(seed)]
    and [torch.manual_seed(seed)], and the rest of the training state, that
    is the random streams and the optimizer that
    [utils.get_optimizer(optim)] builds, with weight decay [l2reg]; or the
    exception of the first call that rejects its argument.  The resolver of
    the optimizer string is not part of the sources at hand. *)
Variable torch_init :
  Z -> String.string -> list layer -> String.string -> Q ->
  result (Weights * Aux).
(** [X.shape[1]] of a two-dimensional array. *)
Variable shape1 : list Example -> Z.
(** [round(100 * x, 2)] on a float. *)
Variable round_percent : Q -> Q.
(** [round(x, 2)] on a float. *)
Variable py_round2 : Q -> Q.
(** [np.mean(l)] on a list of floats. *)
Variable np_mean : list Q -> Q.
(** [LogisticRegression(C=C, random_state=seed)] of sklearn followed by
    [fit(X, y)], and the [score] and [predict] of the fitted object; each
    of them may reject its arguments. *)
Variable logreg_fit : Q -> Z -> list Example -> list Z -> result Logreg.
Variable logreg_score : Logreg -> list Example -> list Z -> result Q.
Variable logreg_predict : Logreg -> list Example -> result (list Z).
(** [StratifiedKFold(n_splits, shuffle=True, random_state).split(X, y)] of
    sklearn: the pairs [(train_idx, test_idx)] in the order of the
    iteration, or what the library raises before the first of them. *)
Variable skf_split :
  Z -> Z -> list Example -> list Z -> result (list (list nat * list nat)).

(** A step that cannot be left running. *)
Definition lift {A : Type} (r : result A) : comp A := Some r.

(** *** [MLP.__init__] *)

(** The attributes of an [MLP] besides those that the methods of
    [PyTorchClassifier] use, which are in [mlp_self]. *)
Record mlp : Type := Mlp {
  mlp_inputdim : Z;
  mlp_nclasses : Z;
  mlp_l2reg : Q;
  mlp_device : String.string;
  mlp_nhid : Z;
  mlp_optim : String.string;
  mlp_dropout : Q;
  mlp_layers : list layer;
  mlp_self : @trainer Weights Aux
}.

(** The layers of [self.model]. *)
Definition mlp_sequential (inputdim nclasses nhid : Z) (dropout : Q)
  : list layer :=
  if nhid =? 0 then [Linear inputdim nclasses]
  else [Linear inputdim nhid; Dropout dropout; Sigmoid;
        Linear nhid nclasses].

(** [MLP(params, inputdim, nclasses, l2reg, batch_size, seed, device)]: the
    new module is allocated in training mode.  Reading [params] raises
    nothing, so that the library calls are taken together.
    [self.nepoch] is not bound before [fit], which starts by binding it to
    [0]; it is [0] here. *)
Definition MLP_init (h : @heap Weights) (params : classifier_config)
           (inputdim nclasses : Z) (l2reg : Q) (batch_size seed : Z)
           (device : String.string) : result (@heap Weights * mlp) :=
  let nhid := get_default (cc_nhid params) 0 in
  let optim := get_default (cc_optim params) "adam"%string in
  let tenacity := get_default (cc_tenacity params) 5 in
  let epoch_size := get_default (cc_epoch_size params) 4 in
  let max_epoch := get_default (cc_max_epoch params) 200 in
  let dropout := get_default (cc_dropout params) 0%Q in
  let batch_size := get_default (cc_batch_size params) 64 in
  let layers := mlp_sequential inputdim nclasses nhid dropout in
  wa <- torch_init seed device layers optim l2reg ;;
  let o := {| weights := fst wa; training := true |} in
  Ok ({| cell := fun l => if Nat.eqb l (next h) then o else cell h l;
         next := S (next h) |},
      {| mlp_inputdim := inputdim; mlp_nclasses := nclasses;
         mlp_l2reg := l2reg; mlp_device := device;
         mlp_nhid := nhid; mlp_optim := optim; mlp_dropout := dropout;
         mlp_layers := layers;
         mlp_self :=
           {| model := next h; detached := None; nepoch := 0;
              aux := snd wa;
              batch_size := batch_size; tenacity := tenacity;
              epoch_size := epoch_size; max_epoch := max_epoch |} |}).

(** *** The constructors of the strategies *)

Record inner_kfold_classifier : Type := Inner_kfold_classifier {
  ic_X : list Example;
  ic_y : list Z;
  ic_featdim : Z;
  ic_nclasses : Z;
  ic_seed : Z;
  ic_max_iter : Z;
  ic_devresults : list Q;
  ic_testresults : list Q;
  ic_usepytorch : bool;
  ic_classifier_config : classifier_config;
  ic_modelname : String.string;
  ic_k : Z
}.

Definition InnerKFoldClassifier_init (X : list Example) (y : list Z)
           (config : config) : init_result inner_kfold_classifier :=
  let featdim := shape1 X in
  init_bind (dict_item "nclasses"%string (c_nclasses config)) (fun nclasses =>
  init_bind (dict_item "seed"%string (c_seed config)) (fun seed =>
  init_bind (dict_item "max_iter"%string (c_max_iter config)) (fun max_iter =>
  init_bind (dict_item "usepytorch"%string (c_usepytorch config))
            (fun usepytorch =>
  init_bind (dict_item "classifier"%string (c_classifier config))
            (fun classifier_config =>
  init_bind (get_classif_name classifier_config usepytorch) (fun modelname =>
  Init_ok {| ic_X := X; ic_y := y; ic_featdim := featdim;
             ic_nclasses := nclasses; ic_seed := seed;
             ic_max_iter := max_iter;
             ic_devresults := []; ic_testresults := [];
             ic_usepytorch := usepytorch;
             ic_classifier_config := classifier_config;
             ic_modelname := modelname;
             ic_k := get_default (c_kfold config) 5 |})))))).

Record kfold_classifier : Type := Kfold_classifier {
  kc_train : list Example * list Z;
  kc_test : list Example * list Z;
  kc_featdim : Z;
  kc_nclasses : Z;
  kc_seed : Z;
  kc_usepytorch : bool;
  kc_classifier_config : classifier_config;
  kc_modelname : String.string;
  kc_k : Z
}.

Definition KFoldClassifier_init (train test : list Example * list Z)
           (config : config) : init_result kfold_classifier :=
  let featdim := shape1 (fst train) in
  init_bind (dict_item "nclasses"%string (c_nclasses config)) (fun nclasses =>
  init_bind (dict_item "seed"%string (c_seed config)) (fun seed =>
  init_bind (dict_item "usepytorch"%string (c_usepytorch config))
            (fun usepytorch =>
  init_bind (dict_item "classifier"%string (c_classifier config))
            (fun classifier_config =>
  init_bind (get_classif_name classifier_config usepytorch) (fun modelname =>
  Init_ok {| kc_train := train; kc_test := test; kc_featdim := featdim;
             kc_nclasses := nclasses; kc_seed := seed;
             kc_usepytorch := usepytorch;
             kc_classifier_config := classifier_config;
             kc_modelname := modelname;
             kc_k := get_default (c_kfold config) 5 |}))))).

Record split_classifier : Type := Split_classifier {
  sc_X : splits (list Example);
  sc_y : splits (list Z);
  sc_nclasses : Z;
  sc_featdim : Z;
  sc_seed : Z;
  sc_usepytorch : bool;
  sc_classifier_config : classifier_config;
  sc_device : String.string;
  sc_modelname : String.string;
  sc_noreg : bool;
  sc_config : config
}.

Definition SplitClassifier_init (X : splits (list Example))
           (y : splits (list Z)) (config : config)
  : init_result split_classifier :=
  init_bind (dict_item "nclasses"%string (c_nclasses config)) (fun nclasses =>
  let featdim := shape1 (sp_train X) in
  init_bind (dict_item "seed"%string (c_seed config)) (fun seed =>
  init_bind (dict_item "usepytorch"%string (c_usepytorch config))
            (fun usepytorch =>
  init_bind (dict_item "classifier"%string (c_classifier config))
            (fun classifier_config =>
  let device := get_default (c_device config) "cpu"%string in
  init_bind (get_classif_name classifier_config usepytorch) (fun modelname =>
  Init_ok {| sc_X := X; sc_y := y; sc_nclasses := nclasses;
             sc_featdim := featdim; sc_seed := seed;
             sc_usepytorch := usepytorch;
             sc_classifier_config := classifier_config;
             sc_device := device; sc_modelname := modelname;
             sc_noreg := get_default (c_noreg config) false;
             sc_config := config |}))))).

(** *** [SplitClassifier.run] *)

(** A classifier trained with [reg] on the training split, the validation
    split being the validation data of [fit]: the statements that the loop
    over the candidates and the evaluation have in common.  The conversions
    [torch.from_numpy(...).float()] and [.long()] leave rows and labels as
    they are. *)
Definition split_train (fuel : nat) (self : split_classifier)
           (h : @heap Weights) (reg : Q)
  : comp (@heap Weights * @trainer Weights Aux) :=
  hc <-- lift (MLP_init h (sc_classifier_config self) (sc_featdim self)
                        (sc_nclasses self) reg 64 (sc_seed self)
                        (sc_device self)) ;;
  r <-- fit forward row_argmax np_permutation train_step fuel
            (fst hc) (mlp_self (snd hc))
            (sp_train (sc_X self)) (sp_train (sc_y self))
            (Some (sp_valid (sc_X self), sp_valid (sc_y self))) None true ;;
  lift (Ok (fst r)).

(** The body of [for reg in regs]: the rounded validation accuracy of a
    new classifier trained with the candidate. *)
Definition split_candidate (fuel : nat) (self : split_classifier)
           (h : @heap Weights) (reg : Q) : comp (@heap Weights * Q) :=
  if sc_usepytorch self then
    ht <-- split_train fuel self h reg ;;
    ha <-- lift (score forward row_argmax (fst ht) (snd ht)
                       (sp_valid (sc_X self)) (sp_valid (sc_y self))) ;;
    lift (Ok (fst ha, round_percent (snd ha)))
  else
    clf <-- lift (logreg_fit reg (sc_seed self)
                             (sp_train (sc_X self)) (sp_train (sc_y self))) ;;
    a <-- lift (logreg_score clf (sp_valid (sc_X self))
                             (sp_valid (sc_y self))) ;;
    lift (Ok (h, round_percent a)).

(** The loop [for reg in regs], from the scores collected so far. *)
Fixpoint split_scores (fuel : nat) (self : split_classifier)
         (regs : list Q) (h : @heap Weights) (scores : list Q)
  : comp (@heap Weights * list Q) :=
  match regs with
  | [] => lift (Ok (h, scores))
  | reg :: regs' =>
      hs <-- split_candidate fuel self h reg ;;
      split_scores fuel self regs' (fst hs) (scores ++ [snd hs])
  end.

(** The evaluation: the rounded test accuracy of a new classifier trained
    with [optreg]. *)
Definition split_evaluate (fuel : nat) (self : split_classifier)
           (h : @heap Weights) (reg : Q) : comp (@heap Weights * Q) :=
  if sc_usepytorch self then
    ht <-- split_train fuel self h reg ;;
    ha <-- lift (score forward row_argmax (fst ht) (snd ht)
                       (sp_test (sc_X self)) (sp_test (sc_y self))) ;;
    lift (Ok (fst ha, round_percent (snd ha)))
  else
    clf <-- lift (logreg_fit reg (sc_seed self)
                             (sp_train (sc_X self)) (sp_train (sc_y self))) ;;
    a <-- lift (logreg_score clf (sp_test (sc_X self))
                             (sp_test (sc_y self))) ;;
    lift (Ok (h, round_percent a)).

(** [run]: the pair [(devaccuracy, testaccuracy)]. *)
Definition SplitClassifier_run (fuel : nat) (self : split_classifier)
           (h : @heap Weights) : comp (@heap Weights * (Q * Q)) :=
  hs <-- split_scores fuel self
           (regs SplitClassifier (sc_usepytorch self) (sc_noreg self))
           h [] ;;
  reg <-- lift (optreg SplitClassifier (sc_usepytorch self) (sc_noreg self)
                       (snd hs)) ;;
  devaccuracy <-- lift (np_max (snd hs)) ;;
  ha <-- split_evaluate fuel self (fst hs) reg ;;
  lift (Ok (fst ha, (devaccuracy, snd ha))).

(** *** [KFoldClassifier.run] *)

(** The variables that the two nested loops of [run] leave behind: the
    heap, the scores of the folds of the current candidate, and the local
    [X_test], which is unbound until a fold has been split. *)
Record kfold_locals : Type := Kfold_locals {
  kl_heap : @heap Weights;
  kl_scanscores : list Q;
  kl_X_test : option (list Example)
}.

(** The body of the loop over the folds. *)
Definition kfold_fold (fuel : nat) (self : kfold_classifier) (reg : Q)
           (st : kfold_locals) (fold : list nat * list nat)
  : comp kfold_locals :=
  let train_idx := fst fold in
  let test_idx := snd fold in
  X_train <-- lift (gather (fst (kc_train self)) train_idx) ;;
  y_train <-- lift (gather (snd (kc_train self)) train_idx) ;;
  X_test <-- lift (gather (fst (kc_train self)) test_idx) ;;
  y_test <-- lift (gather (snd (kc_train self)) test_idx) ;;
  if kc_usepytorch self then
    hc <-- lift (MLP_init (kl_heap st) (kc_classifier_config self)
                          (kc_featdim self) (kc_nclasses self) reg 64
                          (kc_seed self) "cpu"%string) ;;
    r <-- fit forward row_argmax np_permutation train_step fuel
              (fst hc) (mlp_self (snd hc)) X_train y_train
              (Some (X_test, y_test)) None true ;;
    ha <-- lift (score forward row_argmax (fst (fst r)) (snd (fst r))
                       X_test y_test) ;;
    lift (Ok {| kl_heap := fst ha;
                kl_scanscores := kl_scanscores st ++ [snd ha];
                kl_X_test := Some X_test |})
  else
    clf <-- lift (logreg_fit reg (kc_seed self) X_train y_train) ;;
    a <-- lift (logreg_score clf X_test y_test) ;;
    lift (Ok {| kl_heap := kl_heap st;
                kl_scanscores := kl_scanscores st ++ [a];
                kl_X_test := Some X_test |}).

(** The loop over the folds. *)
Fixpoint kfold_folds (fuel : nat) (self : kfold_classifier) (reg : Q)
         (folds : list (list nat * list nat)) (st : kfold_locals)
  : comp kfold_locals :=
  match folds with
  | [] => lift (Ok st)
  | fold :: folds' =>
      st' <-- kfold_fold fuel self reg st fold ;;
      kfold_folds fuel self reg folds' st'
  end.

(** The body of [for reg in regs]: the folds are split anew, the scores
    of the folds start from the empty list, and their rounded mean is
    appended to [scores]. *)
Definition kfold_candidate (fuel : nat) (self : kfold_classifier)
           (st : kfold_locals * list Q) (reg : Q)
  : comp (kfold_locals * list Q) :=
  folds <-- lift (skf_split (kc_k self) (kc_seed self)
                            (fst (kc_train self)) (snd (kc_train self))) ;;
  st' <-- kfold_folds fuel self reg folds
            {| kl_heap := kl_heap (fst st); kl_scanscores := [];
               kl_X_test := kl_X_test (fst st) |} ;;
  lift (Ok (st', snd st ++ [round_percent (np_mean (kl_scanscores st'))])).

(** The loop [for reg in regs]. *)
Fixpoint kfold_scores (fuel : nat) (self : kfold_classifier)
         (regs : list Q) (st : kfold_locals * list Q)
  : comp (kfold_locals * list Q) :=
  match regs with
  | [] => lift (Ok st)
  | reg :: regs' =>
      st' <-- kfold_candidate fuel self st reg ;;
      kfold_scores fuel self regs' st'
  end.

(** The evaluation: the test accuracy before rounding and the predictions
    [yhat].  With sklearn, [X_test] is still the local that the loop over
    the folds has bound. *)
Definition kfold_evaluate (fuel : nat) (self : kfold_classifier)
           (st : kfold_locals) (reg : Q)
  : comp (@heap Weights * (Q * list Z)) :=
  if kc_usepytorch self then
    hc <-- lift (MLP_init (kl_heap st) (kc_classifier_config self)
                          (kc_featdim self) (kc_nclasses self) reg 64
                          (kc_seed self) "cpu"%string) ;;
    r <-- fit forward row_argmax np_permutation train_step fuel
              (fst hc) (mlp_self (snd hc))
              (fst (kc_train self)) (snd (kc_train self))
              None (Some validation_split_eval) true ;;
    let X_test := fst (kc_test self) in
    let y_test := snd (kc_test self) in
    ha <-- lift (score forward row_argmax (fst (fst r)) (snd (fst r))
                       X_test y_test) ;;
    hy <-- lift (predict forward row_argmax (fst ha) (snd (fst r)) X_test) ;;
    lift (Ok (fst hy, (snd ha, snd hy)))
  else
    clf <-- lift (logreg_fit reg (kc_seed self)
                             (fst (kc_train self)) (snd (kc_train self))) ;;
    testaccuracy <-- lift (logreg_score clf (fst (kc_test self))
                                        (snd (kc_test self))) ;;
    X_test <-- lift (match kl_X_test st with
                     | Some X_test => Ok X_test
                     | None => Raise UnboundLocalError
                     end) ;;
    yhat <-- lift (logreg_predict clf X_test) ;;
    lift (Ok (kl_heap st, (testaccuracy, yhat))).

(** [run]: the triple [(devaccuracy, testaccuracy, yhat)]. *)
Definition KFoldClassifier_run (fuel : nat) (self : kfold_classifier)
           (h : @heap Weights) : comp (@heap Weights * (Q * Q * list Z)) :=
  st <-- kfold_scores fuel self
           (regs KFoldClassifier (kc_usepytorch self) false)
           ({| kl_heap := h; kl_scanscores := []; kl_X_test := None |},
            []) ;;
  reg <-- lift (optreg KFoldClassifier (kc_usepytorch self) false
                       (snd st)) ;;
  devaccuracy <-- lift (np_max (snd st)) ;;
  hay <-- kfold_evaluate fuel self (fst st) reg ;;
  lift (Ok (fst hay,
            (devaccuracy, round_percent (fst (snd hay)), snd (snd hay)))).

(** *** [InnerKFoldClassifier.run] *)

(** The body of the loop over the inner folds, on the training rows of an
    outer fold: the accuracy of a new classifier on the inner test rows is
    appended to [regscores]. *)
Definition inner_fold (fuel : nat) (self : inner_kfold_classifier) (reg : Q)
           (X_train : list Example) (y_train : list Z)
           (st : @heap Weights * list Q) (fold : list nat * list nat)
  : comp (@heap Weights * list Q) :=
  let inner_train_idx := fst fold in
  let inner_test_idx := snd fold in
  X_in_train <-- lift (gather X_train inner_train_idx) ;;
  X_in_test <-- lift (gather X_train inner_test_idx) ;;
  y_in_train <-- lift (gather y_train inner_train_idx) ;;
  y_in_test <-- lift (gather y_train inner_test_idx) ;;
  if ic_usepytorch self then
    hc <-- lift (MLP_init (fst st) (ic_classifier_config self)
                          (ic_featdim self) (ic_nclasses self) reg 64
                          (ic_seed self) "cpu"%string) ;;
    r <-- fit forward row_argmax np_permutation train_step fuel
              (fst hc) (mlp_self (snd hc)) X_in_train y_in_train
              (Some (X_in_test, y_in_test)) None true ;;
    ha <-- lift (score forward row_argmax (fst (fst r)) (snd (fst r))
                       X_in_test y_in_test) ;;
    lift (Ok (fst ha, snd st ++ [snd ha]))
  else
    clf <-- lift (logreg_fit reg (ic_seed self) X_in_train y_in_train) ;;
    a <-- lift (logreg_score clf X_in_test y_in_test) ;;
    lift (Ok (fst st, snd st ++ [a])).

Fixpoint inner_folds (fuel : nat) (self : inner_kfold_classifier) (reg : Q)
         (X_train : list Example) (y_train : list Z)
         (folds : list (list nat * list nat)) (st : @heap Weights * list Q)
  : comp (@heap Weights * list Q) :=
  match folds with
  | [] => lift (Ok st)
  | fold :: folds' =>
      st' <-- inner_fold fuel self reg X_train y_train st fold ;;
      inner_folds fuel self reg X_train y_train folds' st'
  end.

(** The body of [for reg in regs]: the inner folds are split with the
    random state [1111], and the rounded mean of their scores is appended
    to [scores]. *)
Definition inner_candidate (fuel : nat) (self : inner_kfold_classifier)
           (X_train : list Example) (y_train : list Z)
           (st : @heap Weights * list Q) (reg : Q)
  : comp (@heap Weights * list Q) :=
  folds <-- lift (skf_split (ic_k self) 1111 X_train y_train) ;;
  hr <-- inner_folds fuel self reg X_train y_train folds (fst st, []) ;;
  lift (Ok (fst hr, snd st ++ [round_percent (np_mean (snd hr))])).

Fixpoint inner_scores (fuel : nat) (self : inner_kfold_classifier)
         (X_train : list Example) (y_train : list Z)
         (regs : list Q) (st : @heap Weights * list Q)
  : comp (@heap Weights * list Q) :=
  match regs with
  | [] => lift (Ok st)
  | reg :: regs' =>
      st' <-- inner_candidate fuel self X_train y_train st reg ;;
      inner_scores fuel self X_train y_train regs' st'
  end.

Definition append_devresults (self : inner_kfold_classifier) (v : Q)
  : inner_kfold_classifier :=
  {| ic_X := ic_X self; ic_y := ic_y self; ic_featdim := ic_featdim self;
     ic_nclasses := ic_nclasses self; ic_seed := ic_seed self;
     ic_max_iter := ic_max_iter self;
     ic_devresults := ic_devresults self ++ [v];
     ic_testresults := ic_testresults self;
     ic_usepytorch := ic_usepytorch self;
     ic_classifier_config := ic_classifier_config self;
     ic_modelname := ic_modelname self; ic_k := ic_k self |}.

Definition append_testresults (self : inner_kfold_classifier) (v : Q)
  : inner_kfold_classifier :=
  {| ic_X := ic_X self; ic_y := ic_y self; ic_featdim := ic_featdim self;
     ic_nclasses := ic_nclasses self; ic_seed := ic_seed self;
     ic_max_iter := ic_max_iter self;
     ic_devresults := ic_devresults self;
     ic_testresults := ic_testresults self ++ [v];
     ic_usepytorch := ic_usepytorch self;
     ic_classifier_config := ic_classifier_config self;
     ic_modelname := ic_modelname self; ic_k := ic_k self |}.

(** The evaluation on an outer fold: the rounded accuracy on the test rows
    of the fold of a classifier trained with [optreg] is appended to
    [self.testresults]. *)
Definition inner_evaluate (fuel : nat) (self : inner_kfold_classifier)
           (h : @heap Weights) (X_train : list Example) (y_train : list Z)
           (X_test : list Example) (y_test : list Z) (reg : Q)
  : comp (@heap Weights * inner_kfold_classifier) :=
  if ic_usepytorch self then
    hc <-- lift (MLP_init h (ic_classifier_config self)
                          (ic_featdim self) (ic_nclasses self) reg 64
                          (ic_seed self) "cpu"%string) ;;
    r <-- fit forward row_argmax np_permutation train_step fuel
              (fst hc) (mlp_self (snd hc)) X_train y_train
              None (Some validation_split_eval) true ;;
    ha <-- lift (score forward row_argmax (fst (fst r)) (snd (fst r))
                       X_test y_test) ;;
    lift (Ok (fst ha, append_testresults self (round_percent (snd ha))))
  else
    clf <-- lift (logreg_fit reg (ic_seed self) X_train y_train) ;;
    test_score <-- lift (logreg_score clf X_test y_test) ;;
    lift (Ok (h, append_testresults self (round_percent test_score))).

(** The body of the loop over the outer folds: the candidates are scored
    on the inner folds, the best score is appended to [self.devresults],
    and the selected candidate is evaluated. *)
Definition outer_fold (fuel : nat)
           (st : @heap Weights * inner_kfold_classifier)
           (fold : list nat * list nat)
  : comp (@heap Weights * inner_kfold_classifier) :=
  let self := snd st in
  let train_idx := fst fold in
  let test_idx := snd fold in
  X_train <-- lift (gather (ic_X self) train_idx) ;;
  X_test <-- lift (gather (ic_X self) test_idx) ;;
  y_train <-- lift (gather (ic_y self) train_idx) ;;
  y_test <-- lift (gather (ic_y self) test_idx) ;;
  hs <-- inner_scores fuel self X_train y_train
           (regs InnerKFoldClassifier (ic_usepytorch self) false)
           (fst st, []) ;;
  reg <-- lift (optreg InnerKFoldClassifier (ic_usepytorch self) false
                       (snd hs)) ;;
  best <-- lift (np_max (snd hs)) ;;
  let self := append_devresults self best in
  inner_evaluate fuel self (fst hs) X_train y_train X_test y_test reg.

Fixpoint outer_folds (fuel : nat) (folds : list (list nat * list nat))
         (st : @heap Weights * inner_kfold_classifier)
  : comp (@heap Weights * inner_kfold_classifier) :=
  match folds with
  | [] => lift (Ok st)
  | fold :: folds' =>
      st' <-- outer_fold fuel st fold ;;
      outer_folds fuel folds' st'
  end.

(** [run]: the heap and the object [self] as the call leaves them, and the
    pair [(devaccuracy, testaccuracy)].  The outer folds are split with the
    random state [1111]. *)
Definition InnerKFoldClassifier_run (fuel : nat)
           (self : inner_kfold_classifier) (h : @heap Weights)
  : comp (@heap Weights * inner_kfold_classifier * (Q * Q)) :=
  folds <-- lift (skf_split (ic_k self) 1111 (ic_X self) (ic_y self)) ;;
  st <-- outer_folds fuel folds (h, self) ;;
  lift (Ok (st, (py_round2 (np_mean (ic_devresults (snd st))),
                 py_round2 (np_mean (ic_testresults (snd st)))))).

(** *** Properties of the constructors *)

Lemma comp_bind_ok {A B : Type} (c : comp A) (k : A -> comp B) (b : B) :
  comp_bind c k = Some (Ok b) ->
  exists a, c = Some (Ok a) /\ k a = Some (Ok b).
Proof.
  destruct c as [[a|e]|]; simpl; intros H; try discriminate. eauto.
Qed.

Lemma lift_ok {A : Type} (r : result A) (a : A) :
  lift r = Some (Ok a) -> r = Ok a.
Proof. unfold lift. congruence. Qed.

(** The entries that the constructors of the strategies read without a
    default. *)
Definition required_keys (config : config) : Prop :=
  exists nclasses seed usepytorch classifier,
    c_nclasses config = Some nclasses /\
    c_seed config = Some seed /\
    c_usepytorch config = Some usepytorch /\
    c_classifier config = Some classifier /\
    (usepytorch = true -> exists nhid, cc_nhid classifier = Some nhid).

(** X14. A strategy can be constructed exactly when [config] has the keys
    [nclasses], [seed], [usepytorch] and [classifier] and, with pytorch,
    the classifier's dictionary has [nhid], for which [MLP] itself has a
    default; [InnerKFoldClassifier] asks for [max_iter] besides.  No other
    key is needed: [kfold], [device] and [noreg] have defaults. *)
Theorem strategy_constructors_required_keys
        (X : list Example) (y : list Z)
        (Xs : splits (list Example)) (ys : splits (list Z))
        (train test : list Example * list Z) (config : config) :
  ((exists self, SplitClassifier_init Xs ys config = Init_ok self)
   <-> required_keys config) /\
  ((exists self, KFoldClassifier_init train test config = Init_ok self)
   <-> required_keys config) /\
  ((exists self, InnerKFoldClassifier_init X y config = Init_ok self)
   <-> required_keys config /\
       exists max_iter, c_max_iter config = Some max_iter).
Proof.
  unfold required_keys, SplitClassifier_init, KFoldClassifier_init,
    InnerKFoldClassifier_init, get_classif_name.
  destruct config as [nclasses seed max_iter usepytorch classifier kfold
                        device noreg].
  cbn [c_nclasses c_seed c_max_iter c_usepytorch c_classifier c_kfold
       c_device c_noreg].
  split; [|split]; split.
  - intros (self & H).
    destruct nclasses as [n|], seed as [s|], usepytorch as [[|]|],
      classifier as [cc|]; cbn in H; try discriminate;
      [destruct (cc_nhid cc) as [nhid|] eqn:E; cbn in H; try discriminate|];
      do 4 eexists; repeat split; eauto; discriminate.
  - intros (n & s & u & c & -> & -> & -> & -> & Hn). cbn.
    destruct u; cbn; [|eauto].
    destruct (Hn eq_refl) as (nhid & ->). cbn. eauto.
  - intros (self & H).
    destruct nclasses as [n|], seed as [s|], usepytorch as [[|]|],
      classifier as [cc|]; cbn in H; try discriminate;
      [destruct (cc_nhid cc) as [nhid|] eqn:E; cbn in H; try discriminate|];
      do 4 eexists; repeat split; eauto; discriminate.
  - intros (n & s & u & c & -> & -> & -> & -> & Hn). cbn.
    destruct u; cbn; [|eauto].
    destruct (Hn eq_refl) as (nhid & ->). cbn. eauto.
  - intros (self & H).
    destruct nclasses as [n|], seed as [s|], max_iter as [mi|],
      usepytorch as [[|]|], classifier as [cc|]; cbn in H;
      try discriminate;
      [destruct (cc_nhid cc) as [nhid|] eqn:E; cbn in H; try discriminate|];
      (split; [|eauto]); do 4 eexists; repeat split; eauto; discriminate.
  - intros ((n & s & u & c & -> & -> & -> & -> & Hn) & mi & ->). cbn.
    destruct u; cbn; [|eauto].
    destruct (Hn eq_refl) as (nhid & ->). cbn. eauto.
Qed.

(** *** Properties of [MLP.__init__] *)

(** X15. The name that [get_classif_name] gives a pytorch classifier
    describes the [MLP] built from the same dictionary: the number of hidden
    units, the optimizer and the batch size in the name are the attributes
    of the object.  The batch size is the one of the dictionary or [64]:
    the argument [batch_size] of the constructor has no effect. *)
Theorem modelname_describes_the_mlp
        (h h' : @heap Weights) (params : classifier_config)
        (inputdim nclasses : Z) (l2reg : Q) (bs seed : Z)
        (device name : String.string) (m : mlp) :
  get_classif_name params true = Init_ok name ->
  MLP_init h params inputdim nclasses l2reg bs seed device = Ok (h', m) ->
  name = String.append "pytorch-MLP-nhid"%string
           (String.append (str (mlp_nhid m))
              (String.append "-"%string
                 (String.append (mlp_optim m)
                    (String.append "-bs"%string
                       (str (batch_size (mlp_self m))))))) /\
  forall bs',
    MLP_init h params inputdim nclasses l2reg bs' seed device = Ok (h', m).
Proof.
  unfold get_classif_name, MLP_init. cbn [negb].
  destruct (cc_nhid params) as [nhid|]; cbn [dict_item init_bind];
    [|discriminate].
  intros Hn Hm. split; [|intros _; exact Hm].
  inversion Hn; subst name. clear Hn.
  apply bind_ok in Hm. destruct Hm as (wa & Hwa & Hm).
  inversion Hm; subst h' m. reflexivity.
Qed.

(** X16. A new [MLP] is a new object: it is allocated at the next free
    location, in training mode, and no object that existed is changed.
    Its layers take rows of [inputdim] features to [nclasses] logits,
    through [nhid] hidden units unless [nhid] is [0]. *)
Theorem MLP_init_allocates
        (h h' : @heap Weights) (params : classifier_config)
        (inputdim nclasses : Z) (l2reg : Q) (bs seed : Z)
        (device : String.string) (m : mlp) :
  MLP_init h params inputdim nclasses l2reg bs seed device = Ok (h', m) ->
  well_shaped inputdim (mlp_layers m) nclasses /\
  (mlp_nhid m = 0 <-> mlp_layers m = [Linear inputdim nclasses]) /\
  model (mlp_self m) = next h /\ next h' = S (next h) /\
  (forall l, l <> next h -> cell h' l = cell h l) /\
  training (cell h' (next h)) = true /\
  nepoch (mlp_self m) = 0.
Proof.
  unfold MLP_init. intros Hm.
  apply bind_ok in Hm. destruct Hm as (wa & Hwa & Hm).
  inversion Hm; subst h' m. clear Hm. cbn. unfold mlp_sequential.
  split; [|split].
  - destruct (Z.eqb_spec (get_default (cc_nhid params) 0) 0); cbn; auto.
  - destruct (Z.eqb_spec (get_default (cc_nhid params) 0) 0) as [E|E].
    + split; auto.
    + split; [contradiction | discriminate].
  - repeat split.
    + intros l Hl. now destruct (Nat.eqb_spec l (next h)).
    + now rewrite Nat.eqb_refl.
Qed.

(** Two classifiers built from the same arguments have the same parameters
    and the same training state, wherever they are allocated. *)
Lemma MLP_init_same
      (h1 h2 : @heap Weights) (params : classifier_config)
      (inputdim nclasses : Z) (l2reg : Q) (bs1 bs2 seed : Z)
      (device : String.string) :
  sim_result
    (fun r1 r2 =>
       same_model (fst r1) (mlp_self (snd r1)) (fst r2) (mlp_self (snd r2)) /\
       (model (mlp_self (snd r1)) < next (fst r1))%nat /\
       (model (mlp_self (snd r2)) < next (fst r2))%nat)
    (MLP_init h1 params inputdim nclasses l2reg bs1 seed device)
    (MLP_init h2 params inputdim nclasses l2reg bs2 seed device).
Proof.
  unfold MLP_init. destruct (torch_init _ _ _ _ _) as [wa|e]; cbn;
    [|reflexivity].
  unfold same_model. cbn. rewrite !Nat.eqb_refl. cbn.
  repeat split; lia.
Qed.

(** *** Properties of the model selection of the strategies *)

Lemma argmax_scan_max (rest : list Q) :
  forall (acc : nat * Q * nat),
    snd (fst (fold_left argmax_step rest acc))
    = fold_left (fun m v => if Qgt_bool v m then v else m) rest
                (snd (fst acc)).
Proof.
  induction rest as [|v rest IH]; intros [[i0 v0] k0]; [reflexivity|].
  cbn [fold_left]. rewrite IH. unfold argmax_step. cbn [fst snd].
  now destruct (Qgt_bool v v0).
Qed.

(** [np.max(scores)] is the score at [np.argmax(scores)], the first
    position of the largest score. *)
Lemma np_argmax_max (scores : list Q) (i : nat) :
  np_argmax scores = Ok i ->
  exists v,
    np_max scores = Ok v /\
    nth_error scores i = Some v /\
    (forall j w, nth_error scores j = Some w -> (w <= v)%Q) /\
    (forall j w, (j < i)%nat -> nth_error scores j = Some w -> (w < v)%Q).
Proof.
  intros Hi.
  assert (Hne : scores <> []) by (intros ->; discriminate).
  destruct (np_argmax_first_max scores Hne) as (i' & v & Ha & Hv & Hmax & Hf).
  assert (i' = i) by congruence. subst i'.
  exists v. split; [|auto].
  destruct scores as [|v0 rest]; [congruence|].
  unfold np_max.
  change v0 with (snd (fst (O, v0, 1%nat))) at 1.
  rewrite <- (argmax_scan_max rest (O, v0, 1%nat)).
  unfold np_argmax in Hi. inversion Hi as [Hi'].
  assert (H0 : argmax_inv [v0] (O, v0, 1%nat)).
  { unfold argmax_inv. repeat split.
    - intros [|[|j]] w Hj; simpl in Hj; inversion Hj; subst. apply Qle_refl.
    - intros j w Hj. lia. }
  pose proof (argmax_scan_inv rest _ _ H0) as H. simpl app in H.
  destruct (fold_left argmax_step rest (O, v0, 1%nat)) as [[best_i best] k].
  destruct H as (_ & Hb & _). cbn [fst snd] in *. subst best_i. congruence.
Qed.

Lemma Forall2_nth_error_both {A B : Type} (R : A -> B -> Prop)
      (l1 : list A) (l2 : list B) :
  Forall2 R l1 l2 ->
  forall i a b, nth_error l1 i = Some a -> nth_error l2 i = Some b -> R a b.
Proof.
  induction 1 as [|x y l1 l2 Hxy _ IH]; intros [|i] a b Ha Hb;
    simpl in Ha, Hb; try discriminate.
  - inversion Ha; inversion Hb; subst. exact Hxy.
  - eapply IH; eauto.
Qed.

(** *** Properties of [SplitClassifier.run] *)

(** The loop over the candidates appends the score of each candidate, in
    the order of the candidates. *)
Lemma split_scores_spec (fuel : nat) (self : split_classifier) :
  forall (rs : list Q) (h : @heap Weights) (scores0 : list Q)
         (h' : @heap Weights) (scores : list Q),
    split_scores fuel self rs h scores0 = Some (Ok (h', scores)) ->
    exists new,
      scores = scores0 ++ new /\
      Forall2 (fun reg s =>
                 exists hi hi',
                   split_candidate fuel self hi reg = Some (Ok (hi', s)))
              rs new.
Proof.
  induction rs as [|reg rs IH]; intros h scores0 h' scores H; cbn in H.
  - apply lift_ok in H. inversion H; subst. exists [].
    split; [now rewrite app_nil_r | constructor].
  - apply comp_bind_ok in H. destruct H as ([h1 s] & Hc & H).
    cbn [fst snd] in H. destruct (IH _ _ _ _ H) as (new & -> & HF).
    exists (s :: new). split; [now rewrite <- app_assoc|].
    constructor; eauto.
Qed.

(** A call of [run] that returns has scored every candidate, selected the
    first candidate with the largest score and evaluated a classifier
    trained with it. *)
Lemma SplitClassifier_run_inv
      (fuel : nat) (self : split_classifier) (h h' : @heap Weights)
      (dev test : Q) :
  SplitClassifier_run fuel self h = Some (Ok (h', (dev, test))) ->
  exists scores i reg h1,
    split_scores fuel self
      (regs SplitClassifier (sc_usepytorch self) (sc_noreg self)) h []
    = Some (Ok (h1, scores)) /\
    Forall2 (fun reg s =>
               exists hi hi',
                 split_candidate fuel self hi reg = Some (Ok (hi', s)))
            (regs SplitClassifier (sc_usepytorch self) (sc_noreg self))
            scores /\
    nth_error (regs SplitClassifier (sc_usepytorch self) (sc_noreg self)) i
    = Some reg /\
    nth_error scores i = Some dev /\
    (forall j w, nth_error scores j = Some w -> (w <= dev)%Q) /\
    (forall j w, (j < i)%nat -> nth_error scores j = Some w -> (w < dev)%Q) /\
    split_evaluate fuel self h1 reg = Some (Ok (h', test)).
Proof.
  unfold SplitClassifier_run. intros H.
  apply comp_bind_ok in H. destruct H as ([h1 scores] & Hs & H).
  apply comp_bind_ok in H. destruct H as (reg & Hreg & H).
  apply comp_bind_ok in H. destruct H as (dev' & Hdev & H).
  apply comp_bind_ok in H. destruct H as ([h2 test'] & He & H).
  apply lift_ok in H, Hreg, Hdev. inversion H; subst h2 dev' test'. clear H.
  cbn [fst snd] in *.
  destruct (split_scores_spec _ _ _ _ _ _ _ Hs) as (new & Hnew & HF).
  cbn [app] in Hnew. subst new.
  unfold optreg in Hreg. apply bind_ok in Hreg.
  destruct Hreg as (i & Hi & Hreg). unfold list_item in Hreg.
  destruct (nth_error _ i) as [r|] eqn:Er; [|discriminate].
  inversion Hreg; subst r. clear Hreg.
  destruct (np_argmax_max _ _ Hi) as (v & Hv & Hnth & Hmax & Hfirst).
  assert (v = dev) by congruence. subst v.
  exists scores, i, reg, h1. auto 10.
Qed.

(** X17. When [SplitClassifier.run] returns, there is one score for each
    candidate, in the order of the candidates; [devaccuracy] is the largest
    of them, the classifier that is evaluated on the test set was trained
    with the first candidate that reached it, and [testaccuracy] is what
    that evaluation gave. *)
Theorem split_run_selects_first_best_candidate
        (fuel : nat) (self : split_classifier) (h h' : @heap Weights)
        (dev test : Q) :
  SplitClassifier_run fuel self h = Some (Ok (h', (dev, test))) ->
  exists scores i reg h1,
    split_scores fuel self
      (regs SplitClassifier (sc_usepytorch self) (sc_noreg self)) h []
    = Some (Ok (h1, scores)) /\
    length scores
    = length (regs SplitClassifier (sc_usepytorch self) (sc_noreg self)) /\
    nth_error (regs SplitClassifier (sc_usepytorch self) (sc_noreg self)) i
    = Some reg /\
    nth_error scores i = Some dev /\
    (forall j w, nth_error scores j = Some w -> (w <= dev)%Q) /\
    (forall j w, (j < i)%nat -> nth_error scores j = Some w -> (w < dev)%Q) /\
    split_evaluate fuel self h1 reg = Some (Ok (h', test)).
Proof.
  intros H.
  destruct (SplitClassifier_run_inv _ _ _ _ _ _ H)
    as (scores & i & reg & h1 & Hs & HF & Hr & Hd & Hmax & Hfirst & He).
  exists scores, i, reg, h1.
  split; [exact Hs|]. split; [symmetry; eapply Forall2_length; eauto|].
  auto.
Qed.

(** With pytorch, training with a candidate goes the same way wherever the
    new classifier is allocated. *)
Lemma split_train_same (fuel : nat) (self : split_classifier)
      (h1 h2 : @heap Weights) (reg : Q) :
  sim_comp (fun r1 r2 =>
              same_model (fst r1) (snd r1) (fst r2) (snd r2))
           (split_train fuel self h1 reg) (split_train fuel self h2 reg).
Proof.
  unfold split_train.
  pose proof (MLP_init_same h1 h2 (sc_classifier_config self)
                (sc_featdim self) (sc_nclasses self) reg 64 64
                (sc_seed self) (sc_device self)) as Hm.
  destruct (MLP_init h1 _ _ _ _ _ _ _) as [[hc1 m1]|e1],
           (MLP_init h2 _ _ _ _ _ _ _) as [[hc2 m2]|e2];
    cbn [sim_result fst snd] in Hm; try contradiction;
    cbn [comp_bind lift fst snd sim_comp sim_result]; [|exact Hm].
  destruct Hm as (Hsame & Hl1 & Hl2).
  pose proof (fit_same_model forward row_argmax np_permutation train_step
                fuel hc1 hc2 (mlp_self m1) (mlp_self m2)
                (sp_train (sc_X self)) (sp_train (sc_y self))
                (Some (sp_valid (sc_X self), sp_valid (sc_y self))) None true
                Hsame Hl1 Hl2) as Hf.
  destruct (fit _ _ _ _ _ hc1 _ _ _ _ _ _) as [[[[ha ta] a]|e1]|],
           (fit _ _ _ _ _ hc2 _ _ _ _ _ _) as [[[[hb tb] b]|e2]|];
    cbn [sim_comp sim_result] in Hf; try contradiction;
    cbn [comp_bind lift fst snd sim_comp sim_result]; auto.
  now destruct Hf as (_ & Hs & _).
Qed.

(** Training with a candidate that returns: the validation accuracy of the
    classifier is the accuracy that [fit] returned. *)
Lemma split_train_inv (fuel : nat) (self : split_classifier)
      (h h2 : @heap Weights) (reg : Q) (t2 : @trainer Weights Aux) :
  split_train fuel self h reg = Some (Ok (h2, t2)) ->
  exists hc m best,
    MLP_init h (sc_classifier_config self) (sc_featdim self)
             (sc_nclasses self) reg 64 (sc_seed self) (sc_device self)
    = Ok (hc, m) /\
    fit forward row_argmax np_permutation train_step fuel hc (mlp_self m)
        (sp_train (sc_X self)) (sp_train (sc_y self))
        (Some (sp_valid (sc_X self), sp_valid (sc_y self))) None true
    = Some (Ok (h2, t2, best)) /\
    score forward row_argmax h2 t2
          (sp_valid (sc_X self)) (sp_valid (sc_y self))
    = Ok (model_eval h2 (model t2), best).
Proof.
  unfold split_train. intros H.
  apply comp_bind_ok in H. destruct H as ([hc m] & Hm & H).
  apply comp_bind_ok in H. destruct H as ([[h2' t2'] best] & Hf & H).
  apply lift_ok in H, Hm. inversion H; subst h2' t2'. clear H.
  cbn [fst snd] in Hf.
  exists hc, m, best. split; [exact Hm|]. split; [exact Hf|].
  eapply fit_validation_score; [|exact Hf].
  pose proof (MLP_init_same h h (sc_classifier_config self)
                (sc_featdim self) (sc_nclasses self) reg 64 64
                (sc_seed self) (sc_device self)) as Hb.
  rewrite Hm in Hb. now destruct Hb as (_ & Hl & _).
Qed.

(** X18. With pytorch, the two accuracies that [SplitClassifier.run]
    returns are those of one classifier, the one trained last with the
    selected candidate: [devaccuracy], which was recorded when the
    candidates were scanned, is the rounded best validation accuracy that
    the last call of [fit] returned, and [testaccuracy] is the rounded
    accuracy of the model that this call installed. *)
Theorem split_run_accuracies_of_one_model
        (fuel : nat) (self : split_classifier) (h h' : @heap Weights)
        (dev test : Q) :
  sc_usepytorch self = true ->
  SplitClassifier_run fuel self h = Some (Ok (h', (dev, test))) ->
  exists reg h1 hc m h2 t2 best acc,
    In reg (regs SplitClassifier true (sc_noreg self)) /\
    MLP_init h1 (sc_classifier_config self) (sc_featdim self)
             (sc_nclasses self) reg 64 (sc_seed self) (sc_device self)
    = Ok (hc, m) /\
    fit forward row_argmax np_permutation train_step fuel hc (mlp_self m)
        (sp_train (sc_X self)) (sp_train (sc_y self))
        (Some (sp_valid (sc_X self), sp_valid (sc_y self))) None true
    = Some (Ok (h2, t2, best)) /\
    dev = round_percent best /\
    score forward row_argmax h2 t2
          (sp_test (sc_X self)) (sp_test (sc_y self))
    = Ok (h', acc) /\
    test = round_percent acc.
Proof.
  intros Hu H.
  destruct (SplitClassifier_run_inv _ _ _ _ _ _ H)
    as (scores & i & reg & h1 & _ & HF & Hr & Hd & _ & _ & He).
  rewrite Hu in HF, Hr.
  destruct (Forall2_nth_error_both _ _ _ HF _ _ _ Hr Hd)
    as (hi & hi' & Hc).
  unfold split_candidate in Hc. unfold split_evaluate in He.
  rewrite Hu in Hc, He.
  apply comp_bind_ok in Hc. destruct Hc as ([ha ta] & Hta & Hc).
  apply comp_bind_ok in Hc. destruct Hc as ([ha' a] & Hsa & Hc).
  apply lift_ok in Hc, Hsa. inversion Hc; subst hi' dev. clear Hc.
  apply comp_bind_ok in He. destruct He as ([h2 t2] & Ht2 & He).
  apply comp_bind_ok in He. destruct He as ([h3 acc] & Hs2 & He).
  apply lift_ok in He, Hs2. inversion He; subst h3 test. clear He.
  cbn [fst snd] in *.
  destruct (split_train_inv _ _ _ _ _ _ Ht2)
    as (hc & m & best & Hm & Hf & Hsv).
  pose proof (split_train_same fuel self hi h1 reg) as Hsame.
  rewrite Hta, Ht2 in Hsame. cbn in Hsame.
  pose proof (score_same_model forward row_argmax _ _ _ _
                (sp_valid (sc_X self)) (sp_valid (sc_y self)) Hsame) as Hsc.
  rewrite Hsa, Hsv in Hsc. cbn in Hsc. subst a.
  exists reg, h1, hc, m, h2, t2, best, acc.
  split; [eapply nth_error_In; eauto|]. auto.
Qed.

(** With sklearn, the loop over the candidates needs no fuel and leaves
    the heap as it is. *)
Lemma split_scores_sklearn (fuel fuel' : nat) (self : split_classifier) :
  sc_usepytorch self = false ->
  forall (rs : list Q) (h : @heap Weights) (scores0 : list Q),
    split_scores fuel self rs h scores0
    = split_scores fuel' self rs h scores0 /\
    forall h' scores,
      split_scores fuel self rs h scores0 = Some (Ok (h', scores)) ->
      h' = h.
Proof.
  intros Hu. induction rs as [|reg rs IH]; intros h scores0; cbn.
  - split; [reflexivity|]. intros h' scores H. apply lift_ok in H.
    now inversion H.
  - unfold split_candidate. rewrite Hu.
    destruct (logreg_fit _ _ _ _) as [clf|e]; cbn; [|split; congruence].
    destruct (logreg_score _ _ _) as [a|e]; cbn; [|split; congruence].
    apply IH.
Qed.

(** X19. With sklearn, [SplitClassifier.run] touches no module and does
    not depend on the fuel, and the two accuracies that it returns are
    those of one classifier, fitted with the selected candidate:
    [devaccuracy] is its rounded accuracy on the validation set and
    [testaccuracy] its rounded accuracy on the test set. *)
Theorem split_run_sklearn
        (fuel : nat) (self : split_classifier) (h h' : @heap Weights)
        (dev test : Q) :
  sc_usepytorch self = false ->
  SplitClassifier_run fuel self h = Some (Ok (h', (dev, test))) ->
  h' = h /\
  (forall fuel', SplitClassifier_run fuel' self h
                 = Some (Ok (h, (dev, test)))) /\
  exists reg clf a b,
    In reg (regs SplitClassifier false (sc_noreg self)) /\
    logreg_fit reg (sc_seed self)
               (sp_train (sc_X self)) (sp_train (sc_y self)) = Ok clf /\
    logreg_score clf (sp_valid (sc_X self)) (sp_valid (sc_y self)) = Ok a /\
    dev = round_percent a /\
    logreg_score clf (sp_test (sc_X self)) (sp_test (sc_y self)) = Ok b /\
    test = round_percent b.
Proof.
  intros Hu H.
  destruct (SplitClassifier_run_inv _ _ _ _ _ _ H)
    as (scores & i & reg & h1 & Hs & HF & Hr & Hd & _ & _ & He).
  destruct (split_scores_sklearn fuel fuel self Hu
              (regs SplitClassifier (sc_usepytorch self) (sc_noreg self))
              h []) as (_ & Hh).
  pose proof (Hh _ _ Hs) as Hh1. subst h1.
  destruct (Forall2_nth_error_both _ _ _ HF _ _ _ Hr Hd)
    as (hi & hi' & Hc).
  rewrite Hu in Hr.
  unfold split_candidate in Hc. unfold split_evaluate in He.
  rewrite Hu in Hc, He.
  apply comp_bind_ok in Hc. destruct Hc as (clf & Hclf & Hc).
  apply comp_bind_ok in Hc. destruct Hc as (a & Ha & Hc).
  apply lift_ok in Hc, Ha, Hclf. inversion Hc; subst hi' dev. clear Hc.
  rewrite Hclf in He. cbn [lift comp_bind] in He.
  destruct (logreg_score clf (sp_test (sc_X self)) (sp_test (sc_y self)))
    as [b|e] eqn:Hb; [|discriminate].
  inversion He; subst h' test. clear He.
  split; [reflexivity|]. split.
  - intros fuel'. rewrite <- H. unfold SplitClassifier_run.
    destruct (split_scores_sklearn fuel' fuel self Hu
                (regs SplitClassifier (sc_usepytorch self) (sc_noreg self))
                h []) as (-> & _).
    rewrite Hs. cbn [comp_bind fst snd].
    destruct (lift (optreg _ _ _ _)) as [[r|e]|]; cbn [comp_bind];
      try reflexivity.
    destruct (lift (np_max _)) as [[d|e]|]; cbn [comp_bind];
      try reflexivity.
    unfold split_evaluate. rewrite Hu. reflexivity.
  - exists reg, clf, a, b.
    split; [eapply nth_error_In; eauto|]. auto.
Qed.

(** Training with a candidate returns, under the conditions of
    [fit_returns_with_fuel], once the classifier can be built. *)
Lemma split_train_returns (fuel : nat) (self : split_classifier)
      (h : @heap Weights) (reg : Q) :
  0 < get_default (cc_batch_size (sc_classifier_config self)) 64 ->
  0 < get_default (cc_epoch_size (sc_classifier_config self)) 4 ->
  0 <= get_default (cc_max_epoch (sc_classifier_config self)) 200 ->
  trainable np_permutation train_step
            (sp_train (sc_X self)) (sp_train (sc_y self)) ->
  sp_valid (sc_X self) <> [] ->
  length (sp_valid (sc_X self)) = length (sp_valid (sc_y self)) ->
  (exists r, MLP_init h (sc_classifier_config self) (sc_featdim self)
                      (sc_nclasses self) reg 64 (sc_seed self)
                      (sc_device self) = Ok r) ->
  (Z.to_nat
     (get_default (cc_max_epoch (sc_classifier_config self)) 200 + 1)%Z
   <= fuel)%nat ->
  exists h2 t2,
    split_train fuel self h reg = Some (Ok (h2, t2)) /\
    batch_size t2 = get_default (cc_batch_size (sc_classifier_config self)) 64.
Proof.
  intros Hbs Hes Hmax Htr Hne Hlen ([hc m] & Hm) Hfuel.
  assert (Hset : batch_size (mlp_self m)
                 = get_default (cc_batch_size (sc_classifier_config self)) 64
                 /\ epoch_size (mlp_self m)
                    = get_default
                        (cc_epoch_size (sc_classifier_config self)) 4
                 /\ max_epoch (mlp_self m)
                    = get_default
                        (cc_max_epoch (sc_classifier_config self)) 200).
  { unfold MLP_init in Hm. apply bind_ok in Hm.
    destruct Hm as (wa & _ & Hm). inversion Hm; subst. cbn. auto. }
  destruct Hset as (Sbs & Ses & Smax).
  destruct (fit_returns_with_fuel forward row_argmax np_permutation train_step
              fuel hc (mlp_self m)
              (sp_train (sc_X self)) (sp_train (sc_y self))
              (sp_valid (sc_X self)) (sp_valid (sc_y self)) None true)
    as ([[h2 t2] best] & Hf);
    [rewrite Sbs; exact Hbs | rewrite Ses; exact Hes
    |rewrite Smax; exact Hmax | exact Htr | exact Hne | exact Hlen
    |rewrite Smax; exact Hfuel|].
  exists h2, t2. unfold split_train. rewrite Hm.
  cbn [lift comp_bind fst snd]. rewrite Hf. cbn [lift comp_bind fst snd].
  split; [reflexivity|].
  rewrite <- Sbs.
  eapply (fit_keeps_batch_size forward row_argmax np_permutation train_step).
  exact Hf.
Qed.

Lemma MLP_init_returns_anywhere
      (h1 h2 : @heap Weights) (params : classifier_config)
      (inputdim nclasses : Z) (l2reg : Q) (bs seed : Z)
      (device : String.string) :
  (exists r, MLP_init h1 params inputdim nclasses l2reg bs seed device
             = Ok r) ->
  exists r, MLP_init h2 params inputdim nclasses l2reg bs seed device = Ok r.
Proof.
  intros (r & Hr).
  pose proof (MLP_init_same h1 h2 params inputdim nclasses l2reg bs bs seed
                device) as H.
  rewrite Hr in H.
  destruct (MLP_init h2 _ _ _ _ _ _ _) as [r2|e]; [eauto | contradiction].
Qed.

(** X20. With pytorch, [SplitClassifier.run] returns whenever the batch
    size and the epoch size are positive, [max_epoch] is not negative, the
    training set can be trained on (its labels cover its rows, the
    permutations drawn hold positions of it, and the update accepts its
    batches), the validation and the test set are not empty and parallel
    to their labels, and a classifier can be built for each candidate: a
    fuel above [max_epoch] is enough for each of the calls of [fit]. *)
Theorem split_run_returns
        (fuel : nat) (self : split_classifier) (h : @heap Weights) :
  sc_usepytorch self = true ->
  0 < get_default (cc_batch_size (sc_classifier_config self)) 64 ->
  0 < get_default (cc_epoch_size (sc_classifier_config self)) 4 ->
  0 <= get_default (cc_max_epoch (sc_classifier_config self)) 200 ->
  trainable np_permutation train_step
            (sp_train (sc_X self)) (sp_train (sc_y self)) ->
  sp_valid (sc_X self) <> [] ->
  length (sp_valid (sc_X self)) = length (sp_valid (sc_y self)) ->
  sp_test (sc_X self) <> [] ->
  length (sp_test (sc_X self)) = length (sp_test (sc_y self)) ->
  (forall reg,
      In reg (regs SplitClassifier true (sc_noreg self)) ->
      exists r, MLP_init h (sc_classifier_config self) (sc_featdim self)
                         (sc_nclasses self) reg 64 (sc_seed self)
                         (sc_device self) = Ok r) ->
  (Z.to_nat
     (get_default (cc_max_epoch (sc_classifier_config self)) 200 + 1)%Z
   <= fuel)%nat ->
  exists h' dev test,
    SplitClassifier_run fuel self h = Some (Ok (h', (dev, test))).
Proof.
  intros Hu Hbs Hes Hmax Htr Hvne Hvlen Htne Htlen Hinit Hfuel.
  assert (Hcand : forall reg h0,
             In reg (regs SplitClassifier true (sc_noreg self)) ->
             exists h1 s, split_candidate fuel self h0 reg
                          = Some (Ok (h1, s))).
  { intros reg h0 Hin.
    destruct (split_train_returns fuel self h0 reg Hbs Hes Hmax Htr Hvne Hvlen)
      as (h2 & t2 & Ht & Hb); [|exact Hfuel|].
    { eapply MLP_init_returns_anywhere. apply Hinit. exact Hin. }
    destruct (split_train_inv _ _ _ _ _ _ Ht) as (_ & _ & best & _ & _ & Hs).
    unfold split_candidate. rewrite Hu, Ht. cbn [comp_bind lift fst snd].
    rewrite Hs. cbn [comp_bind lift fst snd]. unfold lift. eauto. }
  assert (Hscores : forall rs h0 scores0,
             incl rs (regs SplitClassifier true (sc_noreg self)) ->
             exists h1 scores,
               split_scores fuel self rs h0 scores0 = Some (Ok (h1, scores))).
  { induction rs as [|reg rs IH]; intros h0 scores0 Hincl; cbn.
    - unfold lift. eauto.
    - destruct (Hcand reg h0) as (h1 & s & Hc).
      { apply Hincl. now left. }
      rewrite Hc. cbn [comp_bind fst snd]. apply IH.
      intros x Hx. apply Hincl. now right. }
  destruct (Hscores (regs SplitClassifier true (sc_noreg self)) h [])
    as (h1 & scores & Hs); [apply incl_refl|].
  destruct (split_scores_spec _ _ _ _ _ _ _ Hs) as (new & Hnew & HF).
  cbn [app] in Hnew. subst new.
  pose proof (Forall2_length HF) as Hlen.
  assert (Hne : scores <> []).
  { intros ->. pose proof (regs_nonempty SplitClassifier true
                             (sc_noreg self)) as Hr.
    destruct (regs SplitClassifier true (sc_noreg self));
      [congruence | discriminate]. }
  destruct (np_argmax_first_max scores Hne) as (i & v & Hi & Hv & _).
  destruct (nth_error (regs SplitClassifier true (sc_noreg self)) i)
    as [reg|] eqn:Hr.
  2:{ apply nth_error_None in Hr.
      assert (i < length scores)%nat by (apply nth_error_Some; congruence).
      lia. }
  assert (Hopt : optreg SplitClassifier true (sc_noreg self) scores
                 = Ok reg).
  { unfold optreg, list_item. rewrite Hi. cbn [bind]. now rewrite Hr. }
  destruct (np_argmax_max _ _ Hi) as (d & Hd & _).
  destruct (split_train_returns fuel self h1 reg Hbs Hes Hmax Htr Hvne Hvlen)
    as (h2 & t2 & Ht & Hb); [|exact Hfuel|].
  { eapply MLP_init_returns_anywhere. apply Hinit.
    eapply nth_error_In; eauto. }
  unfold SplitClassifier_run. rewrite Hu, Hs. cbn [comp_bind fst snd].
  rewrite Hopt, Hd. cbn [comp_bind lift fst snd].
  unfold split_evaluate. rewrite Hu, Ht. cbn [comp_bind lift fst snd].
  unfold score. rewrite Hb, score_on_eq by assumption.
  cbn [bind comp_bind lift fst snd]. unfold lift. eauto.
Qed.

(** *** Properties of [KFoldClassifier.run] *)

(** Where the local [X_test] stands after some folds: as before when there
    was no fold, and at the test rows of the last fold otherwise. *)
Definition X_test_after (self : kfold_classifier)
           (folds : list (list nat * list nat))
           (before after : option (list Example)) : Prop :=
  (folds = [] /\ after = before) \/
  exists init fold rows,
    folds = init ++ [fold] /\
    gather (fst (kc_train self)) (snd fold) = Ok rows /\
    after = Some rows.

Lemma kfold_fold_X_test (fuel : nat) (self : kfold_classifier) (reg : Q)
      (st st' : kfold_locals) (fold : list nat * list nat) :
  kfold_fold fuel self reg st fold = Some (Ok st') ->
  exists rows,
    gather (fst (kc_train self)) (snd fold) = Ok rows /\
    kl_X_test st' = Some rows.
Proof.
  unfold kfold_fold. intros H.
  apply comp_bind_ok in H. destruct H as (X_train & _ & H).
  apply comp_bind_ok in H. destruct H as (y_train & _ & H).
  apply comp_bind_ok in H. destruct H as (X_test & HX & H).
  apply comp_bind_ok in H. destruct H as (y_test & _ & H).
  apply lift_ok in HX. exists X_test. split; [exact HX|].
  destruct (kc_usepytorch self).
  - apply comp_bind_ok in H. destruct H as (hc & _ & H).
    apply comp_bind_ok in H. destruct H as (r & _ & H).
    apply comp_bind_ok in H. destruct H as (ha & _ & H).
    apply lift_ok in H. now inversion H.
  - apply comp_bind_ok in H. destruct H as (clf & _ & H).
    apply comp_bind_ok in H. destruct H as (a & _ & H).
    apply lift_ok in H. now inversion H.
Qed.

Lemma kfold_folds_X_test (fuel : nat) (self : kfold_classifier) (reg : Q) :
  forall (folds : list (list nat * list nat)) (st st' : kfold_locals),
    kfold_folds fuel self reg folds st = Some (Ok st') ->
    X_test_after self folds (kl_X_test st) (kl_X_test st').
Proof.
  induction folds as [|fold folds IH]; intros st st' H; cbn in H.
  - apply lift_ok in H. inversion H; subst. now left.
  - apply comp_bind_ok in H. destruct H as (st1 & Hf & H).
    destruct (kfold_fold_X_test _ _ _ _ _ _ Hf) as (rows & Hg & Hx).
    right. destruct (IH _ _ H) as [(-> & Hsame)|(init & f & rs & -> & Hr
                                                 & Hx')].
    + exists [], fold, rows. repeat split; [exact Hg | congruence].
    + exists (fold :: init), f, rs. repeat split; assumption.
Qed.

Lemma kfold_candidate_X_test (fuel : nat) (self : kfold_classifier)
      (st st' : kfold_locals * list Q) (reg : Q) :
  kfold_candidate fuel self st reg = Some (Ok st') ->
  exists folds,
    skf_split (kc_k self) (kc_seed self)
              (fst (kc_train self)) (snd (kc_train self)) = Ok folds /\
    X_test_after self folds (kl_X_test (fst st)) (kl_X_test (fst st')).
Proof.
  unfold kfold_candidate. intros H.
  apply comp_bind_ok in H. destruct H as (folds & Hs & H).
  apply comp_bind_ok in H. destruct H as (st1 & Hf & H).
  apply lift_ok in H, Hs. inversion H; subst st'. clear H.
  exists folds. split; [exact Hs|].
  exact (kfold_folds_X_test _ _ _ _ _ _ Hf).
Qed.

Lemma kfold_scores_X_test (fuel : nat) (self : kfold_classifier) :
  forall (rs : list Q) (st st' : kfold_locals * list Q),
    rs <> [] ->
    kfold_scores fuel self rs st = Some (Ok st') ->
    exists folds,
      skf_split (kc_k self) (kc_seed self)
                (fst (kc_train self)) (snd (kc_train self)) = Ok folds /\
      X_test_after self folds (kl_X_test (fst st)) (kl_X_test (fst st')).
Proof.
  induction rs as [|reg rs IH]; intros st st' Hne H; [congruence|].
  cbn in H. apply comp_bind_ok in H. destruct H as (st1 & Hc & H).
  destruct (kfold_candidate_X_test _ _ _ _ _ Hc) as (folds & Hs & D1).
  exists folds. split; [exact Hs|].
  destruct rs as [|reg' rs].
  - cbn in H. apply lift_ok in H. inversion H; subst. exact D1.
  - destruct (IH st1 st' ltac:(discriminate) H) as (folds' & Hs' & D2).
    assert (folds' = folds) by congruence. subst folds'.
    destruct D2 as [(-> & Hsame)|D2]; [|now right].
    destruct D1 as [(_ & Hsame1)|(init & f & rows & Hnil & _)].
    + left. split; [reflexivity | congruence].
    + now destruct init.
Qed.

(** A call of [run] that returns has scored the candidates, selected one
    of them and evaluated a classifier trained with it. *)
Lemma KFoldClassifier_run_inv
      (fuel : nat) (self : kfold_classifier) (h h' : @heap Weights)
      (dev test : Q) (yhat : list Z) :
  KFoldClassifier_run fuel self h = Some (Ok (h', (dev, test, yhat))) ->
  exists st reg a,
    kfold_scores fuel self
      (regs KFoldClassifier (kc_usepytorch self) false)
      ({| kl_heap := h; kl_scanscores := []; kl_X_test := None |}, [])
    = Some (Ok st) /\
    In reg (regs KFoldClassifier (kc_usepytorch self) false) /\
    kfold_evaluate fuel self (fst st) reg = Some (Ok (h', (a, yhat))) /\
    test = round_percent a.
Proof.
  unfold KFoldClassifier_run. intros H.
  apply comp_bind_ok in H. destruct H as (st & Hs & H).
  apply comp_bind_ok in H. destruct H as (reg & Hreg & H).
  apply comp_bind_ok in H. destruct H as (dev' & Hdev & H).
  apply comp_bind_ok in H. destruct H as ([h2 [a yhat']] & He & H).
  apply lift_ok in H, Hreg. inversion H; subst h2 dev' test yhat'. clear H.
  unfold optreg in Hreg. apply bind_ok in Hreg.
  destruct Hreg as (i & _ & Hreg). unfold list_item in Hreg.
  destruct (nth_error _ i) as [r|] eqn:Er; [|discriminate].
  inversion Hreg; subst r. clear Hreg.
  exists st, reg, a. split; [exact Hs|].
  split; [eapply nth_error_In; eauto|]. auto.
Qed.

(** X21. With sklearn, the predictions [yhat] that [KFoldClassifier.run]
    returns are not those of the test set: the argument of [predict] is the
    local [X_test], which the loop over the folds bound last to the test
    rows of the last fold of the training set.  [testaccuracy] is the
    rounded accuracy of the same classifier on the test set. *)
Theorem kfold_sklearn_predicts_last_fold
        (fuel : nat) (self : kfold_classifier) (h h' : @heap Weights)
        (dev test : Q) (yhat : list Z) :
  kc_usepytorch self = false ->
  KFoldClassifier_run fuel self h = Some (Ok (h', (dev, test, yhat))) ->
  exists init fold rows reg clf a,
    skf_split (kc_k self) (kc_seed self)
              (fst (kc_train self)) (snd (kc_train self))
    = Ok (init ++ [fold]) /\
    gather (fst (kc_train self)) (snd fold) = Ok rows /\
    logreg_fit reg (kc_seed self)
               (fst (kc_train self)) (snd (kc_train self)) = Ok clf /\
    logreg_predict clf rows = Ok yhat /\
    logreg_score clf (fst (kc_test self)) (snd (kc_test self)) = Ok a /\
    test = round_percent a.
Proof.
  intros Hu H.
  destruct (KFoldClassifier_run_inv _ _ _ _ _ _ _ H)
    as (st & reg & a & Hs & _ & He & ->).
  destruct (kfold_scores_X_test _ _ _ _ _
              (regs_nonempty KFoldClassifier (kc_usepytorch self) false) Hs)
    as (folds & Hsplit & D).
  unfold kfold_evaluate in He. rewrite Hu in He.
  apply comp_bind_ok in He. destruct He as (clf & Hclf & He).
  apply comp_bind_ok in He. destruct He as (a' & Ha & He).
  apply comp_bind_ok in He. destruct He as (X_test & HX & He).
  apply comp_bind_ok in He. destruct He as (yhat' & Hy & He).
  apply lift_ok in He, Hclf, Ha, HX, Hy.
  inversion He; subst h' a' yhat'. clear He.
  destruct D as [(_ & Hnone)|(init & fold & rows & -> & Hg & Hx)].
  - cbn in Hnone. rewrite Hnone in HX. discriminate.
  - rewrite Hx in HX. inversion HX; subst X_test.
    exists init, fold, rows, reg, clf, a. auto 10.
Qed.

(** X22. With pytorch, [KFoldClassifier.run] predicts on the test set
    with the classifier that it scores there: [yhat] has one class for
    each row of the test set, and [testaccuracy] is the rounded fraction
    of the rows on which [yhat] agrees with the test labels. *)
Theorem kfold_pytorch_yhat_matches_testaccuracy
        (fuel : nat) (self : kfold_classifier) (h h' : @heap Weights)
        (dev test : Q) (yhat : list Z) :
  kc_usepytorch self = true ->
  0 < get_default (cc_batch_size (kc_classifier_config self)) 64 ->
  fst (kc_test self) <> [] ->
  length (fst (kc_test self)) = length (snd (kc_test self)) ->
  KFoldClassifier_run fuel self h = Some (Ok (h', (dev, test, yhat))) ->
  length yhat = length (fst (kc_test self)) /\
  test = round_percent (count_eq yhat (snd (kc_test self))
                        # Pos.of_nat (length (fst (kc_test self)))).
Proof.
  intros Hu Hbs Hne Hlen H.
  destruct (KFoldClassifier_run_inv _ _ _ _ _ _ _ H)
    as (st & reg & a & _ & _ & He & ->).
  unfold kfold_evaluate in He. rewrite Hu in He.
  apply comp_bind_ok in He. destruct He as ([hc m] & Hm & He).
  apply comp_bind_ok in He. destruct He as ([[h2 t2] best] & Hf & He).
  apply comp_bind_ok in He. destruct He as ([h3 a'] & Hs & He).
  apply comp_bind_ok in He. destruct He as ([h4 yhat'] & Hp & He).
  apply lift_ok in He, Hm, Hs, Hp. cbn [fst snd] in *.
  inversion He; subst h4 a' yhat'. clear He.
  assert (Hb : batch_size t2
               = get_default (cc_batch_size (kc_classifier_config self)) 64).
  { rewrite (fit_keeps_batch_size forward row_argmax np_permutation
               train_step _ _ _ _ _ _ _ _ _ _ _ Hf).
    unfold MLP_init in Hm. apply bind_ok in Hm.
    destruct Hm as (wa & _ & Hm). now inversion Hm. }
  unfold score in Hs. unfold predict in Hp.
  rewrite Hb, score_on_eq in Hs by assumption.
  rewrite Hb, predict_on_eq in Hp by assumption.
  cbn [bind] in Hs, Hp.
  inversion Hs; subst h3 a. clear Hs. inversion Hp; subst h' yhat. clear Hp.
  rewrite !Nat.eqb_refl. cbn [weights]. split; [|reflexivity].
  unfold predict_batch. now rewrite !length_map.
Qed.

(** *** Properties of [InnerKFoldClassifier.run] *)

(** The object [self] with other lists of results. *)
Definition with_results (self : inner_kfold_classifier)
           (devresults testresults : list Q) : inner_kfold_classifier :=
  {| ic_X := ic_X self; ic_y := ic_y self; ic_featdim := ic_featdim self;
     ic_nclasses := ic_nclasses self; ic_seed := ic_seed self;
     ic_max_iter := ic_max_iter self;
     ic_devresults := devresults;
     ic_testresults := testresults;
     ic_usepytorch := ic_usepytorch self;
     ic_classifier_config := ic_classifier_config self;
     ic_modelname := ic_modelname self; ic_k := ic_k self |}.

Lemma outer_fold_spec (fuel : nat)
      (st st' : @heap Weights * inner_kfold_classifier)
      (fold : list nat * list nat) :
  outer_fold fuel st fold = Some (Ok st') ->
  exists d t,
    snd st' = with_results (snd st) (ic_devresults (snd st) ++ [d])
                           (ic_testresults (snd st) ++ [t]).
Proof.
  unfold outer_fold. intros H.
  apply comp_bind_ok in H. destruct H as (X_train & _ & H).
  apply comp_bind_ok in H. destruct H as (X_test & _ & H).
  apply comp_bind_ok in H. destruct H as (y_train & _ & H).
  apply comp_bind_ok in H. destruct H as (y_test & _ & H).
  apply comp_bind_ok in H. destruct H as (hs & _ & H).
  apply comp_bind_ok in H. destruct H as (reg & _ & H).
  apply comp_bind_ok in H. destruct H as (best & _ & H).
  unfold inner_evaluate in H.
  cbn [append_devresults ic_usepytorch] in H.
  destruct (ic_usepytorch (snd st)).
  - apply comp_bind_ok in H. destruct H as (hc & _ & H).
    apply comp_bind_ok in H. destruct H as (r & _ & H).
    apply comp_bind_ok in H. destruct H as (ha & _ & H).
    apply lift_ok in H. inversion H; subst st'. cbn [snd].
    do 2 eexists. reflexivity.
  - apply comp_bind_ok in H. destruct H as (clf & _ & H).
    apply comp_bind_ok in H. destruct H as (a & _ & H).
    apply lift_ok in H. inversion H; subst st'. cbn [snd].
    do 2 eexists. reflexivity.
Qed.

Lemma outer_folds_spec (fuel : nat) :
  forall (folds : list (list nat * list nat))
         (st st' : @heap Weights * inner_kfold_classifier),
    outer_folds fuel folds st = Some (Ok st') ->
    exists newdev newtest,
      length newdev = length folds /\ length newtest = length folds /\
      snd st' = with_results (snd st) (ic_devresults (snd st) ++ newdev)
                             (ic_testresults (snd st) ++ newtest).
Proof.
  induction folds as [|fold folds IH]; intros st st' H; cbn in H.
  - apply lift_ok in H. inversion H; subst st'. exists [], [].
    rewrite !app_nil_r. destruct st as [h self]. now destruct self.
  - apply comp_bind_ok in H. destruct H as (st1 & Hf & H).
    destruct (outer_fold_spec _ _ _ _ Hf) as (d & t & H1).
    destruct (IH _ _ H) as (newdev & newtest & Hd & Ht & H2).
    exists (d :: newdev), (t :: newtest).
    split; [cbn; lia|]. split; [cbn; lia|].
    rewrite H2, H1. cbn. now rewrite <- !app_assoc.
Qed.

(** X23. [InnerKFoldClassifier.run] appends to the lists [devresults] and
    [testresults] of the object, one result for each outer fold, and
    changes nothing else of it; the accuracies that it returns are the
    rounded means of the whole lists, so that a call on an object whose
    lists are not empty, as a first call leaves them, averages over the
    results of the earlier calls as well. *)
Theorem inner_kfold_run_accumulates
        (fuel : nat) (self self' : inner_kfold_classifier)
        (h h' : @heap Weights) (dev test : Q) :
  InnerKFoldClassifier_run fuel self h = Some (Ok (h', self', (dev, test))) ->
  exists folds newdev newtest,
    skf_split (ic_k self) 1111 (ic_X self) (ic_y self) = Ok folds /\
    length newdev = length folds /\ length newtest = length folds /\
    self' = with_results self (ic_devresults self ++ newdev)
                         (ic_testresults self ++ newtest) /\
    dev = py_round2 (np_mean (ic_devresults self ++ newdev)) /\
    test = py_round2 (np_mean (ic_testresults self ++ newtest)).
Proof.
  unfold InnerKFoldClassifier_run. intros H.
  apply comp_bind_ok in H. destruct H as (folds & Hs & H).
  apply comp_bind_ok in H. destruct H as ([h1 self1] & Ho & H).
  apply lift_ok in H, Hs. inversion H; subst h1 self1 dev test. clear H.
  destruct (outer_folds_spec _ _ _ _ Ho) as (newdev & newtest & Hd & Ht & E).
  cbn [fst snd] in *. exists folds, newdev, newtest.
  rewrite E. cbn. auto 10.
Qed.

(** *** The evaluation with [validation_split=0.05] *)

Lemma int_times_twentieth (n : nat) :
  (n < 20)%nat -> int_times validation_split_eval n = Ok 0.
Proof.
  intros H.
  do 20 (destruct n as [|n]; [vm_compute; reflexivity|]). lia.
Qed.

(** A classifier trained on fewer than twenty rows with
    [validation_split=0.05] has an empty validation set: [fit] does not
    return. *)
Lemma fit_twentieth_never_returns
      (fuel : nat) (h : @heap Weights) (t : @trainer Weights Aux)
      (X : list Example) (y : list Z)
      (r : @heap Weights * @trainer Weights Aux * Q) :
  (length X < 20)%nat ->
  fit forward row_argmax np_permutation train_step fuel h t X y
      None (Some validation_split_eval) true <> Some (Ok r).
Proof.
  intros Hlen H. destruct r as [[h' t'] best].
  destruct (fit_returns_inv _ _ _ _ _ _ _ _ _ _ _ _ _ _ _ H)
    as (t1 & train & dev & n & st & l & Hps & _).
  revert H. eapply fit_never_returns_on_empty_dev; [exact Hps|].
  eapply prepare_split_small_fraction; [|exact Hps].
  now apply int_times_twentieth.
Qed.

Lemma kfold_small_training_set_not_ok
        (fuel : nat) (self : kfold_classifier) (h : @heap Weights) :
  kc_usepytorch self = true ->
  (length (fst (kc_train self)) < 20)%nat ->
  forall r, KFoldClassifier_run fuel self h <> Some (Ok r).
Proof.
  intros Hu Hlen [h' [[dev test] yhat]] H.
  destruct (KFoldClassifier_run_inv _ _ _ _ _ _ _ H)
    as (st & reg & a & _ & _ & He & _).
  unfold kfold_evaluate in He. rewrite Hu in He.
  apply comp_bind_ok in He. destruct He as (hc & _ & He).
  apply comp_bind_ok in He. destruct He as (r & Hf & _).
  revert Hf. now apply fit_twentieth_never_returns.
Qed.

(** X24. With pytorch, [KFoldClassifier.run] does not return on a training
    set of fewer than twenty rows: the last classifier is trained with
    [validation_split=0.05], which leaves it no validation row, so that
    the call raises, unless it is still running. *)
Theorem kfold_pytorch_small_training_set
        (fuel : nat) (self : kfold_classifier) (h : @heap Weights) :
  kc_usepytorch self = true ->
  (length (fst (kc_train self)) < 20)%nat ->
  KFoldClassifier_run fuel self h = None \/
  exists e, KFoldClassifier_run fuel self h = Some (Raise e).
Proof.
  intros Hu Hlen.
  pose proof (kfold_small_training_set_not_ok fuel self h Hu Hlen) as H.
  destruct (KFoldClassifier_run fuel self h) as [[r|e]|]; eauto.
  now destruct (H r).
Qed.

Lemma inner_kfold_small_fold_not_ok
        (fuel : nat) (self : inner_kfold_classifier) (h : @heap Weights)
        (fold : list nat * list nat) (folds : list (list nat * list nat)) :
  ic_usepytorch self = true ->
  skf_split (ic_k self) 1111 (ic_X self) (ic_y self) = Ok (fold :: folds) ->
  (length (fst fold) < 20)%nat ->
  forall r, InnerKFoldClassifier_run fuel self h <> Some (Ok r).
Proof.
  intros Hu Hs Hlen r H. unfold InnerKFoldClassifier_run in H.
  rewrite Hs in H. cbn [lift comp_bind outer_folds] in H.
  apply comp_bind_ok in H. destruct H as (st & H & _).
  apply comp_bind_ok in H. destruct H as (st1 & H & _).
  unfold outer_fold in H. cbn [fst snd] in H.
  apply comp_bind_ok in H. destruct H as (X_train & HX & H).
  apply comp_bind_ok in H. destruct H as (X_test & _ & H).
  apply comp_bind_ok in H. destruct H as (y_train & _ & H).
  apply comp_bind_ok in H. destruct H as (y_test & _ & H).
  apply comp_bind_ok in H. destruct H as (hs & _ & H).
  apply comp_bind_ok in H. destruct H as (reg & _ & H).
  apply comp_bind_ok in H. destruct H as (best & _ & H).
  unfold inner_evaluate in H.
  cbn [append_devresults ic_usepytorch] in H. rewrite Hu in H.
  apply comp_bind_ok in H. destruct H as (hc & _ & H).
  apply comp_bind_ok in H. destruct H as (r' & Hf & _).
  apply lift_ok in HX. apply gather_length in HX.
  revert Hf. apply fit_twentieth_never_returns. now rewrite HX.
Qed.

(** X25. With pytorch, [InnerKFoldClassifier.run] does not return when the
    first outer fold has fewer than twenty training rows, for the same
    reason: it raises, unless it is still running. *)
Theorem inner_kfold_pytorch_small_fold
        (fuel : nat) (self : inner_kfold_classifier) (h : @heap Weights)
        (fold : list nat * list nat) (folds : list (list nat * list nat)) :
  ic_usepytorch self = true ->
  skf_split (ic_k self) 1111 (ic_X self) (ic_y self) = Ok (fold :: folds) ->
  (length (fst fold) < 20)%nat ->
  InnerKFoldClassifier_run fuel self h = None \/
  exists e, InnerKFoldClassifier_run fuel self h = Some (Raise e).
Proof.
  intros Hu Hs Hlen.
  pose proof (inner_kfold_small_fold_not_ok fuel self h fold folds Hu Hs
                Hlen) as H.
  destruct (InnerKFoldClassifier_run fuel self h) as [[r|e]|]; eauto.
  now destruct (H r).
Qed.

(** *** The scores of the candidates of [KFoldClassifier.run] *)

(** [a] is the accuracy of the candidate [reg] on a fold: that of a new
    classifier, trained on the training rows of the fold, on its test
    rows.  With pytorch the classifier is an [MLP], allocated in some heap,
    which [fit] validates on the test rows. *)
Definition fold_accuracy (fuel : nat) (self : kfold_classifier) (reg : Q)
           (fold : list nat * list nat) (a : Q) : Prop :=
  exists X_train y_train X_test y_test,
    gather (fst (kc_train self)) (fst fold) = Ok X_train /\
    gather (snd (kc_train self)) (fst fold) = Ok y_train /\
    gather (fst (kc_train self)) (snd fold) = Ok X_test /\
    gather (snd (kc_train self)) (snd fold) = Ok y_test /\
    if kc_usepytorch self then
      exists h0 hc m r h3,
        MLP_init h0 (kc_classifier_config self) (kc_featdim self)
                 (kc_nclasses self) reg 64 (kc_seed self) "cpu"%string
        = Ok (hc, m) /\
        fit forward row_argmax np_permutation train_step fuel hc
            (mlp_self m) X_train y_train (Some (X_test, y_test)) None true
        = Some (Ok r) /\
        score forward row_argmax (fst (fst r)) (snd (fst r)) X_test y_test
        = Ok (h3, a)
    else
      exists clf,
        logreg_fit reg (kc_seed self) X_train y_train = Ok clf /\
        logreg_score clf X_test y_test = Ok a.

Lemma kfold_fold_scanscores (fuel : nat) (self : kfold_classifier) (reg : Q)
      (st st' : kfold_locals) (fold : list nat * list nat) :
  kfold_fold fuel self reg st fold = Some (Ok st') ->
  exists a, kl_scanscores st' = kl_scanscores st ++ [a] /\
            fold_accuracy fuel self reg fold a.
Proof.
  unfold kfold_fold, fold_accuracy. intros H.
  apply comp_bind_ok in H. destruct H as (X_train & H1 & H).
  apply comp_bind_ok in H. destruct H as (y_train & H2 & H).
  apply comp_bind_ok in H. destruct H as (X_test & H3 & H).
  apply comp_bind_ok in H. destruct H as (y_test & H4 & H).
  apply lift_ok in H1, H2, H3, H4.
  destruct (kc_usepytorch self).
  - apply comp_bind_ok in H. destruct H as ([hc m] & Hm & H).
    apply comp_bind_ok in H. destruct H as (r & Hf & H).
    apply comp_bind_ok in H. destruct H as ([h3 a] & Hs & H).
    apply lift_ok in H, Hm, Hs. inversion H; subst st'. cbn.
    exists a. split; [reflexivity|].
    exists X_train, y_train, X_test, y_test. do 4 (split; [assumption|]).
    exists (kl_heap st), hc, m, r, h3. auto.
  - apply comp_bind_ok in H. destruct H as (clf & Hc & H).
    apply comp_bind_ok in H. destruct H as (a & Ha & H).
    apply lift_ok in H, Hc, Ha. inversion H; subst st'. cbn.
    exists a. split; [reflexivity|].
    exists X_train, y_train, X_test, y_test. do 4 (split; [assumption|]).
    exists clf. auto.
Qed.

Lemma kfold_folds_scanscores (fuel : nat) (self : kfold_classifier)
      (reg : Q) :
  forall (folds : list (list nat * list nat)) (st st' : kfold_locals),
    kfold_folds fuel self reg folds st = Some (Ok st') ->
    exists new,
      Forall2 (fold_accuracy fuel self reg) folds new /\
      kl_scanscores st' = kl_scanscores st ++ new.
Proof.
  induction folds as [|fold folds IH]; intros st st' H; cbn in H.
  - apply lift_ok in H. inversion H; subst. exists [].
    split; [constructor | now rewrite app_nil_r].
  - apply comp_bind_ok in H. destruct H as (st1 & Hf & H).
    destruct (kfold_fold_scanscores _ _ _ _ _ _ Hf) as (a & Ha & Hacc).
    destruct (IH _ _ H) as (new & HF & Hnew).
    exists (a :: new). split; [constructor; assumption|].
    rewrite Hnew, Ha. now rewrite <- app_assoc.
Qed.

(** A score of [KFoldClassifier.run] for the candidate [reg]: the rounded
    mean of the accuracies of the candidate on the folds, in the order of
    the folds. *)
Definition mean_over_folds (fuel : nat) (self : kfold_classifier)
           (folds : list (list nat * list nat)) (reg : Q) (s : Q) : Prop :=
  exists accs, Forall2 (fold_accuracy fuel self reg) folds accs /\
               s = round_percent (np_mean accs).

Lemma kfold_scores_spec (fuel : nat) (self : kfold_classifier)
      (folds : list (list nat * list nat)) :
  skf_split (kc_k self) (kc_seed self)
            (fst (kc_train self)) (snd (kc_train self)) = Ok folds ->
  forall (rs : list Q) (st st' : kfold_locals * list Q),
    kfold_scores fuel self rs st = Some (Ok st') ->
    exists new,
      snd st' = snd st ++ new /\
      Forall2 (mean_over_folds fuel self folds) rs new.
Proof.
  intros Hs. induction rs as [|reg rs IH]; intros st st' H; cbn in H.
  - apply lift_ok in H. inversion H; subst. exists [].
    rewrite app_nil_r. auto.
  - apply comp_bind_ok in H. destruct H as (st1 & Hc & H).
    unfold kfold_candidate in Hc. rewrite Hs in Hc.
    cbn [lift comp_bind] in Hc.
    apply comp_bind_ok in Hc. destruct Hc as (st2 & Hf & Hc).
    apply lift_ok in Hc. inversion Hc; subst st1. clear Hc.
    destruct (kfold_folds_scanscores _ _ _ _ _ _ Hf) as (accs & HF2 & Ha).
    cbn [kl_scanscores app] in Ha.
    destruct (IH _ _ H) as (new & Hnew & HF).
    cbn [snd] in Hnew.
    exists (round_percent (np_mean (kl_scanscores st2)) :: new).
    split; [rewrite Hnew; now rewrite <- app_assoc|].
    constructor; [|exact HF]. exists accs. rewrite Ha. auto.
Qed.

(** X27. When [KFoldClassifier.run] returns, the loop over the candidates
    has returned one score for each candidate, in the order of the
    candidates.  The score of a candidate is the rounded mean of its
    accuracies on the folds of the split, one for each fold and in their
    order (the list of the accuracies starts empty for every candidate),
    where the accuracy on a fold is that of a new classifier trained with
    the candidate on the training rows of the fold and scored on its test
    rows.  [devaccuracy] is the largest score, reached first at the
    position of the candidate with which the last classifier is trained. *)
Theorem kfold_run_scores_are_means_over_folds
        (fuel : nat) (self : kfold_classifier) (h h' : @heap Weights)
        (dev test : Q) (yhat : list Z) :
  KFoldClassifier_run fuel self h = Some (Ok (h', (dev, test, yhat))) ->
  exists folds st scores i reg a,
    skf_split (kc_k self) (kc_seed self)
              (fst (kc_train self)) (snd (kc_train self)) = Ok folds /\
    kfold_scores fuel self
      (regs KFoldClassifier (kc_usepytorch self) false)
      ({| kl_heap := h; kl_scanscores := []; kl_X_test := None |}, [])
    = Some (Ok (st, scores)) /\
    Forall2 (mean_over_folds fuel self folds)
            (regs KFoldClassifier (kc_usepytorch self) false) scores /\
    nth_error scores i = Some dev /\
    (forall j w, nth_error scores j = Some w -> (w <= dev)%Q) /\
    (forall j w, (j < i)%nat -> nth_error scores j = Some w -> (w < dev)%Q) /\
    nth_error (regs KFoldClassifier (kc_usepytorch self) false) i
    = Some reg /\
    kfold_evaluate fuel self st reg = Some (Ok (h', (a, yhat))) /\
    test = round_percent a.
Proof.
  unfold KFoldClassifier_run. intros H.
  apply comp_bind_ok in H. destruct H as ([st scores] & Hs & H).
  apply comp_bind_ok in H. destruct H as (reg & Hreg & H).
  apply comp_bind_ok in H. destruct H as (dev' & Hdev & H).
  apply comp_bind_ok in H. destruct H as ([h2 [a yhat']] & He & H).
  apply lift_ok in H, Hreg, Hdev. inversion H; subst h2 dev' test yhat'.
  clear H. cbn [fst snd] in *.
  destruct (kfold_scores_X_test _ _ _ _ _
              (regs_nonempty KFoldClassifier (kc_usepytorch self) false) Hs)
    as (folds & Hsplit & _).
  destruct (kfold_scores_spec _ _ _ Hsplit _ _ _ Hs)
    as (new & Hnew & HF).
  cbn [snd app] in Hnew. subst new.
  unfold optreg in Hreg. apply bind_ok in Hreg.
  destruct Hreg as (i & Hi & Hreg). unfold list_item in Hreg.
  destruct (nth_error _ i) as [r|] eqn:Er; [|discriminate].
  inversion Hreg; subst r. clear Hreg.
  destruct (np_argmax_max _ _ Hi) as (v & Hv & Hnth & Hmax & Hfirst).
  assert (v = dev) by congruence. subst v.
  exists folds, st, scores, i, reg, a. auto 12.
Qed.

(** *** The selection of the three strategies *)

(** [i] is the first position of the table [scores] that holds its largest
    score, [v]. *)
Definition first_maximum (scores : list Q) (i : nat) (v : Q) : Prop :=
  nth_error scores i = Some v /\
  (forall j w, nth_error scores j = Some w -> (w <= v)%Q) /\
  (forall j w, (j < i)%nat -> nth_error scores j = Some w -> (w < v)%Q).

Lemma first_maximum_unique (scores : list Q) (i i' : nat) (v v' : Q) :
  first_maximum scores i v -> first_maximum scores i' v' ->
  i = i' /\ v = v'.
Proof.
  intros (Hv & Hmax & Hfirst) (Hv' & Hmax' & Hfirst').
  assert (Hi : i = i').
  { destruct (Nat.lt_trichotomy i i') as [Hlt|[Heq|Hgt]]; [|exact Heq|].
    - exfalso. pose proof (Hfirst' _ _ Hlt Hv) as H1.
      pose proof (Hmax _ _ Hv') as H2.
      exact (Qlt_not_le _ _ H1 H2).
    - exfalso. pose proof (Hfirst _ _ Hgt Hv') as H1.
      pose proof (Hmax' _ _ Hv) as H2.
      exact (Qlt_not_le _ _ H1 H2). }
  subst i'. split; [reflexivity | congruence].
Qed.

(** The selection on a table with one score for each candidate. *)
Lemma select_first_maximum (s : strategy) (usepytorch noreg : bool)
      (scores : list Q) :
  length scores = length (regs s usepytorch noreg) ->
  exists i reg v,
    first_maximum scores i v /\
    nth_error (regs s usepytorch noreg) i = Some reg /\
    optreg s usepytorch noreg scores = Ok reg /\
    np_max scores = Ok v.
Proof.
  intros Hlen.
  assert (Hne : scores <> []).
  { intros ->. pose proof (regs_nonempty s usepytorch noreg) as Hr.
    destruct (regs s usepytorch noreg); [congruence | discriminate]. }
  destruct (np_argmax_first_max scores Hne) as (i & v0 & Hi & _).
  destruct (np_argmax_max _ _ Hi) as (v & Hv & Hnth & Hmax & Hfirst).
  destruct (nth_error (regs s usepytorch noreg) i) as [reg|] eqn:Hr.
  2:{ apply nth_error_None in Hr.
      assert (i < length scores)%nat by (apply nth_error_Some; congruence).
      lia. }
  exists i, reg, v. split; [repeat split; assumption|].
  split; [exact Hr|]. split; [|exact Hv].
  unfold optreg, list_item. rewrite Hi. cbn [bind]. now rewrite Hr.
Qed.

Lemma kfold_scores_length (fuel : nat) (self : kfold_classifier) :
  forall (rs : list Q) (st st' : kfold_locals * list Q),
    kfold_scores fuel self rs st = Some (Ok st') ->
    length (snd st') = (length (snd st) + length rs)%nat.
Proof.
  induction rs as [|reg rs IH]; intros st st' H; cbn [kfold_scores] in H.
  - apply lift_ok in H. inversion H; subst. cbn. lia.
  - apply comp_bind_ok in H. destruct H as (st1 & Hc & H).
    rewrite (IH _ _ H).
    unfold kfold_candidate in Hc.
    apply comp_bind_ok in Hc. destruct Hc as (folds & _ & Hc).
    apply comp_bind_ok in Hc. destruct Hc as (st2 & _ & Hc).
    apply lift_ok in Hc. inversion Hc; subst st1. cbn [snd].
    rewrite length_app. cbn. lia.
Qed.

Lemma split_scores_length (fuel : nat) (self : split_classifier) :
  forall (rs : list Q) (h h' : @heap Weights) (scores0 scores : list Q),
    split_scores fuel self rs h scores0 = Some (Ok (h', scores)) ->
    length scores = (length scores0 + length rs)%nat.
Proof.
  intros rs h h' scores0 scores H.
  destruct (split_scores_spec _ _ _ _ _ _ _ H) as (new & -> & HF).
  rewrite length_app, (Forall2_length HF). reflexivity.
Qed.

Lemma inner_scores_length (fuel : nat) (self : inner_kfold_classifier)
      (X_train : list Example) (y_train : list Z) :
  forall (rs : list Q) (st st' : @heap Weights * list Q),
    inner_scores fuel self X_train y_train rs st = Some (Ok st') ->
    length (snd st') = (length (snd st) + length rs)%nat.
Proof.
  induction rs as [|reg rs IH]; intros st st' H; cbn [inner_scores] in H.
  - apply lift_ok in H. inversion H; subst. cbn. lia.
  - apply comp_bind_ok in H. destruct H as (st1 & Hc & H).
    rewrite (IH _ _ H).
    unfold inner_candidate in Hc.
    apply comp_bind_ok in Hc. destruct Hc as (folds & _ & Hc).
    apply comp_bind_ok in Hc. destruct Hc as (hr & _ & Hc).
    apply lift_ok in Hc. inversion Hc; subst st1. cbn [snd].
    rewrite length_app. cbn. lia.
Qed.

(** C6. In each of the three strategies, once the loop over the candidates
    has returned its table of scores, the call goes on as the evaluation of
    one candidate, which the table determines: the candidate at the first
    position of the table that holds the largest score, so that among tied
    maxima the first in list order is chosen; the largest score is the
    validation accuracy that is returned or recorded.
    [SplitClassifier.run] and [KFoldClassifier.run] select once,
    [InnerKFoldClassifier.run] once for each outer fold, in the body of its
    loop and so on the first fold of a call.  The position and the score
    are unique. *)
Theorem optreg_is_first_maximum :
  (forall (fuel : nat) (self : split_classifier) (h h1 : @heap Weights)
          (scores : list Q),
      split_scores fuel self
        (regs SplitClassifier (sc_usepytorch self) (sc_noreg self)) h []
      = Some (Ok (h1, scores)) ->
      exists i reg v,
        first_maximum scores i v /\
        nth_error (regs SplitClassifier (sc_usepytorch self) (sc_noreg self))
                  i = Some reg /\
        SplitClassifier_run fuel self h
        = (ha <-- split_evaluate fuel self h1 reg ;;
           lift (Ok (fst ha, (v, snd ha))))) /\
  (forall (fuel : nat) (self : kfold_classifier) (h : @heap Weights)
          (st : kfold_locals) (scores : list Q),
      kfold_scores fuel self
        (regs KFoldClassifier (kc_usepytorch self) false)
        ({| kl_heap := h; kl_scanscores := []; kl_X_test := None |}, [])
      = Some (Ok (st, scores)) ->
      exists i reg v,
        first_maximum scores i v /\
        nth_error (regs KFoldClassifier (kc_usepytorch self) false) i
        = Some reg /\
        KFoldClassifier_run fuel self h
        = (hay <-- kfold_evaluate fuel self st reg ;;
           lift (Ok (fst hay,
                     (v, round_percent (fst (snd hay)), snd (snd hay)))))) /\
  (forall (fuel : nat) (st : @heap Weights * inner_kfold_classifier)
          (fold : list nat * list nat)
          (X_train X_test : list Example) (y_train y_test : list Z)
          (h1 : @heap Weights) (scores : list Q),
      gather (ic_X (snd st)) (fst fold) = Ok X_train ->
      gather (ic_X (snd st)) (snd fold) = Ok X_test ->
      gather (ic_y (snd st)) (fst fold) = Ok y_train ->
      gather (ic_y (snd st)) (snd fold) = Ok y_test ->
      inner_scores fuel (snd st) X_train y_train
        (regs InnerKFoldClassifier (ic_usepytorch (snd st)) false)
        (fst st, [])
      = Some (Ok (h1, scores)) ->
      exists i reg v,
        first_maximum scores i v /\
        nth_error (regs InnerKFoldClassifier (ic_usepytorch (snd st)) false)
                  i = Some reg /\
        outer_fold fuel st fold
        = inner_evaluate fuel (append_devresults (snd st) v) h1
                         X_train y_train X_test y_test reg) /\
  (forall (fuel : nat) (self : inner_kfold_classifier) (h : @heap Weights)
          (fold : list nat * list nat) (folds : list (list nat * list nat))
          (X_train X_test : list Example) (y_train y_test : list Z)
          (h1 : @heap Weights) (scores : list Q),
      skf_split (ic_k self) 1111 (ic_X self) (ic_y self)
      = Ok (fold :: folds) ->
      gather (ic_X self) (fst fold) = Ok X_train ->
      gather (ic_X self) (snd fold) = Ok X_test ->
      gather (ic_y self) (fst fold) = Ok y_train ->
      gather (ic_y self) (snd fold) = Ok y_test ->
      inner_scores fuel self X_train y_train
        (regs InnerKFoldClassifier (ic_usepytorch self) false) (h, [])
      = Some (Ok (h1, scores)) ->
      exists i reg v,
        first_maximum scores i v /\
        nth_error (regs InnerKFoldClassifier (ic_usepytorch self) false) i
        = Some reg /\
        InnerKFoldClassifier_run fuel self h
        = (st1 <-- inner_evaluate fuel (append_devresults self v) h1
                                  X_train y_train X_test y_test reg ;;
           st <-- outer_folds fuel folds st1 ;;
           lift (Ok (st, (py_round2 (np_mean (ic_devresults (snd st))),
                          py_round2 (np_mean (ic_testresults (snd st)))))))) /\
  (forall (scores : list Q) (i i' : nat) (v v' : Q),
      first_maximum scores i v -> first_maximum scores i' v' ->
      i = i' /\ v = v').
Proof.
  split; [|split; [|split; [|split]]].
  - intros fuel self h h1 scores Hs.
    pose proof (split_scores_length _ _ _ _ _ _ _ Hs) as Hlen.
    cbn [length Nat.add] in Hlen.
    destruct (select_first_maximum _ _ _ _ Hlen)
      as (i & reg & v & Hfm & Hr & Ho & Hm).
    exists i, reg, v. split; [exact Hfm|]. split; [exact Hr|].
    unfold SplitClassifier_run. rewrite Hs. cbn [comp_bind fst snd].
    rewrite Ho, Hm. reflexivity.
  - intros fuel self h st scores Hs.
    pose proof (kfold_scores_length _ _ _ _ _ Hs) as Hlen.
    cbn [length Nat.add snd] in Hlen.
    destruct (select_first_maximum _ _ _ _ Hlen)
      as (i & reg & v & Hfm & Hr & Ho & Hm).
    exists i, reg, v. split; [exact Hfm|]. split; [exact Hr|].
    unfold KFoldClassifier_run. rewrite Hs. cbn [comp_bind fst snd].
    rewrite Ho, Hm. reflexivity.
  - intros fuel st fold X_train X_test y_train y_test h1 scores
           H1 H2 H3 H4 Hs.
    pose proof (inner_scores_length _ _ _ _ _ _ _ Hs) as Hlen.
    cbn [length Nat.add snd] in Hlen.
    destruct (select_first_maximum _ _ _ _ Hlen)
      as (i & reg & v & Hfm & Hr & Ho & Hm).
    exists i, reg, v. split; [exact Hfm|]. split; [exact Hr|].
    unfold outer_fold. rewrite H1, H2, H3, H4. cbn [lift comp_bind].
    rewrite Hs. cbn [comp_bind fst snd].
    rewrite Ho, Hm. reflexivity.
  - intros fuel self h fold folds X_train X_test y_train y_test h1 scores
           Hsplit H1 H2 H3 H4 Hs.
    pose proof (inner_scores_length _ _ _ _ _ _ _ Hs) as Hlen.
    cbn [length Nat.add snd] in Hlen.
    destruct (select_first_maximum _ _ _ _ Hlen)
      as (i & reg & v & Hfm & Hr & Ho & Hm).
    exists i, reg, v. split; [exact Hfm|]. split; [exact Hr|].
    unfold InnerKFoldClassifier_run. rewrite Hsplit.
    cbn [lift comp_bind outer_folds]. unfold outer_fold at 1.
    cbn [fst snd]. rewrite H1, H2, H3, H4. cbn [lift comp_bind].
    rewrite Hs. cbn [comp_bind fst snd].
    rewrite Ho, Hm.
    destruct (inner_evaluate _ _ _ _ _ _ _ _) as [[st1|e]|]; reflexivity.
  - exact first_maximum_unique.
Qed.

End Strategies.
(** ** The strategies on the small classifier

    The library calls are replaced by simple functions.  A new network has
    the weight [floor(100000 * l2reg)], so that the candidates of the
    pytorch strategies start from [1], [10], [100] and [1000]; a fitted
    logistic regression is the threshold [floor(4 * C)], below which a row
    is given the class [1]; the folds are the rows of odd and of even
    index; rounding is exact. *)

Definition toy_floor (q : Q) : Z := Qnum q / Z.pos (Qden q).

Definition toy_torch_init (seed : Z) (device : String.string)
           (layers : list layer) (optim : String.string) (l2reg : Q)
  : result (Z * nat) :=
  Ok (toy_floor (l2reg * (100000 # 1)), O).

Definition toy_shape1 (X : list Z) : Z := 1.

Definition toy_round_percent (x : Q) : Q := Qred ((100 # 1) * x).

Definition toy_py_round2 (x : Q) : Q := Qred x.

Definition toy_np_mean (l : list Q) : Q :=
  Qred (fold_left Qplus l 0%Q / inject_Z (Z.of_nat (length l))).

Definition toy_logreg_fit (C : Q) (seed : Z) (X : list Z) (y : list Z)
  : result Z :=
  Ok (toy_floor (C * (4 # 1))).

Definition toy_logreg_predict (clf : Z) (X : list Z) : result (list Z) :=
  match X with
  | [] => Raise ValueError
  | _ => Ok (map (fun x => if x <=? clf then 1 else 0) X)
  end.

Definition toy_logreg_score (clf : Z) (X : list Z) (y : list Z)
  : result Q :=
  yhat <- toy_logreg_predict clf X ;;
  Ok (count_eq yhat y # Pos.of_nat (length X)).

Definition toy_skf_split (k seed : Z) (X : list Z) (y : list Z)
  : result (list (list nat * list nat)) :=
  let idx := seq 0 (length X) in
  Ok [(filter Nat.odd idx, filter Nat.even idx);
      (filter Nat.even idx, filter Nat.odd idx)].

Definition toy_MLP_init := MLP_init toy_torch_init.

Definition toy_SplitClassifier_run :=
  SplitClassifier_run toy_forward toy_argmax toy_permutation toy_train_step
                      toy_torch_init toy_round_percent
                      toy_logreg_fit toy_logreg_score.

Definition toy_split_scores :=
  split_scores toy_forward toy_argmax toy_permutation toy_train_step
               toy_torch_init toy_round_percent
               toy_logreg_fit toy_logreg_score.

Definition toy_split_evaluate :=
  split_evaluate toy_forward toy_argmax toy_permutation toy_train_step
                 toy_torch_init toy_round_percent
                 toy_logreg_fit toy_logreg_score.

Definition toy_KFoldClassifier_run :=
  KFoldClassifier_run toy_forward toy_argmax toy_permutation toy_train_step
                      toy_torch_init toy_round_percent toy_np_mean
                      toy_logreg_fit toy_logreg_score toy_logreg_predict
                      toy_skf_split.

Definition toy_InnerKFoldClassifier_run :=
  InnerKFoldClassifier_run toy_forward toy_argmax toy_permutation
                           toy_train_step toy_torch_init toy_round_percent
                           toy_py_round2 toy_np_mean
                           toy_logreg_fit toy_logreg_score toy_skf_split.

(** Batch size [1], one pass for each epoch, [max_epoch = 1]: [fit] runs
    two epochs. *)
Definition toy_params : classifier_config :=
  {| cc_nhid := Some 0; cc_optim := None; cc_tenacity := None;
     cc_epoch_size := Some 1; cc_max_epoch := Some 1; cc_dropout := None;
     cc_batch_size := Some 1 |}.

Definition toy_config (usepytorch : bool) : config :=
  {| c_nclasses := Some 2; c_seed := Some 1111; c_max_iter := Some 2;
     c_usepytorch := Some usepytorch; c_classifier := Some toy_params;
     c_kfold := None; c_device := None; c_noreg := None |}.

Definition toy_modelname (usepytorch : bool) : String.string :=
  if usepytorch then "pytorch-MLP-nhid0-adam-bs1"%string
  else "sklearn-LogReg"%string.

Definition toy_Xs : splits (list Z) :=
  Splits [0] [3; 6; 20; 40] [5; 30; 50].

Definition toy_ys : splits (list Z) :=
  Splits [1] [1; 1; 0; 0] [1; 1; 0].

Definition toy_split (usepytorch : bool) : @split_classifier Z :=
  {| sc_X := toy_Xs; sc_y := toy_ys; sc_nclasses := 2; sc_featdim := 1;
     sc_seed := 1111; sc_usepytorch := usepytorch;
     sc_classifier_config := toy_params; sc_device := "cpu"%string;
     sc_modelname := toy_modelname usepytorch; sc_noreg := false;
     sc_config := toy_config usepytorch |}.

(** Twenty rows [0, 10, ..., 190]; the first eleven have the class [1]. *)
Definition toy_ktrain : list Z * list Z :=
  (map (fun i => 10 * Z.of_nat i) (seq 0 20),
   map (fun i => if (i <=? 10)%nat then 1 else 0) (seq 0 20)).

Definition toy_ktest : list Z * list Z := ([5; 30; 500], [1; 1; 0]).

Definition toy_kfold (usepytorch : bool) : @kfold_classifier Z :=
  {| kc_train := toy_ktrain; kc_test := toy_ktest; kc_featdim := 1;
     kc_nclasses := 2; kc_seed := 1111; kc_usepytorch := usepytorch;
     kc_classifier_config := toy_params;
     kc_modelname := toy_modelname usepytorch; kc_k := 5 |}.

Definition toy_inner (usepytorch : bool) : @inner_kfold_classifier Z :=
  {| ic_X := fst toy_ktrain; ic_y := snd toy_ktrain; ic_featdim := 1;
     ic_nclasses := 2; ic_seed := 1111; ic_max_iter := 2;
     ic_devresults := []; ic_testresults := [];
     ic_usepytorch := usepytorch; ic_classifier_config := toy_params;
     ic_modelname := toy_modelname usepytorch; ic_k := 5 |}.

Example toy_strategies_init :
  forall usepytorch,
    SplitClassifier_init toy_shape1 toy_Xs toy_ys (toy_config usepytorch)
    = Init_ok (toy_split usepytorch) /\
    KFoldClassifier_init toy_shape1 toy_ktrain toy_ktest
                         (toy_config usepytorch)
    = Init_ok (toy_kfold usepytorch) /\
    InnerKFoldClassifier_init toy_shape1 (fst toy_ktrain) (snd toy_ktrain)
                              (toy_config usepytorch)
    = Init_ok (toy_inner usepytorch).
Proof. intros [|]; repeat split. Qed.

Definition toy_kfold_scores :=
  kfold_scores toy_forward toy_argmax toy_permutation toy_train_step
               toy_torch_init toy_round_percent toy_np_mean
               toy_logreg_fit toy_logreg_score toy_skf_split.

(** X15, instance: a classifier built with the argument [batch_size = 64]
    from a dictionary whose batch size is [1]. *)
Lemma toy_modelname_describes_the_mlp :
  exists h' m,
    toy_MLP_init toy_heap toy_params 1 2 (1 # 1000) 64 1111 "cpu"%string
    = Ok (h', m) /\
    "pytorch-MLP-nhid0-adam-bs1"%string
    = String.append "pytorch-MLP-nhid"%string
        (String.append (str (mlp_nhid m))
           (String.append "-"%string
              (String.append (mlp_optim m)
                 (String.append "-bs"%string
                    (str (batch_size (mlp_self m))))))) /\
    forall bs',
      toy_MLP_init toy_heap toy_params 1 2 (1 # 1000) bs' 1111 "cpu"%string
      = Ok (h', m).
Proof.
  do 2 eexists. split; [reflexivity|].
  eapply (modelname_describes_the_mlp
           toy_torch_init toy_heap _ toy_params 1 2 (1 # 1000) 64 1111
           "cpu"%string "pytorch-MLP-nhid0-adam-bs1"%string _);
    reflexivity.
Defined.

(** X16, instance: the new module is at location [1], after the module of
    [toy_heap]. *)
Lemma toy_MLP_init_allocates :
  exists h' m,
    toy_MLP_init toy_heap toy_params 1 2 (1 # 1000) 64 1111 "cpu"%string
    = Ok (h', m) /\
    well_shaped 1 (mlp_layers m) 2 /\
    (mlp_nhid m = 0 <-> mlp_layers m = [Linear 1 2]) /\
    model (mlp_self m) = next toy_heap /\ next h' = S (next toy_heap) /\
    (forall l, l <> next toy_heap -> cell h' l = cell toy_heap l) /\
    training (cell h' (next toy_heap)) = true /\
    nepoch (mlp_self m) = 0.
Proof.
  do 2 eexists. split; [reflexivity|].
  eapply (MLP_init_allocates
           toy_torch_init toy_heap _ toy_params 1 2 (1 # 1000) 64 1111
           "cpu"%string _).
  reflexivity.
Defined.

Example toy_MLP_init_value :
  exists h' m,
    toy_MLP_init toy_heap toy_params 1 2 (1 # 1000) 64 1111 "cpu"%string
    = Ok (h', m) /\
    cell h' 1%nat = {| weights := 100; training := true |} /\
    batch_size (mlp_self m) = 1 /\ tenacity (mlp_self m) = 5.
Proof. do 2 eexists. split; [reflexivity|]. repeat split. Qed.

(** X17, instance, with pytorch: the scores of the four candidates are
    [75, 100, 50, 50]; the second candidate is selected. *)
Lemma toy_split_run_selects_first_best_candidate :
  exists h',
    toy_SplitClassifier_run 2 (toy_split true) toy_heap
    = Some (Ok (h', (100, 200 # 3)%Q)) /\
    exists scores i reg h1,
      toy_split_scores 2 (toy_split true)
                       (regs SplitClassifier true false) toy_heap []
      = Some (Ok (h1, scores)) /\
      length scores = length (regs SplitClassifier true false) /\
      nth_error (regs SplitClassifier true false) i = Some reg /\
      nth_error scores i = Some 100%Q /\
      (forall j w, nth_error scores j = Some w -> (w <= 100)%Q) /\
      (forall j w, (j < i)%nat -> nth_error scores j = Some w ->
                   (w < 100)%Q) /\
      toy_split_evaluate 2 (toy_split true) h1 reg
      = Some (Ok (h', (200 # 3)%Q)).
Proof.
  eexists. split; [vm_compute; reflexivity|].
  eapply (split_run_selects_first_best_candidate
           toy_forward toy_argmax toy_permutation toy_train_step
           toy_torch_init toy_round_percent toy_logreg_fit toy_logreg_score
           2 (toy_split true) toy_heap).
  vm_compute. reflexivity.
Defined.

Example toy_split_scores_value :
  exists h1,
    toy_split_scores 2 (toy_split true)
                     (regs SplitClassifier true false) toy_heap []
    = Some (Ok (h1, [75; 100; 50; 50]%Q)) /\
    optreg SplitClassifier true false [75; 100; 50; 50]%Q
    = Ok (1 # 10000)%Q.
Proof. eexists. split; vm_compute; reflexivity. Qed.

(** X18, instance: the same call. *)
Lemma toy_split_run_accuracies_of_one_model :
  exists h',
    toy_SplitClassifier_run 2 (toy_split true) toy_heap
    = Some (Ok (h', (100, 200 # 3)%Q)) /\
    exists reg h1 hc m h2 t2 best acc,
      In reg (regs SplitClassifier true false) /\
      toy_MLP_init h1 toy_params 1 2 reg 64 1111 "cpu"%string
      = Ok (hc, m) /\
      toy_fit 2 hc (mlp_self m) [0] [1]
              (Some ([3; 6; 20; 40], [1; 1; 0; 0])) None true
      = Some (Ok (h2, t2, best)) /\
      100%Q = toy_round_percent best /\
      score toy_forward toy_argmax h2 t2 [5; 30; 50] [1; 1; 0]
      = Ok (h', acc) /\
      (200 # 3)%Q = toy_round_percent acc.
Proof.
  eexists. split; [vm_compute; reflexivity|].
  eapply (split_run_accuracies_of_one_model
           toy_forward toy_argmax toy_permutation toy_train_step
           toy_torch_init toy_round_percent toy_logreg_fit toy_logreg_score
           2 (toy_split true) toy_heap).
  - reflexivity.
  - vm_compute. reflexivity.
Defined.

(** X19, instance, with sklearn: the scores of the six candidates are
    [50, 50, 75, 100, 100, 75]; the fourth candidate is selected. *)
Lemma toy_split_run_sklearn :
  exists h',
    toy_SplitClassifier_run 0 (toy_split false) toy_heap
    = Some (Ok (h', (100, 200 # 3)%Q)) /\
    h' = toy_heap /\
    (forall fuel', toy_SplitClassifier_run fuel' (toy_split false) toy_heap
                   = Some (Ok (toy_heap, (100, 200 # 3)%Q))) /\
    exists reg clf a b,
      In reg (regs SplitClassifier false false) /\
      toy_logreg_fit reg 1111 [0] [1] = Ok clf /\
      toy_logreg_score clf [3; 6; 20; 40] [1; 1; 0; 0] = Ok a /\
      100%Q = toy_round_percent a /\
      toy_logreg_score clf [5; 30; 50] [1; 1; 0] = Ok b /\
      (200 # 3)%Q = toy_round_percent b.
Proof.
  eexists. split; [vm_compute; reflexivity|].
  eapply (split_run_sklearn
           toy_forward toy_argmax toy_permutation toy_train_step
           toy_torch_init toy_round_percent toy_logreg_fit toy_logreg_score
           0 (toy_split false) toy_heap).
  - reflexivity.
  - vm_compute. reflexivity.
Defined.

(** X20, instance: [max_epoch = 1] and a fuel of two iterations. *)
Lemma toy_split_run_returns :
  exists h' dev test,
    toy_SplitClassifier_run 2 (toy_split true) toy_heap
    = Some (Ok (h', (dev, test))).
Proof.
  eapply (split_run_returns
           toy_forward toy_argmax toy_permutation toy_train_step
           toy_torch_init toy_round_percent toy_logreg_fit toy_logreg_score
           2 (toy_split true) toy_heap).
  - reflexivity.
  - reflexivity.
  - reflexivity.
  - discriminate.
  - apply toy_trainable. simpl. lia.
  - discriminate.
  - reflexivity.
  - discriminate.
  - reflexivity.
  - intros reg _. eexists. reflexivity.
  - vm_compute. lia.
Defined.

(** X21, instance, with sklearn: the test set has three rows, and [yhat]
    has ten predictions, for the rows of odd index of the training set. *)
Lemma toy_kfold_sklearn_predicts_last_fold :
  exists h',
    toy_KFoldClassifier_run 0 (toy_kfold false) toy_heap
    = Some (Ok (h', (90%Q, 100%Q, [1; 1; 1; 1; 1; 1; 0; 0; 0; 0]))) /\
    exists init fold rows reg clf a,
      toy_skf_split 5 1111 (fst toy_ktrain) (snd toy_ktrain)
      = Ok (init ++ [fold]) /\
      gather (fst toy_ktrain) (snd fold) = Ok rows /\
      toy_logreg_fit reg 1111 (fst toy_ktrain) (snd toy_ktrain) = Ok clf /\
      toy_logreg_predict clf rows = Ok [1; 1; 1; 1; 1; 1; 0; 0; 0; 0] /\
      toy_logreg_score clf (fst toy_ktest) (snd toy_ktest) = Ok a /\
      100%Q = toy_round_percent a.
Proof.
  eexists. split; [vm_compute; reflexivity|].
  eapply (kfold_sklearn_predicts_last_fold
           toy_forward toy_argmax toy_permutation toy_train_step
           toy_torch_init toy_round_percent toy_np_mean
           toy_logreg_fit toy_logreg_score toy_logreg_predict toy_skf_split
           0 (toy_kfold false) toy_heap _ 90%Q).
  - reflexivity.
  - vm_compute. reflexivity.
Defined.

(** X22, instance, with pytorch, on the twenty training rows. *)
Lemma toy_kfold_pytorch_yhat_matches_testaccuracy :
  exists h',
    toy_KFoldClassifier_run 2 (toy_kfold true) toy_heap
    = Some (Ok (h', (95%Q, 100%Q, [1; 1; 0]))) /\
    length [1; 1; 0] = length (fst toy_ktest) /\
    100%Q = toy_round_percent
              (count_eq [1; 1; 0] (snd toy_ktest)
               # Pos.of_nat (length (fst toy_ktest))).
Proof.
  eexists. split; [vm_compute; reflexivity|].
  eapply (kfold_pytorch_yhat_matches_testaccuracy
           toy_forward toy_argmax toy_permutation toy_train_step
           toy_torch_init toy_round_percent toy_np_mean
           toy_logreg_fit toy_logreg_score toy_logreg_predict toy_skf_split
           2 (toy_kfold true) toy_heap _ 95%Q).
  - reflexivity.
  - reflexivity.
  - discriminate.
  - reflexivity.
  - vm_compute. reflexivity.
Defined.

(** What a call of [InnerKFoldClassifier.run] with sklearn returns on the
    small classifier, when it does. *)
Definition toy_inner_out (self : @inner_kfold_classifier Z) (h : @heap Z)
  : @heap Z * @inner_kfold_classifier Z * (Q * Q) :=
  match toy_InnerKFoldClassifier_run 0 self h with
  | Some (Ok r) => r
  | _ => (h, self, (0, 0)%Q)
  end.

(** X23, instance: a second call of [run], on the object as the first call
    leaves it. *)
Lemma toy_inner_kfold_run_accumulates :
  let r1 := toy_inner_out (toy_inner false) toy_heap in
  let self1 := snd (fst r1) in
  let r2 := toy_inner_out self1 (fst (fst r1)) in
  exists folds newdev newtest,
    toy_skf_split (ic_k self1) 1111 (ic_X self1) (ic_y self1) = Ok folds /\
    length newdev = length folds /\ length newtest = length folds /\
    snd (fst r2) = with_results self1 (ic_devresults self1 ++ newdev)
                                (ic_testresults self1 ++ newtest) /\
    fst (snd r2)
    = toy_py_round2 (toy_np_mean (ic_devresults self1 ++ newdev)) /\
    snd (snd r2)
    = toy_py_round2 (toy_np_mean (ic_testresults self1 ++ newtest)).
Proof.
  cbv zeta.
  eapply (inner_kfold_run_accumulates
            toy_forward toy_argmax toy_permutation toy_train_step
            toy_torch_init toy_round_percent toy_py_round2 toy_np_mean
            toy_logreg_fit toy_logreg_score toy_skf_split
            0 (snd (fst (toy_inner_out (toy_inner false) toy_heap))) _
            (fst (fst (toy_inner_out (toy_inner false) toy_heap))) _).
  vm_compute. reflexivity.
Defined.

Example toy_inner_kfold_second_run_value :
  let r1 := toy_inner_out (toy_inner false) toy_heap in
  let r2 := toy_inner_out (snd (fst r1)) (fst (fst r1)) in
  ic_devresults (snd (fst r1)) = [70; 60]%Q /\
  snd r1 = (65, 65)%Q /\
  ic_devresults (snd (fst r2)) = [70; 60; 70; 60]%Q /\
  ic_testresults (snd (fst r2)) = [60; 70; 60; 70]%Q /\
  snd r2 = (65, 65)%Q.
Proof. repeat split; vm_compute; reflexivity. Qed.

(** The first ten of the training rows. *)
Definition toy_kfold_small : @kfold_classifier Z :=
  {| kc_train := (firstn 10 (fst toy_ktrain), firstn 10 (snd toy_ktrain));
     kc_test := toy_ktest; kc_featdim := 1;
     kc_nclasses := 2; kc_seed := 1111; kc_usepytorch := true;
     kc_classifier_config := toy_params;
     kc_modelname := toy_modelname true; kc_k := 5 |}.

(** X24, instance: ten training rows. *)
Lemma toy_kfold_pytorch_small_training_set :
  toy_KFoldClassifier_run 2 toy_kfold_small toy_heap = None \/
  exists e,
    toy_KFoldClassifier_run 2 toy_kfold_small toy_heap = Some (Raise e).
Proof.
  eapply (kfold_pytorch_small_training_set
            toy_forward toy_argmax toy_permutation toy_train_step
            toy_torch_init toy_round_percent toy_np_mean
            toy_logreg_fit toy_logreg_score toy_logreg_predict toy_skf_split
            2 toy_kfold_small toy_heap).
  - reflexivity.
  - vm_compute. lia.
Defined.

Example toy_kfold_pytorch_small_training_set_value :
  toy_KFoldClassifier_run 2 toy_kfold_small toy_heap
  = Some (Raise ZeroDivisionError).
Proof. vm_compute. reflexivity. Qed.

(** X25, instance: each outer fold of the twenty rows has ten training
    rows. *)
Lemma toy_inner_kfold_pytorch_small_fold :
  toy_InnerKFoldClassifier_run 2 (toy_inner true) toy_heap = None \/
  exists e,
    toy_InnerKFoldClassifier_run 2 (toy_inner true) toy_heap
    = Some (Raise e).
Proof.
  eapply (inner_kfold_pytorch_small_fold
            toy_forward toy_argmax toy_permutation toy_train_step
            toy_torch_init toy_round_percent toy_py_round2 toy_np_mean
            toy_logreg_fit toy_logreg_score toy_skf_split
            2 (toy_inner true) toy_heap
            (filter Nat.odd (seq 0 20), filter Nat.even (seq 0 20))
            [(filter Nat.even (seq 0 20), filter Nat.odd (seq 0 20))]).
  - reflexivity.
  - reflexivity.
  - vm_compute. lia.
Defined.

Definition toy_kfold_evaluate :=
  kfold_evaluate toy_forward toy_argmax toy_permutation toy_train_step
                 toy_torch_init toy_logreg_fit toy_logreg_score
                 toy_logreg_predict.

(** X27, instance, with sklearn: the scores of the seven candidates are
    [50, 50, 50, 55, 65, 80, 90], each the mean over the two folds. *)
Lemma toy_kfold_run_scores_are_means_over_folds :
  exists h',
    toy_KFoldClassifier_run 0 (toy_kfold false) toy_heap
    = Some (Ok (h', (90%Q, 100%Q, [1; 1; 1; 1; 1; 1; 0; 0; 0; 0]))) /\
    exists folds st scores i reg a,
      toy_skf_split 5 1111 (fst toy_ktrain) (snd toy_ktrain) = Ok folds /\
      toy_kfold_scores 0 (toy_kfold false)
        (regs KFoldClassifier false false)
        ({| kl_heap := toy_heap; kl_scanscores := []; kl_X_test := None |},
         [])
      = Some (Ok (st, scores)) /\
      Forall2 (mean_over_folds toy_forward toy_argmax toy_permutation
                 toy_train_step toy_torch_init toy_round_percent toy_np_mean
                 toy_logreg_fit toy_logreg_score 0 (toy_kfold false) folds)
              (regs KFoldClassifier false false) scores /\
      nth_error scores i = Some 90%Q /\
      (forall j w, nth_error scores j = Some w -> (w <= 90)%Q) /\
      (forall j w, (j < i)%nat -> nth_error scores j = Some w ->
                   (w < 90)%Q) /\
      nth_error (regs KFoldClassifier false false) i = Some reg /\
      toy_kfold_evaluate 0 (toy_kfold false) st reg
      = Some (Ok (h', (a, [1; 1; 1; 1; 1; 1; 0; 0; 0; 0]))) /\
      100%Q = toy_round_percent a.
Proof.
  eexists. split; [vm_compute; reflexivity|].
  eapply (kfold_run_scores_are_means_over_folds
            toy_forward toy_argmax toy_permutation toy_train_step
            toy_torch_init toy_round_percent toy_np_mean
            toy_logreg_fit toy_logreg_score toy_logreg_predict toy_skf_split
            0 (toy_kfold false) toy_heap).
  vm_compute. reflexivity.
Defined.

Example toy_kfold_scores_value :
  exists st,
    toy_kfold_scores 0 (toy_kfold false) (regs KFoldClassifier false false)
      ({| kl_heap := toy_heap; kl_scanscores := []; kl_X_test := None |}, [])
    = Some (Ok (st, [50; 50; 50; 55; 65; 80; 90]%Q)).
Proof. eexists. vm_compute. reflexivity. Qed.

(** C6, instance, [SplitClassifier] with sklearn: the scores of the six
    candidates are [50, 50, 75, 100, 100, 75], with a tie between the
    fourth and the fifth candidate; the call goes on with the fourth. *)
Lemma toy_optreg_is_first_maximum :
  toy_split_scores 0 (toy_split false) (regs SplitClassifier false false)
                   toy_heap []
  = Some (Ok (toy_heap, [50; 50; 75; 100; 100; 75]%Q)) /\
  exists i reg v,
    first_maximum [50; 50; 75; 100; 100; 75]%Q i v /\
    nth_error (regs SplitClassifier false false) i = Some reg /\
    toy_SplitClassifier_run 0 (toy_split false) toy_heap
    = (ha <-- toy_split_evaluate 0 (toy_split false) toy_heap reg ;;
       lift (Ok (fst ha, (v, snd ha)))).
Proof.
  split; [vm_compute; reflexivity|].
  apply (proj1 (optreg_is_first_maximum
                  toy_forward toy_argmax toy_permutation toy_train_step
                  toy_torch_init toy_round_percent toy_py_round2 toy_np_mean
                  toy_logreg_fit toy_logreg_score toy_logreg_predict
                  toy_skf_split)
               0%nat (toy_split false) toy_heap toy_heap
               [50; 50; 75; 100; 100; 75]%Q).
  vm_compute. reflexivity.
Defined.

Example toy_optreg_tie_value :
  first_maximum [50; 50; 75; 100; 100; 75]%Q 3 100 /\
  nth_error (regs SplitClassifier false false) 3 = Some 2%Q /\
  toy_split_evaluate 0 (toy_split false) toy_heap 2%Q
  = Some (Ok (toy_heap, (200 # 3)%Q)) /\
  toy_SplitClassifier_run 0 (toy_split false) toy_heap
  = Some (Ok (toy_heap, (100, 200 # 3)%Q)).
Proof.
  split; [|repeat split; vm_compute; reflexivity].
  split; [reflexivity|]. split.
  - intros j w H. do 6 (destruct j as [|j]; [inversion H; subst;
      unfold Qle; simpl; lia|]). destruct j; discriminate.
  - intros j w Hj H. do 3 (destruct j as [|j]; [inversion H; subst;
      unfold Qlt; simpl; lia|]). lia.
Qed.
